(** * curve.py: a two-pass G-code rewriter, embedded and verified

    The program reads a G-code file, scans it once to learn the bounding
    box of the print (class [GCodeScanner]) and rewrites it in a second
    pass (class [GCodeTranslator]) so that Z follows a spherical
    depression.  Both passes are state machines driven by
    [GCodeProcessor.handle_line].

    The embedding follows the Python source function by function.
    - Python [float] is IEEE 754 binary64: Rocq's primitive [float], whose
      operations are specified by [SpecFloat] (round to nearest even).
      The [int] constants of the source ([0], [1], [2], [4]) only meet
      floats, and are the floats they convert to.
    - [**] goes through [pow] of the C library, which need not round
      correctly: the library is a parameter, the class [PyFloat.Libm].
      General statements hold for every library, or for every library
      with the one property they name; examples on concrete lines are
      run with [PyFloat.crlibm], which rounds correctly.
    - Python [str] is [string]; a character is a code point below 256.
    - Python [dict] keeps insertion order, and the order shows in the
      output: an association list without duplicate keys.
    - A Python exception is the [Raise] branch of [result]; the [while]
      loop of [handle_line] is run with fuel, and running out of fuel is
      a third outcome, [OutOfFuel]. *)

From Stdlib Require Import ZArith List String Ascii Bool Lia Floats.
From Stdlib Require Import DecimalString.
Import ListNotations.

Set Implicit Arguments.
Open Scope string_scope.

(** ** Exceptions and results *)

Inductive exn : Set :=
| ValueError          (* float() of a non-number, math domain error *)
| ZeroDivisionError   (* float division by zero *)
| OverflowError       (* float ** overflow, int too large for a float *)
| TypeError           (* arithmetic on None *)
| KeyError            (* a key that is not in the dict *)
| UnboundLocalError.  (* a local read before it is assigned *)

Inductive result (A : Type) : Type :=
| OK (a : A)
| Raise (e : exn).

Arguments OK {A} a.
Arguments Raise {A} e.

Definition bind {A B : Type} (r : result A) (k : A -> result B) : result B :=
  match r with
  | OK a => k a
  | Raise e => Raise e
  end.

Declare Scope py_scope.
Delimit Scope py_scope with py.
Notation "x <- r ;; k" := (bind r (fun x => k))
  (at level 61, r at next level, right associativity) : py_scope.
Notation "' p <- r ;; k" := (bind r (fun x => let 'p := x in k))
  (at level 61, p pattern, r at next level, right associativity) : py_scope.
Open Scope py_scope.

(** [[f(x) for x in l]] where [f] may raise: left to right, first error wins. *)
Fixpoint mapM {A B : Type} (f : A -> result B) (l : list A) : result (list B) :=
  match l with
  | [] => OK []
  | a :: l' => b <- f a ;; bs <- mapM f l' ;; OK (b :: bs)
  end.

(** ** Strings *)

Module PyStr.

(** [str.isspace] on one character, for code points below 256. *)
Definition isspace (c : ascii) : bool :=
  let n := nat_of_ascii c in
  ((9 <=? n) && (n <=? 13) || (28 <=? n) && (n <=? 32)
   || (n =? 133) || (n =? 160))%nat.

Definition is_empty (s : string) : bool :=
  match s with
  | EmptyString => true
  | String _ _ => false
  end.

(** [s.lstrip()], [s.rstrip()], [s.strip()] *)
Fixpoint lstrip (s : string) : string :=
  match s with
  | EmptyString => EmptyString
  | String c s' => if isspace c then lstrip s' else s
  end.

Fixpoint rstrip (s : string) : string :=
  match s with
  | EmptyString => EmptyString
  | String c s' =>
      let r := rstrip s' in
      if isspace c && is_empty r then EmptyString else String c r
  end.

Definition strip (s : string) : string := rstrip (lstrip s).

(** [s.split()]: maximal runs of non-whitespace characters.  [tok] is
    the run being read, already in order. *)
Fixpoint split_from (tok : string) (s : string) : list string :=
  match s with
  | EmptyString => if is_empty tok then [] else [tok]
  | String c s' =>
      if isspace c
      then (if is_empty tok then split_from "" s' else tok :: split_from "" s')
      else split_from (tok ++ String c "") s'
  end.

Definition split (s : string) : list string := split_from "" s.

(** [sep in s] and [s.split(sep, 1)] for a one-character separator:
    [None] when [sep] does not occur, else the text before the first
    occurrence and the text after it. *)
Fixpoint partition (sep : ascii) (s : string) : option (string * string) :=
  match s with
  | EmptyString => None
  | String c s' =>
      if Ascii.eqb c sep then Some ("", s')
      else match partition sep s' with
           | Some (a, b) => Some (String c a, b)
           | None => None
           end
  end.

Definition contains (sep : ascii) (s : string) : bool :=
  match partition sep s with
  | Some _ => true
  | None => false
  end.

(** [s.startswith(p)] *)
Definition startswith (p s : string) : bool := String.prefix p s.

End PyStr.

(** ** Floats *)

Module PyFloat.

Definition zero : float := PrimFloat.zero.
Definition one : float := PrimFloat.one.
Definition two : float := PrimFloat.two.
Definition four : float := PrimFloat.mul PrimFloat.two PrimFloat.two.
Definition inf : float := PrimFloat.infinity.

Definition cond_neg (neg : bool) (f : float) : float :=
  if neg then PrimFloat.opp f else f.

(** [a / b]: Python raises when the divisor compares equal to zero. *)
Definition div (a b : float) : result float :=
  if PrimFloat.eqb b zero then Raise ZeroDivisionError
  else OK (PrimFloat.div a b).

(** [a ** 2].  CPython's [float_pow] sorts the special operands out
    itself (a NaN, an infinity, a zero, a negative number, 1) and hands
    the others to [pow] of the C library.  The C standard leaves the
    accuracy of [pow] to the library, so the last bit of [a ** 2]
    depends on the platform, and the library is a parameter of the
    program: [pow2 x] is what [pow(x, 2.0)] returns, with the [errno]
    it leaves. *)
Inductive errno : Set :=
| NoError   (* errno is still 0 *)
| ERANGE
| EDOM.

Class Libm : Type := { pow2 : float -> float * errno }.

(** A library whose [pow] rounds the square to the nearest float and
    reports an overflow: what the examples are run with. *)
Definition crlibm : Libm := {|
  pow2 x :=
    let r := PrimFloat.mul x x in
    (r, if PrimFloat.is_infinity r then ERANGE else NoError)
|}.

(** [_Py_ADJUST_ERANGE1]: an infinite result is a range error whether
    the library says so or not, and an underflow to zero is none. *)
Definition adjust_erange1 (x : float) (e : errno) : errno :=
  match e with
  | NoError => if PrimFloat.is_infinity x then ERANGE else NoError
  | ERANGE => if PrimFloat.eqb x zero then NoError else ERANGE
  | EDOM => EDOM
  end.

(** [float_pow] with the exponent 2.0: a range error is an
    [OverflowError], any other [errno] a [ValueError]. *)
Definition sqr {L : Libm} (a : float) : result float :=
  if PrimFloat.is_nan a then OK a
  else if PrimFloat.is_infinity a then OK (PrimFloat.abs a)
  else if PrimFloat.eqb a zero then OK zero
  else
    let iv := if PrimFloat.ltb a zero then PrimFloat.opp a else a in
    if PrimFloat.eqb iv one then OK one
    else
      let (ix, e) := pow2 iv in
      match adjust_erange1 ix e with
      | NoError => OK ix
      | ERANGE => Raise OverflowError
      | EDOM => Raise ValueError
      end.

(** [math.sqrt(a)]: a NaN result from a non-NaN argument is a
    "math domain error". *)
Definition sqrt (a : float) : result float :=
  let r := PrimFloat.sqrt a in
  if PrimFloat.is_nan r && negb (PrimFloat.is_nan a)
  then Raise ValueError else OK r.

(** An [int] used where a float is needed: rounded to nearest even,
    [OverflowError] when it is too large for a float. *)
Definition of_Z (z : Z) : float := SF2Prim (binary_normalize prec emax z 0 false).

Definition of_int (z : Z) : result float :=
  let f := of_Z z in
  if PrimFloat.is_infinity f then Raise OverflowError else OK f.

(** *** [float(s)] for a string *)

Definition digit_of (c : ascii) : option N :=
  let n := N_of_ascii c in
  if ((48 <=? n) && (n <=? 57))%N then Some (n - 48)%N else None.

Definition is_digit (c : ascii) : bool :=
  match digit_of c with Some _ => true | None => false end.

(** Group separators: an underscore must stand between two digits;
    the text is then read without them.  [prev] is the character
    before [s], if any. *)
Fixpoint drop_underscores (prev : option ascii) (s : string) : option string :=
  match s with
  | EmptyString =>
      match prev with
      | Some "_"%char => None
      | _ => Some EmptyString
      end
  | String c s' =>
      if Ascii.eqb c "_" then
        match prev with
        | Some p => if is_digit p then drop_underscores (Some c) s' else None
        | None => None
        end
      else
        match prev with
        | Some "_"%char =>
            if is_digit c
            then option_map (String c) (drop_underscores (Some c) s')
            else None
        | _ => option_map (String c) (drop_underscores (Some c) s')
        end
  end.

(** The longest run of digits at the head of [s], read on top of
    [acc]; [cnt] counts them. *)
Fixpoint digits (acc : N) (cnt : nat) (s : string) : N * nat * string :=
  match s with
  | EmptyString => (acc, cnt, s)
  | String c s' =>
      match digit_of c with
      | Some d => digits (10 * acc + d)%N (S cnt) s'
      | None => (acc, cnt, s)
      end
  end.

Definition sign (s : string) : bool * string :=
  match s with
  | String "-" s' => (true, s')
  | String "+" s' => (false, s')
  | _ => (false, s)
  end.

(** digits [. digits] [(e|E) [sign] digits], with a digit before the
    exponent and nothing left over: the mantissa as an integer and
    the power of ten it is scaled by. *)
Definition parse_decimal (s : string) : option (N * Z) :=
  let '(ip, ni, r1) := digits 0 0 s in
  let '(m, nf, r2) :=
    match r1 with
    | String "." r => digits ip 0 r
    | _ => (ip, 0%nat, r1)
    end in
  if (ni + nf =? 0)%nat then None
  else
    match r2 with
    | EmptyString => Some (m, (- Z.of_nat nf)%Z)
    | String c r =>
        if Ascii.eqb c "e" || Ascii.eqb c "E" then
          let (eneg, r') := sign r in
          match digits 0 0 r' with
          | (_, O, _) => None
          | (ev, _, EmptyString) =>
              Some (m, ((if eneg then - Z.of_N ev else Z.of_N ev) - Z.of_nat nf)%Z)
          | _ => None
          end
        else None
    end.

(** The float nearest to [m * 10^e] (ties to even); too large a value
    becomes an infinity, as in [float("1e999")]. *)
Definition of_decimal (neg : bool) (m : N) (e : Z) : float :=
  match m with
  | N0 => cond_neg neg zero
  | Npos p =>
      if (0 <=? e)%Z then
        match (Zpos p * 10 ^ e)%Z with
        | Zpos n => SF2Prim (binary_round prec emax neg n 0)
        | _ => PrimFloat.nan
        end
      else
        let '(q, eq, l) := SFdiv_core_binary prec emax (Zpos p) 0 (10 ^ (- e)) 0 in
        SF2Prim (binary_round_aux prec emax neg q eq l)
  end.

(** [float()] strips the whitespace of C and the spaces beyond ASCII;
    the separators 28 to 31, which [str.strip] takes off, stay. *)
Definition isspace (c : ascii) : bool :=
  let n := nat_of_ascii c in
  ((9 <=? n) && (n <=? 13) || (n =? 32) || (n =? 133) || (n =? 160))%nat.

Fixpoint lstrip (s : string) : string :=
  match s with
  | EmptyString => EmptyString
  | String c s' => if isspace c then lstrip s' else s
  end.

Fixpoint rstrip (s : string) : string :=
  match s with
  | EmptyString => EmptyString
  | String c s' =>
      let r := rstrip s' in
      if isspace c && PyStr.is_empty r then EmptyString else String c r
  end.

Definition lower (c : ascii) : ascii :=
  let n := nat_of_ascii c in
  if ((65 <=? n) && (n <=? 90))%nat then ascii_of_nat (n + 32) else c.

Fixpoint lowercase (s : string) : string :=
  match s with
  | EmptyString => EmptyString
  | String c s' => String (lower c) (lowercase s')
  end.

Definition of_string (s : string) : result float :=
  match drop_underscores None s with
  | None => Raise ValueError
  | Some s1 =>
      let (neg, s2) := sign (rstrip (lstrip s1)) in
      match parse_decimal s2 with
      | Some (m, e) => OK (of_decimal neg m e)
      | None =>
          let w := lowercase s2 in
          if String.eqb w "inf" || String.eqb w "infinity" then OK (cond_neg neg inf)
          else if String.eqb w "nan" then OK PrimFloat.nan
          else Raise ValueError
      end
  end.

(** *** [f'{x:.{d}f}'] *)

(** [num / den] rounded to the nearest integer, ties to even. *)
Definition div_half_even (num den : Z) : Z :=
  let q := (num / den)%Z in
  let r := (num mod den)%Z in
  if (den <? 2 * r)%Z then (q + 1)%Z
  else if (2 * r =? den)%Z && Z.odd q then (q + 1)%Z
  else q.

Fixpoint zeros (n : nat) : string :=
  match n with
  | O => EmptyString
  | S k => String "0" (zeros k)
  end.

(** The integer [n], read as a count of units of [10^-d], in decimal. *)
Definition fixed_digits (d : nat) (n : Z) : string :=
  let s := NilEmpty.string_of_uint (N.to_uint (Z.to_N n)) in
  let s := (zeros (S d - String.length s) ++ s)%string in
  let k := (String.length s - d)%nat in
  match d with
  | O => s
  | _ => (substring 0 k s ++ "." ++ substring k d s)%string
  end.

Definition format_fixed (d : nat) (x : float) : string :=
  let minus (s : bool) := if s then "-"%string else ""%string in
  match Prim2SF x with
  | S754_nan => "nan"%string
  | S754_infinity s => (minus s ++ "inf")%string
  | S754_zero s => (minus s ++ fixed_digits d 0)%string
  | S754_finite s m e =>
      let n :=
        if (0 <=? e)%Z then (Zpos m * 2 ^ e * 10 ^ Z.of_nat d)%Z
        else div_half_even (Zpos m * 10 ^ Z.of_nat d) (2 ^ (- e)) in
      (minus s ++ fixed_digits d n)%string
  end.

(** *** [str(x)], which is [repr(x)] *)

Definition decimal (n : Z) : string :=
  NilEmpty.string_of_uint (N.to_uint (Z.to_N n)).

(** For [x = num / den > 0], the least [p] with [x < 10^p]; every
    positive float is above [10^-400]. *)
Definition decpt (num den : Z) : Z :=
  (Z.of_nat (String.length (decimal (num * 10 ^ 400 / den))) - 400)%Z.

(** The decimals of [n] digits next to [x] on either side, as
    [c * 10^k]: the one that reads back as [x], the nearer one if both
    do (the even one on a tie). *)
Definition shortest_at (x : float) (num den p : Z) (n : nat) : option (Z * Z) :=
  let k := (p - Z.of_nat n)%Z in
  let '(a, b) :=
    if (0 <=? k)%Z then (num, den * 10 ^ k)%Z else (num * 10 ^ (- k), den)%Z in
  let lo := (a / b)%Z in
  let r := (a mod b)%Z in
  let reads_back c := PrimFloat.eqb (of_decimal false (Z.to_N c) k) x in
  let upper := ((b <? 2 * r) || ((2 * r =? b) && Z.odd lo))%Z in
  match reads_back lo, reads_back (lo + 1)%Z with
  | true, true => Some (if upper then (lo + 1)%Z else lo, k)
  | true, false => Some (lo, k)
  | false, true => Some ((lo + 1)%Z, k)
  | false, false => None
  end.

(** The shortest such decimal: [n] digits are tried for [n] from
    [n0] on, [fuel] lengths at most. *)
Fixpoint shortest (fuel : nat) (x : float) (num den p : Z) (n0 : nat) : option (Z * Z) :=
  match fuel with
  | O => None
  | S f =>
      match shortest_at x num den p n0 with
      | Some ck => Some ck
      | None => shortest f x num den p (S n0)
      end
  end.

Fixpoint strip_zeros (s : string) : string :=
  match s with
  | EmptyString => EmptyString
  | String c s' =>
      let r := strip_zeros s' in
      if Ascii.eqb c "0" && PyStr.is_empty r then EmptyString else String c r
  end.

(** Digits [ds] read as [0.ds * 10^dp], laid out by the rules of
    [repr]: an exponent when [dp] is at most -4 or above 16. *)
Definition layout (ds : string) (dp : Z) : string :=
  let nd := String.length ds in
  if ((dp <=? -4) || (16 <? dp))%Z then
    let e := (dp - 1)%Z in
    let es := decimal (Z.abs e) in
    ((if (nd <=? 1)%nat then ds
      else substring 0 1 ds ++ "." ++ substring 1 (nd - 1) ds)
     ++ "e" ++ (if (e <? 0)%Z then "-" else "+")
     ++ zeros (2 - String.length es) ++ es)%string
  else if (dp <=? 0)%Z then ("0." ++ zeros (Z.to_nat (- dp)) ++ ds)%string
  else if (Z.of_nat nd <=? dp)%Z then (ds ++ zeros (Z.to_nat dp - nd) ++ ".0")%string
  else (substring 0 (Z.to_nat dp) ds ++ "." ++ substring (Z.to_nat dp) (nd - Z.to_nat dp) ds)%string.

Definition repr (x : float) : string :=
  let minus (s : bool) := if s then "-"%string else ""%string in
  match Prim2SF x with
  | S754_nan => "nan"%string
  | S754_infinity s => (minus s ++ "inf")%string
  | S754_zero s => (minus s ++ "0.0")%string
  | S754_finite s m e =>
      let '(num, den) :=
        if (0 <=? e)%Z then (Zpos m * 2 ^ e, 1)%Z else (Zpos m, 2 ^ (- e))%Z in
      let p := decpt num den in
      match shortest 17 (PrimFloat.abs x) num den p 1 with
      | Some (c, k) =>
          let ds := decimal c in
          (minus s ++ layout (strip_zeros ds) (k + Z.of_nat (String.length ds)))%string
      | None => (minus s ++ "?")%string
      end
  end.

End PyFloat.

(** ** Dictionaries *)

Module Dict.

Section WithValues.
Variable V : Type.

Definition t : Type := list (string * V).

(** [d.get(k)] *)
Fixpoint get (k : string) (d : t) : option V :=
  match d with
  | [] => None
  | (k', v) :: d' => if String.eqb k' k then Some v else get k d'
  end.

(** [k in d] *)
Definition mem (k : string) (d : t) : bool :=
  match get k d with
  | Some _ => true
  | None => false
  end.

(** [d[k] = v]: a key already there keeps its place, a new one
    goes last. *)
Fixpoint set (k : string) (v : V) (d : t) : t :=
  match d with
  | [] => [(k, v)]
  | (k', v') :: d' =>
      if String.eqb k' k then (k', v) :: d' else (k', v') :: set k v d'
  end.

(** [d.update(p)] and [{k: v for ...}]: assignments in order. *)
Definition update (d : t) (p : t) : t :=
  fold_left (fun acc kv => set (fst kv) (snd kv) acc) p d.

Definition of_list (p : list (string * V)) : t := update [] p.

End WithValues.

End Dict.

(** ** interpolate *)

(** [interpolate(n, **p)], all of its points.  [p] gives a range
    [(start, end)] per axis; the step of an axis is computed once and
    point [i] is [start + i * step], for [i] from 1 to [n]. *)
Definition step_of (n : Z) (j : float * float) : result float :=
  nf <- PyFloat.of_int n ;;
  PyFloat.div (PrimFloat.sub (snd j) (fst j)) nf.

Definition point_of (p : Dict.t (float * float)) (s : Dict.t float) (i : Z)
  : result (Dict.t float) :=
  mapM (fun kj : string * (float * float) =>
          match Dict.get (fst kj) s with
          | Some sk =>
              fi <- PyFloat.of_int i ;;
              OK (fst kj, PrimFloat.add (fst (snd kj)) (PrimFloat.mul fi sk))
          | None => Raise KeyError
          end) p.

(** [range(1, n + 1)] *)
Definition range1 (n : Z) : list Z :=
  map (fun i => Z.of_nat (S i)) (seq 0 (Z.to_nat n)).

Definition interpolate (n : Z) (p : Dict.t (float * float))
  : result (list (Dict.t float)) :=
  s <- mapM (fun kj : string * (float * float) =>
               sk <- step_of n (snd kj) ;; OK (fst kj, sk)) p ;;
  mapM (point_of p s) (range1 n).

(** ** GCode *)

Module GCode.

(** An argument is the text read from the line until the translator
    writes a number over it. *)
Inductive value : Type :=
| VStr (s : string)
| VFloat (f : float).

Record t : Type := make {
  command : string;
  args : Dict.t value;
  comment : string
}.

(** [float(v)] *)
Definition to_float (v : value) : result float :=
  match v with
  | VStr s => PyFloat.of_string s
  | VFloat f => OK f
  end.

(** [float(g.args[k])] *)
Definition float_arg (k : string) (g : t) : result float :=
  match Dict.get k (args g) with
  | Some v => to_float v
  | None => Raise KeyError
  end.

(** [g.args[k] = v] *)
Definition set_arg (k : string) (v : value) (g : t) : t :=
  make (command g) (Dict.set k v (args g)) (comment g).

(** One token after the first: its first character is the key, the
    rest the value. *)
Definition arg_of (tok : string) : string * value :=
  match tok with
  | EmptyString => (EmptyString, VStr EmptyString)
  | String c rest => (String c EmptyString, VStr rest)
  end.

Definition parse (line : string) : t :=
  let line := PyStr.rstrip line in
  let '(cmd, comment) :=
    match PyStr.partition ";" line with
    | Some (before, after) => (before, String ";" after)
    | None => (line, EmptyString)
    end in
  let tokens := PyStr.split (PyStr.strip cmd) in
  match tokens with
  | [] => make EmptyString [] comment
  | c :: rest => make c (Dict.of_list (map arg_of rest)) comment
  end.

(** [f'{v}'] for a value written as it is *)
Definition raw (v : value) : string :=
  match v with
  | VStr s => s
  | VFloat f => PyFloat.repr f
  end.

Definition format_arg (k : string) (v : value) : result string :=
  if String.eqb k "E" then
    f <- to_float v ;; OK (PyFloat.format_fixed 5 f)
  else if String.eqb k "X" || String.eqb k "Y" || String.eqb k "Z" then
    f <- to_float v ;; OK (PyFloat.format_fixed 3 f)
  else OK (raw v).

Fixpoint format_args (s : string) (d : Dict.t value) : result string :=
  match d with
  | [] => OK s
  | (k, v) :: d' =>
      fv <- format_arg k v ;;
      format_args (s ++ " " ++ k ++ fv) d'
  end.

(** [__str__] *)
Definition str (g : t) : result string :=
  s <- format_args (command g) (args g) ;;
  if PyStr.is_empty (comment g) then OK s
  else
    let s := if PyStr.is_empty (PyStr.strip s) then s
             else PyStr.strip s ++ " " in
    let s := if PyStr.startswith ";" (comment g) then s else s ++ ";" in
    OK (s ++ comment g).

End GCode.

(** ** GCodeProcessor *)

(** What feeding lines to a machine comes to: it returns, it raises, or
    the loop of [handle_line] is still turning when the fuel is spent. *)
Inductive outcome (A : Type) : Type :=
| Returned (a : A)
| Raised (e : exn)
| OutOfFuel.

Arguments Returned {A} a.
Arguments Raised {A} e.
Arguments OutOfFuel {A}.

Section GCodeProcessor.

(** A machine: the names of its states, the rest of the object, and
    what calling the state [s] on a parsed line does: it raises, or
    changes the object and returns the next state or [None]. *)
Variables state data : Type.
Variable call : state -> data -> GCode.t -> result (data * option state).

(** The body of [handle_line] once the line is parsed: [self.state]
    is called, and called again as long as the call returns a state. *)
Fixpoint replay (fuel : nat) (s : state) (d : data) (g : GCode.t)
  : outcome (state * data) :=
  match fuel with
  | O => OutOfFuel
  | S fuel' =>
      match call s d g with
      | Raise e => Raised e
      | OK (d', None) => Returned (s, d')
      | OK (d', Some s') => replay fuel' s' d' g
      end
  end.

Definition handle_line (fuel : nat) (sd : state * data) (line : string)
  : outcome (state * data) :=
  replay fuel (fst sd) (snd sd) (GCode.parse line).

(** [for line in lines: self.handle_line(line)] *)
Fixpoint handle_lines (fuel : nat) (sd : state * data) (lines : list string)
  : outcome (state * data) :=
  match lines with
  | [] => Returned sd
  | line :: rest =>
      match handle_line fuel sd line with
      | Returned sd' => handle_lines fuel sd' rest
      | Raised e => Raised e
      | OutOfFuel => OutOfFuel
      end
  end.

End GCodeProcessor.

(** ** GCodeScanner *)

Module GCodeScanner.

Inductive state : Set :=
| Intro
| SkipSkirt
| RegionScan
| SkipRelativePosition
| EndStage.

Record t : Type := make {
  max_x : float;
  min_x : float;
  max_y : float;
  min_y : float;
  max_z : float;
  min_z : float;
  target_depression : float
}.

(** [__init__]: the machine starts in [Intro]; [9e999] reads as
    infinity. *)
Definition init (td : float) : state * t :=
  (Intro, make PyFloat.zero PyFloat.inf PyFloat.zero PyFloat.inf
               PyFloat.zero PyFloat.zero td).

(** [max(a, b)] and [min(a, b)] keep [a] unless [b] is strictly
    beyond it. *)
Definition max (a b : float) : float := if PrimFloat.ltb a b then b else a.
Definition min (a b : float) : float := if PrimFloat.ltb b a then b else a.

Definition xmid (self : t) (x : float) : result float :=
  let m := PrimFloat.add (min_x self)
             (PrimFloat.div (PrimFloat.sub (max_x self) (min_x self)) PyFloat.two) in
  PyFloat.div (PrimFloat.sub x m) (PrimFloat.sub (max_x self) m).

Definition ymid (self : t) (y : float) : result float :=
  let m := PrimFloat.add (min_y self)
             (PrimFloat.div (PrimFloat.sub (max_y self) (min_y self)) PyFloat.two) in
  PyFloat.div (PrimFloat.sub y m) (PrimFloat.sub (max_y self) m).

Definition layer_depression (self : t) (z : float) : result float :=
  q <- PyFloat.div z (max_z self) ;;
  OK (PrimFloat.mul (PrimFloat.mul (target_depression self) q) PyFloat.four).

Definition is_motion (g : GCode.t) : bool :=
  String.eqb (GCode.command g) "G0" || String.eqb (GCode.command g) "G1".

Definition see_x (self : t) (x : float) : t :=
  make (max (max_x self) x) (min (min_x self) x) (max_y self) (min_y self)
       (max_z self) (min_z self) (target_depression self).

Definition see_y (self : t) (y : float) : t :=
  make (max_x self) (min_x self) (max (max_y self) y) (min (min_y self) y)
       (max_z self) (min_z self) (target_depression self).

Definition see_z (self : t) (z : float) : t :=
  make (max_x self) (min_x self) (max_y self) (min_y self)
       (max (max_z self) z) (min_z self) (target_depression self).

(** [if k in g.args: v = float(g.args[k]); ...] *)
Definition when_arg (k : string) (g : GCode.t) (see : t -> float -> t) (self : t)
  : result t :=
  if Dict.mem k (GCode.args g)
  then v <- GCode.float_arg k g ;; OK (see self v)
  else OK self.

Definition call (s : state) (self : t) (g : GCode.t) : result (t * option state) :=
  match s with
  | Intro =>
      if String.eqb (GCode.comment g) ";TYPE:SKIRT"
      then OK (self, Some SkipSkirt) else OK (self, None)
  | SkipSkirt =>
      if PyStr.startswith ";TYPE" (GCode.comment g)
      then OK (self, Some RegionScan) else OK (self, None)
  | RegionScan =>
      if String.eqb (GCode.command g) "M107" then OK (self, Some EndStage)
      else if String.eqb (GCode.command g) "G91" then OK (self, Some SkipRelativePosition)
      else if negb (is_motion g) then OK (self, None)
      else
        self <- when_arg "X" g see_x self ;;
        self <- when_arg "Y" g see_y self ;;
        self <- when_arg "Z" g see_z self ;;
        OK (self, None)
  | SkipRelativePosition =>
      if String.eqb (GCode.command g) "G90"
      then OK (self, Some RegionScan) else OK (self, None)
  | EndStage => OK (self, None)
  end.

Definition handle_line := handle_line call.
Definition handle_lines := handle_lines call.

End GCodeScanner.

(** ** GCodeTranslator *)

Module GCodeTranslator.

Inductive state : Set :=
| Intro
| LayerHeader
| LayerCode
| EndStage.

Record t : Type := make {
  model : GCodeScanner.t;
  output : list GCode.t;
  first_z : option float;
  layer_z : float;
  last_x : float;
  last_y : float;
  last_z : float;
  last_e : float
}.

Definition init (model : GCodeScanner.t) : state * t :=
  (Intro, make model [] None PyFloat.zero PyFloat.zero PyFloat.zero
               PyFloat.zero PyFloat.zero).

(** [self.output.append(g)] *)
Definition append (self : t) (g : GCode.t) : t :=
  make (model self) (output self ++ [g])%list (first_z self) (layer_z self)
       (last_x self) (last_y self) (last_z self) (last_e self).

(** [self.layer_z = z], and [self.first_z = z] if it is [None] *)
Definition set_layer_z (self : t) (z : float) : t :=
  make (model self) (output self)
       (match first_z self with None => Some z | Some fz => Some fz end)
       z (last_x self) (last_y self) (last_z self) (last_e self).

(** [self.last_x = x; self.last_y = y] *)
Definition set_last_xy (self : t) (x y : float) : t :=
  make (model self) (output self) (first_z self) (layer_z self)
       x y (last_z self) (last_e self).

Definition set_last_e (self : t) (e : float) : t :=
  make (model self) (output self) (first_z self) (layer_z self)
       (last_x self) (last_y self) (last_z self) e.

Section WithLibm.

Context {L : PyFloat.Libm}.

Definition target_z (self : t) (x y z : float) : result float :=
  match first_z self with
  | None => Raise TypeError
  | Some fz =>
      d <- GCodeScanner.layer_depression (model self) (PrimFloat.sub z fz) ;;
      x <- GCodeScanner.xmid (model self) x ;;
      y <- GCodeScanner.ymid (model self) y ;;
      d2 <- PyFloat.sqr d ;;
      s <- PyFloat.sqrt (PrimFloat.sub (PrimFloat.mul PyFloat.two d) d2) ;;
      ys2 <- PyFloat.sqr (PrimFloat.mul y s) ;;
      f <- PyFloat.sqrt (PrimFloat.sub PyFloat.one ys2) ;;
      OK (PrimFloat.sub (PrimFloat.add z f) PyFloat.one)
  end.

(** [g.command == 'G0' and 'Z' in g.args] *)
Definition is_layer_move (g : GCode.t) : bool :=
  String.eqb (GCode.command g) "G0" && Dict.mem "Z" (GCode.args g).

(** [float(g.args[k]) if k in g.args else dflt] *)
Definition target (k : string) (g : GCode.t) (dflt : float) : result float :=
  if Dict.mem k (GCode.args g) then GCode.float_arg k g else OK dflt.

(** [point[k]] *)
Definition coord (k : string) (point : Dict.t float) : result float :=
  match Dict.get k point with
  | Some v => OK v
  | None => Raise KeyError
  end.

(** [new_g = copy.deepcopy(g); new_g.args.update(point)] *)
Definition clone_with (g : GCode.t) (point : Dict.t float) : GCode.t :=
  GCode.make (GCode.command g)
    (Dict.update (GCode.args g)
       (map (fun kv : string * float => (fst kv, GCode.VFloat (snd kv))) point))
    (GCode.comment g).

(** The body of [for point in interpolate(4, **ir)], over the points
    that are left; [new_g] is the last clone made so far, if any. *)
Fixpoint subdivide (self : t) (g : GCode.t) (new_g : option GCode.t)
  (points : list (Dict.t float)) : result (t * option GCode.t) :=
  match points with
  | [] => OK (self, new_g)
  | point :: rest =>
      px <- coord "X" point ;;
      py <- coord "Y" point ;;
      z <- target_z self px py (layer_z self) ;;
      let c := clone_with g (Dict.set "Z" z point) in
      subdivide (append self c) g (Some c) rest
  end.

Definition LayerCode_motion (self : t) (g : GCode.t) : result (t * option state) :=
  self <- (if is_layer_move g
           then z <- GCode.float_arg "Z" g ;; OK (set_layer_z self z)
           else OK self) ;;
  target_x <- target "X" g (last_x self) ;;
  target_y <- target "Y" g (last_y self) ;;
  if is_layer_move g then
    z <- target_z self target_x target_y (layer_z self) ;;
    let g := GCode.set_arg "Z" (GCode.VFloat z) g in
    OK (set_last_xy (append self g) target_x target_y, None)
  else
    '(self, new_g) <-
      (if PrimFloat.eqb target_y (last_y self) then
         z <- target_z self target_x target_y (layer_z self) ;;
         let new_g := GCode.set_arg "Z" (GCode.VFloat z) g in
         OK (append self new_g, Some new_g)
       else
         let ir := [("X", (last_x self, target_x)); ("Y", (last_y self, target_y))] in
         ir <- (if Dict.mem "E" (GCode.args g)
                then e <- GCode.float_arg "E" g ;;
                     OK (Dict.set "E" (last_e self, e) ir)
                else OK ir) ;;
         points <- interpolate 4 ir ;;
         subdivide self g None points) ;;
    let self := set_last_xy self target_x target_y in
    match new_g with
    | None => Raise UnboundLocalError
    | Some new_g =>
        if Dict.mem "E" (GCode.args new_g)
        then e <- GCode.float_arg "E" new_g ;; OK (set_last_e self e, None)
        else OK (self, None)
    end.

Definition call (s : state) (self : t) (g : GCode.t) : result (t * option state) :=
  match s with
  | Intro =>
      if PyStr.startswith ";LAYER:" (GCode.comment g)
      then OK (self, Some LayerHeader)
      else OK (append self g, None)
  | LayerHeader =>
      if is_layer_move g
      then OK (self, Some LayerCode)
      else OK (append self g, None)
  | LayerCode =>
      if PyStr.startswith ";LAYER:" (GCode.comment g) then OK (self, Some LayerHeader)
      else if String.eqb (GCode.command g) "M107" then OK (self, Some EndStage)
      else if negb (GCodeScanner.is_motion g) then OK (append self g, None)
      else LayerCode_motion self g
  | EndStage => OK (append self g, None)
  end.

Definition handle_line := handle_line call.
Definition handle_lines := handle_lines call.

End WithLibm.

End GCodeTranslator.

(** ** main *)

(** The two passes over the lines of the file, and the lines printed
    from the output of the second.  The comment line that [main]
    prints between the passes, with the fields of the model, is left
    out. *)
Definition main {L : PyFloat.Libm} (fuel : nat) (lines : list string)
  (depress : float) : outcome (list string) :=
  match GCodeScanner.handle_lines fuel (GCodeScanner.init depress) lines with
  | Returned (_, model) =>
      match GCodeTranslator.handle_lines fuel (GCodeTranslator.init model) lines with
      | Returned (_, proc) =>
          match mapM GCode.str (GCodeTranslator.output proc) with
          | OK out => Returned out
          | Raise e => Raised e
          end
      | Raised e => Raised e
      | OutOfFuel => OutOfFuel
      end
  | Raised e => Raised e
  | OutOfFuel => OutOfFuel
  end.

(** * The vocabulary of the statements *)

(** ** Runs and states used as examples *)

(** What the translator prints for [lines] on top of the model [m]:
    the second half of [main]. *)
Definition translate {L : PyFloat.Libm} (fuel : nat) (m : GCodeScanner.t)
  (lines : list string) : outcome (list string) :=
  match GCodeTranslator.handle_lines fuel (GCodeTranslator.init m) lines with
  | Returned (_, proc) =>
      match mapM GCode.str (GCodeTranslator.output proc) with
      | OK out => Returned out
      | Raise e => Raised e
      end
  | Raised e => Raised e
  | OutOfFuel => OutOfFuel
  end.

(** The floats that [float("0.1")], [float("0.2")], [float("0.4")] and
    [float("5.2")] are. *)
Definition z01 : float := 0x1.999999999999ap-4%float.
Definition z02 : float := 0x1.999999999999ap-3%float.
Definition z04 : float := 0x1.999999999999ap-2%float.
Definition z52 : float := 0x1.4cccccccccccdp+2%float.

(** A scanner that has seen a region with X and Y from 0 to 20 and Z up
    to 10, with a zero depression and with a depression of 0.1. *)
Definition scanned_region : GCodeScanner.t :=
  GCodeScanner.make 20 0 20 0 10 0 0.

Definition deep_region : GCodeScanner.t :=
  GCodeScanner.make 20 0 20 0 10 0 z01.

(** The translator when it comes to the first layer move of a print,
    and once it is in a layer at 0.2. *)
Definition at_first_layer : GCodeTranslator.t :=
  GCodeTranslator.make scanned_region [] None 0 0 0 0 0.

Definition in_first_layer : GCodeTranslator.t :=
  GCodeTranslator.make scanned_region [] (Some z02) z02 0 0 0 0.

Definition in_deep_layer : GCodeTranslator.t :=
  GCodeTranslator.make deep_region [] (Some z02) z02 0 0 0 0.

(** ** States of the two machines *)

(** The scanner has left [Intro] and [SkipSkirt] behind. *)
Definition past_skirt (s : GCodeScanner.state) : Prop :=
  s <> GCodeScanner.Intro /\ s <> GCodeScanner.SkipSkirt.

(** [TypeError] is what [z - self.first_z] raises while [first_z] is
    [None]; nothing else in the program raises it. *)
Definition no_TypeError {A : Type} (r : result A) : Prop := r <> Raise TypeError.

(** The state [s] may be called on [g]: in [LayerCode] either the
    baseline is set or [g] is the layer move that is about to set it. *)
Definition may_call (s : GCodeTranslator.state) (self : GCodeTranslator.t)
  (g : GCode.t) : Prop :=
  s = GCodeTranslator.LayerCode ->
  GCodeTranslator.first_z self <> None \/ GCodeTranslator.is_layer_move g = true.

(** The state [s] may be left waiting for the next line. *)
Definition may_rest (sd : GCodeTranslator.state * GCodeTranslator.t) : Prop :=
  fst sd = GCodeTranslator.LayerCode -> GCodeTranslator.first_z (snd sd) <> None.

(** ** Moves and their sub-moves *)

(** A motion command of [LayerCode] that is not the layer move. *)
Definition ordinary_move (g : GCode.t) : Prop :=
  PyStr.startswith ";LAYER:" (GCode.comment g) = false
  /\ GCodeScanner.is_motion g = true
  /\ GCodeTranslator.is_layer_move g = false.

(** The step of an axis and point [i] of [n], as [interpolate] computes
    them: [(end - start) / n] once, then [start + i * step]. *)
Definition step (n : Z) (j : float * float) : float :=
  PrimFloat.div (PrimFloat.sub (snd j) (fst j)) (PyFloat.of_Z n).

Definition point (n : Z) (p : Dict.t (float * float)) (i : Z) : Dict.t float :=
  map (fun kj : string * (float * float) =>
         (fst kj,
          PrimFloat.add (fst (snd kj)) (PrimFloat.mul (PyFloat.of_Z i) (step n (snd kj)))))
    p.

(** Point [i] of four between [a] and [b]: [a + i * ((b - a) / 4)]. *)
Definition interpolated (a b : float) (i : Z) : float :=
  PrimFloat.add a (PrimFloat.mul (PyFloat.of_Z i) (step 4 (a, b))).

(** A key other than the four that the translator writes. *)
Definition other_key (k : string) : Prop :=
  k <> "X" /\ k <> "Y" /\ k <> "Z" /\ k <> "E".

(** [c] is sub-move [i] of the move [g] to [(tx, ty)] made in [self]. *)
Record sub_move {L : PyFloat.Libm} (self : GCodeTranslator.t) (g : GCode.t)
  (tx ty : float) (i : Z) (c : GCode.t) : Prop := {
  sub_command : GCode.command c = GCode.command g;
  sub_comment : GCode.comment c = GCode.comment g;
  sub_x : Dict.get "X" (GCode.args c)
          = Some (GCode.VFloat (interpolated (GCodeTranslator.last_x self) tx i));
  sub_y : Dict.get "Y" (GCode.args c)
          = Some (GCode.VFloat (interpolated (GCodeTranslator.last_y self) ty i));
  sub_e : match Dict.get "E" (GCode.args g) with
          | Some v =>
              exists te, GCode.to_float v = OK te
                /\ Dict.get "E" (GCode.args c)
                   = Some (GCode.VFloat
                             (interpolated (GCodeTranslator.last_e self) te i))
          | None => Dict.get "E" (GCode.args c) = None
          end;
  sub_z : exists z,
            GCodeTranslator.target_z self
              (interpolated (GCodeTranslator.last_x self) tx i)
              (interpolated (GCodeTranslator.last_y self) ty i)
              (GCodeTranslator.layer_z self) = OK z
            /\ Dict.get "Z" (GCode.args c) = Some (GCode.VFloat z);
  sub_others : forall k, other_key k ->
                         Dict.get k (GCode.args c) = Dict.get k (GCode.args g)
}.

(** What the loop over the points appends for one point: a clone with
    the height computed at the X and Y of the point. *)
Definition clone_at {L : PyFloat.Libm} (self : GCodeTranslator.t) (g : GCode.t)
  (point : Dict.t float) (c : GCode.t) : Prop :=
  exists x y z,
    GCodeTranslator.coord "X" point = OK x
    /\ GCodeTranslator.coord "Y" point = OK y
    /\ GCodeTranslator.target_z self x y (GCodeTranslator.layer_z self) = OK z
    /\ c = GCodeTranslator.clone_with g (Dict.set "Z" z point).

(** ** Strings *)

(** A string of whitespace, and a string without any. *)
Fixpoint all_space (s : string) : bool :=
  match s with
  | EmptyString => true
  | String c s' => PyStr.isspace c && all_space s'
  end.

Fixpoint no_space (s : string) : bool :=
  match s with
  | EmptyString => true
  | String c s' => negb (PyStr.isspace c) && no_space s'
  end.

(** ** Floats *)

(** What [binary_round_aux] may return for the exact value [m * 2^e]:
    a zero if [e] is below the format, an infinity if the value is too
    large, else a float of the format with at least the bits of [m]
    that its exponent leaves. *)
Inductive rounded (s : bool) (m e : Z) : spec_float -> Prop :=
| rounded_zero :
    (e < -1074)%Z -> rounded s m e (S754_zero s)
| rounded_infinity :
    (971 < fexp prec emax (Zdigits2 m + e + 1))%Z ->
    rounded s m e (S754_infinity s)
| rounded_finite (m' : positive) (e' : Z) :
    bounded prec emax m' e' = true ->
    (fexp prec emax (Zdigits2 m + e) <= e' <= fexp prec emax (Zdigits2 m + e + 1))%Z ->
    (m / 2 ^ (e' - e) <= Zpos m')%Z ->
    rounded s m e (S754_finite s m' e').

(** A float that is a zero, of either sign. *)
Definition is_a_zero (x : float) : Prop := exists s, Prim2SF x = S754_zero s.

(** A float above one: an infinity, or a mantissa and an exponent that
    compare above those of 1. *)
Definition above_one (r : float) : Prop :=
  Prim2SF r = S754_infinity false
  \/ exists m e,
      Prim2SF r = S754_finite false m e
      /\ (-52 < e \/ e = -52 /\ 2 ^ 52 < Zpos m)%Z.

(** The one thing asked of the C library where a statement needs it:
    the square it returns for a finite number above one is above one.
    A [pow] that is off by less than two units in the last place has
    it, since the square of the first float above 1 is two floats
    above 1. *)
Definition squares_above_one (L : PyFloat.Libm) : Prop :=
  forall v : float,
    above_one v -> PrimFloat.is_finite v = true -> above_one (fst (PyFloat.pow2 v)).

(** ** Errors *)

(** [r] raises nothing but the exceptions of [P]. *)
Definition raises_only {A : Type} (P : exn -> Prop) (r : result A) : Prop :=
  forall e, r = Raise e -> P e.

(** ** Lines *)

(** A line that does not open the skirt for the scanner. *)
Definition no_skirt_marker (line : string) : Prop :=
  GCode.comment (GCode.parse line) <> ";TYPE:SKIRT".

(** A line whose command is not [c]. *)
Definition not_command (c : string) (line : string) : Prop :=
  GCode.command (GCode.parse line) <> c.

(** ** The bounding box *)

(** The five numbers of the box are numbers. *)
Definition box_numeric (m : GCodeScanner.t) : Prop :=
  PrimFloat.is_nan (GCodeScanner.max_x m) = false
  /\ PrimFloat.is_nan (GCodeScanner.min_x m) = false
  /\ PrimFloat.is_nan (GCodeScanner.max_y m) = false
  /\ PrimFloat.is_nan (GCodeScanner.min_y m) = false
  /\ PrimFloat.is_nan (GCodeScanner.max_z m) = false.

(** The box of [m] lies within the box of [m']. *)
Definition box_within (m m' : GCodeScanner.t) : Prop :=
  PrimFloat.leb (GCodeScanner.min_x m') (GCodeScanner.min_x m) = true
  /\ PrimFloat.leb (GCodeScanner.max_x m) (GCodeScanner.max_x m') = true
  /\ PrimFloat.leb (GCodeScanner.min_y m') (GCodeScanner.min_y m) = true
  /\ PrimFloat.leb (GCodeScanner.max_y m) (GCodeScanner.max_y m') = true
  /\ PrimFloat.leb (GCodeScanner.max_z m) (GCodeScanner.max_z m') = true.

(** [x] lies between [lo] and [hi]. *)
Definition between (lo hi x : float) : Prop :=
  PrimFloat.leb lo x = true /\ PrimFloat.leb x hi = true.

(** ** What the translator puts out *)

(** A line that opens no layer for the translator. *)
Definition no_layer_marker (line : string) : Prop :=
  PyStr.startswith ";LAYER:" (GCode.comment (GCode.parse line)) = false.

(** A line that is not both a layer move and a layer marker. *)
Definition no_marked_layer_move (line : string) : Prop :=
  GCodeTranslator.is_layer_move (GCode.parse line)
  && PyStr.startswith ";LAYER:" (GCode.comment (GCode.parse line)) = false.

(** The translator [self] once the commands [gs] are put out after
    those it holds, nothing else changed. *)
Definition put_out (self : GCodeTranslator.t) (gs : list GCode.t) : GCodeTranslator.t :=
  GCodeTranslator.make (GCodeTranslator.model self)
    (GCodeTranslator.output self ++ gs)
    (GCodeTranslator.first_z self) (GCodeTranslator.layer_z self)
    (GCodeTranslator.last_x self) (GCodeTranslator.last_y self)
    (GCodeTranslator.last_z self) (GCodeTranslator.last_e self).

(** The errors of arithmetic: a text that is no number or a square
    root out of its domain, a division by zero, an overflow. *)
Definition arithmetic_error (e : exn) : Prop :=
  e = ValueError \/ e = ZeroDivisionError \/ e = OverflowError.

(** What a call of the translator may raise at all: an error of
    arithmetic, or the [TypeError] of a height asked for without a
    baseline. *)
Definition translator_error (e : exn) : Prop :=
  arithmetic_error e \/ e = TypeError.

(** The translator in a layer at 0.2, with 5 already extruded. *)
Definition extruding : GCodeTranslator.t :=
  GCodeTranslator.make scanned_region [] (Some z02) z02 0 0 0 5.

(** ** Commands as [parse] makes them *)

(** Every character of [s] passes [P]. *)
Fixpoint every (P : ascii -> bool) (s : string) : bool :=
  match s with
  | EmptyString => true
  | String c s' => P c && every P s'
  end.

(** A character of a token: no whitespace, and no ';' since what
    follows the first ';' is the comment. *)
Definition not_semicolon (c : ascii) : bool := negb (Ascii.eqb c ";").

Definition word_char (c : ascii) : bool := negb (PyStr.isspace c) && not_semicolon c.

Definition word (t : string) : Prop := every word_char t = true /\ t <> "".

(** [s] does not end in whitespace: [s.rstrip()] is [s]. *)
Fixpoint rstripped (s : string) : bool :=
  match s with
  | EmptyString => true
  | String c EmptyString => negb (PyStr.isspace c)
  | String _ s' => rstripped s'
  end.

(** The tokens of [ts], each after one blank. *)
Fixpoint spaced (ts : list string) : string :=
  match ts with
  | [] => ""
  | t :: ts' => " " ++ t ++ spaced ts'
  end.

(** The token that an argument is written as when it is written as
    it was read. *)
Definition token_of (kv : string * GCode.value) : string :=
  fst kv ++ GCode.raw (snd kv).

(** An argument as [parse] makes it: a key of one character and the
    text that followed it in the token. *)
Definition parsed_arg (kv : string * GCode.value) : Prop :=
  exists ch sv, kv = (String ch "", GCode.VStr sv)
                /\ every word_char (String ch sv) = true.

(** A command as [parse] makes it. *)
Record well_formed (g : GCode.t) : Prop := {
  wf_command : (GCode.command g = "" /\ GCode.args g = []) \/ word (GCode.command g);
  wf_args : Forall parsed_arg (GCode.args g);
  wf_keys : NoDup (map fst (GCode.args g));
  wf_comment : GCode.comment g = ""
               \/ exists after, GCode.comment g = String ";" after
                                /\ rstripped (GCode.comment g) = true
}.

(** No argument of [g] is one that [__str__] formats as a number. *)
Definition plain_args (g : GCode.t) : Prop :=
  Forall (fun kv : string * GCode.value => other_key (fst kv)) (GCode.args g).

(** A line that the state [s] of the translator puts out as it is and
    stays: any line for [EndStage], a line without layer marker for
    [Intro], a line that is no layer move for [LayerHeader]; for
    [LayerCode] a line that is neither a layer marker, nor M107, nor a
    motion command. *)
Definition copied_in (s : GCodeTranslator.state) (line : string) : Prop :=
  match s with
  | GCodeTranslator.Intro => no_layer_marker line
  | GCodeTranslator.LayerHeader =>
      GCodeTranslator.is_layer_move (GCode.parse line) = false
  | GCodeTranslator.LayerCode =>
      no_layer_marker line
      /\ not_command "M107" line
      /\ GCodeScanner.is_motion (GCode.parse line) = false
  | GCodeTranslator.EndStage => True
  end.

(** * Properties *)

(** ** The replay loop *)

Section Replay.

Variables state data : Type.
Variable call : state -> data -> GCode.t -> result (data * option state).

(** More fuel does not change a run that came to an end. *)
Lemma replay_more_fuel (k fuel : nat) (s : state) (d : data) (g : GCode.t) :
  replay call fuel s d g <> OutOfFuel ->
  replay call (fuel + k) s d g = replay call fuel s d g.
Proof.
  revert s d. induction fuel as [|fuel IH]; intros s d H; simpl in *.
  - congruence.
  - destruct (call s d g) as [[d' [s'|]]|e]; auto.
Qed.

Lemma handle_lines_more_fuel (k fuel : nat) (lines : list string) (sd : state * data) :
  handle_lines call fuel sd lines <> OutOfFuel ->
  handle_lines call (fuel + k) sd lines = handle_lines call fuel sd lines.
Proof.
  revert sd. induction lines as [|line rest IH]; intros sd H; simpl in *; auto.
  unfold handle_line in *.
  destruct (replay call fuel (fst sd) (snd sd) (GCode.parse line)) as [sd'|e|] eqn:E;
    try congruence;
    rewrite replay_more_fuel by congruence; rewrite E; auto.
Qed.

(** A state that hands the line to [s'] and a state [s'] that hands
    it back, neither touching the object: the loop never ends. *)
Lemma replay_ping_pong (s s' : state) (d : data) (g : GCode.t) :
  call s d g = OK (d, Some s') ->
  call s' d g = OK (d, Some s) ->
  forall fuel, replay call fuel s d g = OutOfFuel
               /\ replay call fuel s' d g = OutOfFuel.
Proof.
  intros H H' fuel. induction fuel as [|fuel [IH IH']]; simpl; auto.
  rewrite H, H'. auto.
Qed.

End Replay.

Lemma main_more_fuel {L : PyFloat.Libm}
  (k fuel : nat) (lines : list string) (depress : float) :
  main fuel lines depress <> OutOfFuel ->
  main (fuel + k) lines depress = main fuel lines depress.
Proof.
  unfold main, GCodeScanner.handle_lines, GCodeTranslator.handle_lines. intros H.
  destruct (handle_lines GCodeScanner.call fuel (GCodeScanner.init depress) lines)
    as [[s model]|e|] eqn:E1; try congruence;
    rewrite handle_lines_more_fuel by congruence; rewrite E1; auto.
  destruct (handle_lines GCodeTranslator.call fuel (GCodeTranslator.init model) lines)
    as [[s' proc]|e|] eqn:E2; try congruence;
    rewrite handle_lines_more_fuel by congruence; rewrite E2; auto.
Qed.

(** The scanner never replays a line more than three times: four calls
    are enough for any line in any state. *)
Lemma scanner_RegionScan_terminates (fuel : nat) (self : GCodeScanner.t) (g : GCode.t) :
  replay GCodeScanner.call (2 + fuel) GCodeScanner.RegionScan self g <> OutOfFuel.
Proof.
  cbn [replay Nat.add GCodeScanner.call].
  destruct (String.eqb (GCode.command g) "M107") eqn:E1; [cbn; congruence|].
  destruct (String.eqb (GCode.command g) "G91") eqn:E2.
  - apply String.eqb_eq in E2. cbn. rewrite E2. cbn. congruence.
  - destruct (negb (GCodeScanner.is_motion g)); [congruence|].
    destruct (GCodeScanner.when_arg "X" g GCodeScanner.see_x self) as [s1|]; cbn [bind];
      [|congruence].
    destruct (GCodeScanner.when_arg "Y" g GCodeScanner.see_y s1) as [s2|]; cbn [bind];
      [|congruence].
    destruct (GCodeScanner.when_arg "Z" g GCodeScanner.see_z s2) as [s3|]; cbn [bind];
      congruence.
Qed.

Lemma scanner_replay_terminates (fuel : nat) (s : GCodeScanner.state)
  (self : GCodeScanner.t) (g : GCode.t) :
  replay GCodeScanner.call (4 + fuel) s self g <> OutOfFuel.
Proof.
  pose proof (scanner_RegionScan_terminates fuel self g) as R2.
  pose proof (scanner_RegionScan_terminates (1 + fuel) self g) as R3.
  pose proof (scanner_RegionScan_terminates (2 + fuel) self g) as R4.
  destruct s.
  - change (4 + fuel) with (S (3 + fuel)). cbn [replay GCodeScanner.call].
    destruct (String.eqb (GCode.comment g) ";TYPE:SKIRT"); [|congruence].
    change (3 + fuel) with (S (2 + fuel)). cbn [replay GCodeScanner.call].
    destruct (PyStr.startswith ";TYPE" (GCode.comment g)); [exact R2|congruence].
  - change (4 + fuel) with (S (2 + (1 + fuel))). cbn [replay GCodeScanner.call].
    destruct (PyStr.startswith ";TYPE" (GCode.comment g)); [exact R3|congruence].
  - exact R4.
  - change (4 + fuel) with (S (2 + (1 + fuel))). cbn [replay GCodeScanner.call].
    destruct (String.eqb (GCode.command g) "G90"); [exact R3|congruence].
  - cbn. congruence.
Qed.

(** [LayerCode] on a motion command returns no next state. *)
Lemma LayerCode_motion_returns {L : PyFloat.Libm}
  (self self' : GCodeTranslator.t) (g : GCode.t)
  (next : option GCodeTranslator.state) :
  GCodeTranslator.LayerCode_motion self g = OK (self', next) -> next = None.
Proof.
  unfold GCodeTranslator.LayerCode_motion.
  repeat match goal with
    | |- bind ?r _ = _ -> _ => destruct r as [?|?]; cbn [bind]; [|discriminate]
    | |- (let 'pair _ _ := ?p in _) = _ -> _ => destruct p
    | |- (if ?b then _ else _) = _ -> _ => destruct b
    | |- match ?o with Some _ => _ | None => _ end = _ -> _ => destruct o
    end; congruence.
Qed.

(** A line that is both a layer move and a layer marker is handed back
    and forth between [LayerHeader] and [LayerCode] for ever. *)
Lemma translator_ping_pong {L : PyFloat.Libm} (self : GCodeTranslator.t) (g : GCode.t) :
  GCodeTranslator.is_layer_move g = true ->
  PyStr.startswith ";LAYER:" (GCode.comment g) = true ->
  forall fuel,
    replay GCodeTranslator.call fuel GCodeTranslator.LayerHeader self g = OutOfFuel
    /\ replay GCodeTranslator.call fuel GCodeTranslator.LayerCode self g = OutOfFuel.
Proof.
  intros Hm Hc. apply replay_ping_pong; cbn [GCodeTranslator.call].
  - now rewrite Hm.
  - now rewrite Hc.
Qed.

(** On every other line two calls are enough for the translator. *)
Lemma translator_replay_terminates {L : PyFloat.Libm}
  (fuel : nat) (s : GCodeTranslator.state)
  (self : GCodeTranslator.t) (g : GCode.t) :
  GCodeTranslator.is_layer_move g
    && PyStr.startswith ";LAYER:" (GCode.comment g) = false ->
  replay GCodeTranslator.call (2 + fuel) s self g <> OutOfFuel.
Proof.
  intros H.
  assert (Hmotion : GCodeTranslator.is_layer_move g = true ->
                    String.eqb (GCode.command g) "M107" = false
                    /\ GCodeScanner.is_motion g = true).
  { unfold GCodeTranslator.is_layer_move, GCodeScanner.is_motion.
    intros Hm. apply andb_prop in Hm as [Hm _]. rewrite Hm.
    apply String.eqb_eq in Hm. rewrite Hm. auto. }
  assert (Hhead : forall self',
             replay GCodeTranslator.call (2 + fuel) GCodeTranslator.LayerHeader self' g
             <> OutOfFuel).
  { intros self'. cbn [replay Nat.add GCodeTranslator.call].
    destruct (GCodeTranslator.is_layer_move g) eqn:Hm; [|congruence].
    destruct (Hmotion eq_refl) as [H107 Hmot]. cbn in H.
    cbn [replay GCodeTranslator.call]. rewrite H, H107, Hmot. cbn [negb].
    destruct (GCodeTranslator.LayerCode_motion self' g) as [[t next]|] eqn:E;
      [|congruence].
    apply LayerCode_motion_returns in E. subst next. congruence. }
  destruct s.
  - cbn [replay Nat.add GCodeTranslator.call].
    destruct (PyStr.startswith ";LAYER:" (GCode.comment g)) eqn:Hc; [|congruence].
    cbn [replay GCodeTranslator.call].
    destruct (GCodeTranslator.is_layer_move g); [discriminate|congruence].
  - apply Hhead.
  - cbn [replay Nat.add GCodeTranslator.call].
    destruct (PyStr.startswith ";LAYER:" (GCode.comment g)) eqn:Hc.
    + cbn [replay GCodeTranslator.call].
      destruct (GCodeTranslator.is_layer_move g); [discriminate|congruence].
    + destruct (String.eqb (GCode.command g) "M107"); [cbn; congruence|].
      destruct (negb (GCodeScanner.is_motion g)); [congruence|].
      destruct (GCodeTranslator.LayerCode_motion self g) as [[t next]|] eqn:E;
        [|congruence].
      apply LayerCode_motion_returns in E. subst next. congruence.
  - cbn. congruence.
Qed.

(** C1.  The replay loop of the translator does not end on every line:
    on the line "G0 Z0.2 ;LAYER:1", a layer move that also carries a
    layer marker, [handle_line] started in [LayerHeader] or in
    [LayerCode] is still running after any number of calls, whatever
    the translator has seen before. *)
Theorem handle_line_layer_move_with_marker_diverges {L : PyFloat.Libm} :
  forall (fuel : nat) (self : GCodeTranslator.t),
    GCodeTranslator.handle_line fuel (GCodeTranslator.LayerHeader, self)
      "G0 Z0.2 ;LAYER:1" = OutOfFuel
    /\ GCodeTranslator.handle_line fuel (GCodeTranslator.LayerCode, self)
         "G0 Z0.2 ;LAYER:1" = OutOfFuel.
Proof.
  intros fuel self.
  unfold GCodeTranslator.handle_line, handle_line. cbn [fst snd].
  apply translator_ping_pong; reflexivity.
Qed.

(** ** The scanner and the skirt *)

(** The scanner never rests in [SkipSkirt]: the marker line that makes
    [Intro] hand over to [SkipSkirt] is replayed there at once, and
    being a ";TYPE" line itself it ends the state it has just opened. *)
Lemma scanner_stays_past_skirt (fuel : nat) (self self' : GCodeScanner.t)
  (s s' : GCodeScanner.state) (g : GCode.t) :
  past_skirt s ->
  replay GCodeScanner.call fuel s self g = Returned (s', self') ->
  past_skirt s'.
Proof.
  revert s self. induction fuel as [|fuel IH]; intros s self Hs; [discriminate|].
  cbn [replay].
  destruct (GCodeScanner.call s self g) as [[d [n|]]|e] eqn:E; try discriminate.
  - apply IH. destruct s; cbn [GCodeScanner.call] in E;
      try (destruct Hs; congruence);
      repeat match type of E with
        | (if ?b then _ else _) = _ => destruct b
        | bind ?r _ = _ => destruct r; cbn [bind] in E
        end; inversion E; split; discriminate.
  - intros H. inversion H. subst. exact Hs.
Qed.

Lemma scanner_leaves_Intro (fuel : nat) (self self' : GCodeScanner.t)
  (s : GCodeScanner.state) (g : GCode.t) :
  replay GCodeScanner.call fuel GCodeScanner.Intro self g = Returned (s, self') ->
  s <> GCodeScanner.SkipSkirt.
Proof.
  destruct fuel as [|fuel]; cbn [replay GCodeScanner.call]; [discriminate|].
  destruct (String.eqb (GCode.comment g) ";TYPE:SKIRT") eqn:E; [|congruence].
  apply String.eqb_eq in E.
  destruct fuel as [|fuel]; cbn [replay GCodeScanner.call]; [discriminate|].
  rewrite E. cbn [PyStr.startswith prefix Ascii.eqb Bool.eqb ascii_dec].
  replace (PyStr.startswith ";TYPE" ";TYPE:SKIRT") with true by reflexivity.
  intros H. eapply scanner_stays_past_skirt in H; [apply H|split; discriminate].
Qed.

(** C3.  Moves of the skirt are scanned like any other.  On the lines
    ";TYPE:SKIRT", "G1 X100 Y100 Z3", ";TYPE:WALL-OUTER", "G1 X5 Y5 Z1"
    the scanner ends in [RegionScan] with [max_x = max_y = 100] and
    [max_z = 3], values that only the move inside the skirt has. *)
Theorem scanner_counts_skirt_moves :
  forall (fuel : nat) (td : float),
    GCodeScanner.handle_lines (3 + fuel) (GCodeScanner.init td)
      [";TYPE:SKIRT"; "G1 X100 Y100 Z3"; ";TYPE:WALL-OUTER"; "G1 X5 Y5 Z1"]
    = Returned (GCodeScanner.RegionScan,
                GCodeScanner.make 100 5 100 5 3 0 td).
Proof.
  intros fuel td. unfold GCodeScanner.handle_lines.
  rewrite handle_lines_more_fuel; vm_compute; congruence.
Qed.

(** ** The run of the specification's example *)

Lemma translate_more_fuel {L : PyFloat.Libm}
  (k fuel : nat) (m : GCodeScanner.t) (lines : list string) :
  translate fuel m lines <> OutOfFuel ->
  translate (fuel + k) m lines = translate fuel m lines.
Proof.
  unfold translate, GCodeTranslator.handle_lines. intros H.
  destruct (handle_lines GCodeTranslator.call fuel (GCodeTranslator.init m) lines)
    as [[s' proc]|e|] eqn:E2; try congruence;
    rewrite handle_lines_more_fuel by congruence; rewrite E2; auto.
Qed.

(** The three lines do not go through the two passes: the scanner sees
    no region in them, [max_z] is still 0 when the translator comes to
    the layer move, and [layer_depression] divides by it. *)
Lemma example_run_raises :
  main (L:=PyFloat.crlibm) 2 [";LAYER:0"; "G0 Z0.2"; "G1 X10 Y0 E1"] 0
  = Raised ZeroDivisionError.
Proof. vm_compute. reflexivity. Qed.

(** C2, as the code has it.  With a zero depression the two passes over
    ";LAYER:0", "G0 Z0.2", "G1 X10 Y0 E1" stop with a division by zero;
    the translator alone, on top of a model that holds a scanned
    region, prints the marker, then "G0 Z0.200", then the one command
    "G1 X10.000 Y0.000 E1.00000 Z0.200". *)
Theorem example_run {L : PyFloat.Libm} :
  forall fuel : nat,
    main (2 + fuel) [";LAYER:0"; "G0 Z0.2"; "G1 X10 Y0 E1"] 0
    = Raised ZeroDivisionError
    /\ translate (2 + fuel) scanned_region [";LAYER:0"; "G0 Z0.2"; "G1 X10 Y0 E1"]
       = Returned [";LAYER:0"; "G0 Z0.200"; "G1 X10.000 Y0.000 E1.00000 Z0.200"].
Proof.
  intros fuel. split.
  - rewrite main_more_fuel; vm_compute; congruence.
  - rewrite translate_more_fuel; vm_compute; congruence.
Qed.

(** ** The baseline of the translator *)

(** What [target_z] reads of the translator: the model and [first_z]. *)
Lemma target_z_ext {L : PyFloat.Libm} (self self' : GCodeTranslator.t) (x y z : float) :
  GCodeTranslator.model self' = GCodeTranslator.model self ->
  GCodeTranslator.first_z self' = GCodeTranslator.first_z self ->
  GCodeTranslator.target_z self' x y z = GCodeTranslator.target_z self x y z.
Proof.
  intros Hm Hf. unfold GCodeTranslator.target_z. now rewrite Hm, Hf.
Qed.

(** The cursor fields that the subdivision loop leaves alone. *)
Lemma subdivide_fields {L : PyFloat.Libm} (g : GCode.t) (points : list (Dict.t float)) :
  forall (self self' : GCodeTranslator.t) (c c' : option GCode.t),
    GCodeTranslator.subdivide self g c points = OK (self', c') ->
    GCodeTranslator.model self' = GCodeTranslator.model self
    /\ GCodeTranslator.first_z self' = GCodeTranslator.first_z self
    /\ GCodeTranslator.layer_z self' = GCodeTranslator.layer_z self
    /\ GCodeTranslator.last_x self' = GCodeTranslator.last_x self
    /\ GCodeTranslator.last_y self' = GCodeTranslator.last_y self
    /\ GCodeTranslator.last_e self' = GCodeTranslator.last_e self.
Proof.
  induction points as [|p rest IH]; intros self self' c c'; cbn [GCodeTranslator.subdivide].
  - intros H. inversion H. subst. repeat split.
  - destruct (GCodeTranslator.coord "X" p); cbn [bind]; [|discriminate].
    destruct (GCodeTranslator.coord "Y" p); cbn [bind]; [|discriminate].
    destruct (GCodeTranslator.target_z self a a0 (GCodeTranslator.layer_z self));
      cbn [bind]; [|discriminate].
    intros H. apply IH in H. exact H.
Qed.

(** A call of a state that returns changes [layer_z] and [first_z] only
    on a layer move in [LayerCode], and there [first_z] only if it was
    unset. *)
Lemma call_layer_fields {L : PyFloat.Libm}
  (s : GCodeTranslator.state) (self self' : GCodeTranslator.t)
  (g : GCode.t) (next : option GCodeTranslator.state) :
  GCodeTranslator.call s self g = OK (self', next) ->
  GCodeTranslator.model self' = GCodeTranslator.model self
  /\ ((GCodeTranslator.layer_z self' = GCodeTranslator.layer_z self
       /\ GCodeTranslator.first_z self' = GCodeTranslator.first_z self)
      \/ (s = GCodeTranslator.LayerCode
          /\ next = None
          /\ PyStr.startswith ";LAYER:" (GCode.comment g) = false
          /\ GCodeTranslator.is_layer_move g = true
          /\ exists z, GCode.float_arg "Z" g = OK z
                       /\ GCodeTranslator.layer_z self' = z
                       /\ GCodeTranslator.first_z self'
                          = Some (match GCodeTranslator.first_z self with
                                  | Some fz => fz
                                  | None => z
                                  end))).
Proof.
  destruct s; cbn [GCodeTranslator.call].
  1, 2, 4:
    repeat match goal with
      | |- (if ?b then _ else _) = _ -> _ => destruct b
      end; intros H; inversion H; subst; cbn; auto.
  destruct (PyStr.startswith ";LAYER:" (GCode.comment g)) eqn:Hc;
    [intros H; inversion H; auto|].
  destruct (String.eqb (GCode.command g) "M107"); [intros H; inversion H; auto|].
  destruct (negb (GCodeScanner.is_motion g)); [intros H; inversion H; cbn; auto|].
  unfold GCodeTranslator.LayerCode_motion.
  destruct (GCodeTranslator.is_layer_move g) eqn:Hm.
  - destruct (GCode.float_arg "Z" g) as [z|]; cbn [bind]; [|discriminate].
    destruct (GCodeTranslator.target "X" g _) as [tx|]; cbn [bind]; [|discriminate].
    destruct (GCodeTranslator.target "Y" g _) as [ty|]; cbn [bind]; [|discriminate].
    destruct (GCodeTranslator.target_z _ tx ty _) as [tz|]; cbn [bind]; [|discriminate].
    intros H. inversion H. subst. cbn. split; [reflexivity|]. right.
    repeat split. exists z. repeat split.
    destruct (GCodeTranslator.first_z self); reflexivity.
  - cbn [bind].
    destruct (GCodeTranslator.target "X" g _) as [tx|]; cbn [bind]; [|discriminate].
    destruct (GCodeTranslator.target "Y" g _) as [ty|]; cbn [bind]; [|discriminate].
    match goal with
    | |- bind ?r _ = _ -> _ => destruct r as [[t c]|] eqn:E; cbn [bind]; [|discriminate]
    end.
    assert (F : GCodeTranslator.model t = GCodeTranslator.model self
                /\ GCodeTranslator.first_z t = GCodeTranslator.first_z self
                /\ GCodeTranslator.layer_z t = GCodeTranslator.layer_z self).
    { destruct (PrimFloat.eqb ty (GCodeTranslator.last_y self)).
      - destruct (GCodeTranslator.target_z self tx ty _); cbn [bind] in E; [|discriminate].
        inversion E. subst. cbn. auto.
      - match type of E with
        | bind ?r _ = _ => destruct r as [ir|]; cbn [bind] in E; [|discriminate]
        end.
        destruct (interpolate 4 ir); cbn [bind] in E; [|discriminate].
        apply subdivide_fields in E. tauto. }
    destruct F as (Fm & Ff & Fl).
    destruct c as [c|]; [|discriminate].
    destruct (Dict.mem "E" (GCode.args c)).
    + destruct (GCode.float_arg "E" c); cbn [bind]; [|discriminate].
      intros H. inversion H. subst. cbn. auto.
    + intros H. inversion H. subst. cbn. auto.
Qed.

Lemma call_keeps_first_z {L : PyFloat.Libm}
  (s : GCodeTranslator.state) (self self' : GCodeTranslator.t)
  (g : GCode.t) (next : option GCodeTranslator.state) (fz : float) :
  GCodeTranslator.call s self g = OK (self', next) ->
  GCodeTranslator.first_z self = Some fz ->
  GCodeTranslator.first_z self' = Some fz.
Proof.
  intros H Hf. apply call_layer_fields in H as [_ [[_ H]|(_ & _ & _ & _ & z & _ & _ & H)]];
    rewrite H, Hf; reflexivity.
Qed.

Lemma replay_keeps_first_z {L : PyFloat.Libm} (fuel : nat) (g : GCode.t) (fz : float) :
  forall (s : GCodeTranslator.state) (self : GCodeTranslator.t)
         (sd' : GCodeTranslator.state * GCodeTranslator.t),
    replay GCodeTranslator.call fuel s self g = Returned sd' ->
    GCodeTranslator.first_z self = Some fz ->
    GCodeTranslator.first_z (snd sd') = Some fz.
Proof.
  induction fuel as [|fuel IH]; intros s self sd'; cbn [replay]; [discriminate|].
  destruct (GCodeTranslator.call s self g) as [[d [n|]]|e] eqn:E; try discriminate.
  - intros H Hf. eapply IH; eauto using call_keeps_first_z.
  - intros H Hf. inversion H. subst. cbn. eauto using call_keeps_first_z.
Qed.

Lemma handle_lines_keeps_first_z {L : PyFloat.Libm}
  (fuel : nat) (lines : list string) (fz : float) :
  forall sd sd' : GCodeTranslator.state * GCodeTranslator.t,
    GCodeTranslator.first_z (snd sd) = Some fz ->
    GCodeTranslator.handle_lines fuel sd lines = Returned sd' ->
    GCodeTranslator.first_z (snd sd') = Some fz.
Proof.
  unfold GCodeTranslator.handle_lines.
  induction lines as [|line rest IH]; intros sd sd' Hf; cbn [handle_lines].
  - intros H. inversion H. subst. exact Hf.
  - unfold handle_line.
    destruct (replay GCodeTranslator.call fuel (fst sd) (snd sd) (GCode.parse line))
      as [sd1| |] eqn:E; try discriminate.
    apply IH. eapply replay_keeps_first_z; eauto.
Qed.

(** A layer move that [LayerCode] lets through sets the baseline. *)
Lemma LayerCode_layer_move {L : PyFloat.Libm}
  (self self' : GCodeTranslator.t) (g : GCode.t)
  (next : option GCodeTranslator.state) :
  GCodeTranslator.call GCodeTranslator.LayerCode self g = OK (self', next) ->
  PyStr.startswith ";LAYER:" (GCode.comment g) = false ->
  GCodeTranslator.is_layer_move g = true ->
  exists z,
    GCode.float_arg "Z" g = OK z
    /\ GCodeTranslator.layer_z self' = z
    /\ GCodeTranslator.first_z self'
       = Some (match GCodeTranslator.first_z self with
               | Some fz => fz
               | None => z
               end).
Proof.
  intros H Hc Hm.
  cbn [GCodeTranslator.call] in H. rewrite Hc in H.
  assert (Hmot : String.eqb (GCode.command g) "M107" = false
                 /\ GCodeScanner.is_motion g = true).
  { unfold GCodeTranslator.is_layer_move, GCodeScanner.is_motion in *.
    apply andb_prop in Hm as [Hm _]. rewrite Hm.
    apply String.eqb_eq in Hm. rewrite Hm. auto. }
  destruct Hmot as [H107 Hmot]. rewrite H107, Hmot in H. cbn [negb] in H.
  unfold GCodeTranslator.LayerCode_motion in H. rewrite Hm in H.
  destruct (GCode.float_arg "Z" g) as [z|]; cbn [bind] in H; [|discriminate].
  destruct (GCodeTranslator.target "X" g _) as [tx|]; cbn [bind] in H; [|discriminate].
  destruct (GCodeTranslator.target "Y" g _) as [ty|]; cbn [bind] in H; [|discriminate].
  destruct (GCodeTranslator.target_z _ tx ty _) as [tz|]; cbn [bind] in H;
    [|discriminate].
  inversion H. subst. cbn. exists z. repeat split.
  destruct (GCodeTranslator.first_z self); reflexivity.
Qed.

(** A G1 command with a Z argument is a motion command that carries Z,
    and [LayerCode] does not take [layer_z] from it: after "G1 Z0.4" in
    a layer at 0.2, [layer_z] is 0.2 as before. *)
Lemma G1_with_Z_is_not_recorded :
  GCodeScanner.is_motion (GCode.parse "G1 Z0.4") = true
  /\ GCode.float_arg "Z" (GCode.parse "G1 Z0.4") = OK z04
  /\ (exists self',
         GCodeTranslator.call (L:=PyFloat.crlibm) GCodeTranslator.LayerCode
           in_first_layer (GCode.parse "G1 Z0.4") = OK (self', None)
         /\ GCodeTranslator.layer_z self' = z02)
  /\ PrimFloat.eqb z02 z04 = false.
Proof.
  repeat split; try (vm_compute; reflexivity).
  eexists. split; vm_compute; reflexivity.
Qed.

(** C6, as the code has it.  In [LayerCode] a G0 command that carries a
    Z argument, on a line that is no layer marker, records [layer_z]
    from that argument and sets [first_z] to it if [first_z] is unset;
    any other command that returns, a G1 with a Z argument too, leaves
    both as they are; and [first_z], once set, stays what it is for the
    rest of the run. *)
Theorem LayerCode_records_layer_z {L : PyFloat.Libm} :
  (forall (self self' : GCodeTranslator.t) (g : GCode.t)
          (next : option GCodeTranslator.state),
      GCodeTranslator.call GCodeTranslator.LayerCode self g = OK (self', next) ->
      PyStr.startswith ";LAYER:" (GCode.comment g) = false ->
      GCodeTranslator.is_layer_move g = true ->
      exists z,
        GCode.float_arg "Z" g = OK z
        /\ GCodeTranslator.layer_z self' = z
        /\ GCodeTranslator.first_z self'
           = Some (match GCodeTranslator.first_z self with
                   | Some fz => fz
                   | None => z
                   end))
  /\ (forall (s : GCodeTranslator.state) (self self' : GCodeTranslator.t)
             (g : GCode.t) (next : option GCodeTranslator.state),
         GCodeTranslator.call s self g = OK (self', next) ->
         GCodeTranslator.is_layer_move g = false ->
         GCodeTranslator.layer_z self' = GCodeTranslator.layer_z self
         /\ GCodeTranslator.first_z self' = GCodeTranslator.first_z self)
  /\ (forall (fuel : nat) (lines : list string)
             (sd sd' : GCodeTranslator.state * GCodeTranslator.t) (fz : float),
         GCodeTranslator.first_z (snd sd) = Some fz ->
         GCodeTranslator.handle_lines fuel sd lines = Returned sd' ->
         GCodeTranslator.first_z (snd sd') = Some fz).
Proof.
  split; [|split].
  - apply LayerCode_layer_move.
  - intros s self self' g next H Hm.
    apply call_layer_fields in H as [_ [H|(_ & _ & _ & Hm' & _)]]; [exact H|congruence].
  - intros fuel lines sd sd' fz. apply handle_lines_keeps_first_z.
Qed.

Lemma LayerCode_records_layer_z_witness :
  exists self',
    GCodeTranslator.call (L:=PyFloat.crlibm) GCodeTranslator.LayerCode
      at_first_layer (GCode.parse "G0 Z0.2")
    = OK (self', None)
    /\ exists z,
         GCode.float_arg "Z" (GCode.parse "G0 Z0.2") = OK z
         /\ GCodeTranslator.layer_z self' = z
         /\ GCodeTranslator.first_z self'
            = Some (match GCodeTranslator.first_z at_first_layer with
                    | Some fz => fz
                    | None => z
                    end).
Proof.
  eexists. split.
  - vm_compute. reflexivity.
  - apply (proj1 (LayerCode_records_layer_z (L:=PyFloat.crlibm))
             at_first_layer _ (GCode.parse "G0 Z0.2") None);
      vm_compute; reflexivity.
Defined.

(** ** No height is computed without a baseline *)

Lemma no_TypeError_OK (A : Type) (a : A) : no_TypeError (OK a).
Proof. discriminate. Qed.

Lemma no_TypeError_bind (A B : Type) (r : result A) (k : A -> result B) :
  no_TypeError r -> (forall a, r = OK a -> no_TypeError (k a)) ->
  no_TypeError (bind r k).
Proof.
  intros Hr Hk. destruct r as [a|e]; cbn [bind]; [apply (Hk a eq_refl)|].
  unfold no_TypeError in *. congruence.
Qed.

Lemma no_TypeError_mapM (A B : Type) (f : A -> result B) (l : list A) :
  (forall a, no_TypeError (f a)) -> no_TypeError (mapM f l).
Proof.
  intros H. induction l as [|a l IH]; cbn [mapM]; [discriminate|].
  apply no_TypeError_bind; [apply H|intros b _].
  apply no_TypeError_bind; [apply IH|discriminate].
Qed.

Ltac no_TypeError_step :=
  match goal with
  | |- no_TypeError (OK _) => discriminate
  | |- no_TypeError (Raise _) => discriminate
  | |- no_TypeError (bind _ _) => apply no_TypeError_bind; [|intros ? ?]
  | |- no_TypeError (if ?b then _ else _) => destruct b eqn:?
  | |- no_TypeError (match ?o with Some _ => _ | None => _ end) => destruct o eqn:?
  | |- no_TypeError (mapM _ _) => apply no_TypeError_mapM; intros ?
  end.

Lemma of_string_no_TypeError (s : string) : no_TypeError (PyFloat.of_string s).
Proof.
  unfold PyFloat.of_string.
  destruct (PyFloat.drop_underscores None s); [|discriminate].
  destruct (PyFloat.sign _). destruct (PyFloat.parse_decimal _) as [[m e]|];
    repeat no_TypeError_step.
Qed.

Lemma float_arg_no_TypeError (k : string) (g : GCode.t) :
  no_TypeError (GCode.float_arg k g).
Proof.
  unfold GCode.float_arg, GCode.to_float.
  destruct (Dict.get k (GCode.args g)) as [[s|f]|];
    auto using of_string_no_TypeError; discriminate.
Qed.

Lemma target_no_TypeError (k : string) (g : GCode.t) (d : float) :
  no_TypeError (GCodeTranslator.target k g d).
Proof.
  unfold GCodeTranslator.target. no_TypeError_step;
    [apply float_arg_no_TypeError|discriminate].
Qed.

Lemma div_no_TypeError (a b : float) : no_TypeError (PyFloat.div a b).
Proof. unfold PyFloat.div. repeat no_TypeError_step. Qed.

Lemma sqr_no_TypeError {L : PyFloat.Libm} (a : float) : no_TypeError (PyFloat.sqr a).
Proof.
  unfold PyFloat.sqr. cbv zeta. repeat no_TypeError_step.
  destruct (PyFloat.pow2 _) as [ix e].
  destruct (PyFloat.adjust_erange1 ix e); discriminate.
Qed.

Lemma sqrt_no_TypeError (a : float) : no_TypeError (PyFloat.sqrt a).
Proof. unfold PyFloat.sqrt. repeat no_TypeError_step. Qed.

Lemma of_int_no_TypeError (z : Z) : no_TypeError (PyFloat.of_int z).
Proof. unfold PyFloat.of_int. repeat no_TypeError_step. Qed.

Lemma interpolate_no_TypeError (n : Z) (p : Dict.t (float * float)) :
  no_TypeError (interpolate n p).
Proof.
  unfold interpolate, step_of, point_of.
  repeat (no_TypeError_step;
          auto using of_int_no_TypeError, div_no_TypeError).
Qed.

(** With a baseline, [target_z] may fail in its arithmetic but not on
    [None]. *)
Lemma target_z_no_TypeError {L : PyFloat.Libm}
  (self : GCodeTranslator.t) (x y z : float) :
  GCodeTranslator.first_z self <> None ->
  no_TypeError (GCodeTranslator.target_z self x y z).
Proof.
  unfold GCodeTranslator.target_z, GCodeScanner.layer_depression,
    GCodeScanner.xmid, GCodeScanner.ymid.
  destruct (GCodeTranslator.first_z self); [intros _|congruence].
  repeat (no_TypeError_step;
          auto using div_no_TypeError, sqr_no_TypeError, sqrt_no_TypeError).
Qed.

Lemma subdivide_no_TypeError {L : PyFloat.Libm}
  (g : GCode.t) (points : list (Dict.t float)) :
  forall (self : GCodeTranslator.t) (c : option GCode.t),
    GCodeTranslator.first_z self <> None ->
    no_TypeError (GCodeTranslator.subdivide self g c points).
Proof.
  induction points as [|p rest IH]; intros self c Hf; cbn [GCodeTranslator.subdivide].
  - discriminate.
  - unfold GCodeTranslator.coord.
    repeat (no_TypeError_step; auto using target_z_no_TypeError).
Qed.

Lemma call_no_TypeError {L : PyFloat.Libm}
  (s : GCodeTranslator.state) (self : GCodeTranslator.t)
  (g : GCode.t) :
  may_call s self g -> no_TypeError (GCodeTranslator.call s self g).
Proof.
  intros H. destruct s; cbn [GCodeTranslator.call]; repeat no_TypeError_step.
  unfold GCodeTranslator.LayerCode_motion.
  destruct (GCodeTranslator.is_layer_move g) eqn:Hm.
  - pose proof (float_arg_no_TypeError "Z" g) as Nz.
    destruct (GCode.float_arg "Z" g) as [z|e]; cbn [bind];
      [|unfold no_TypeError in *; congruence].
    assert (Hf : GCodeTranslator.first_z (GCodeTranslator.set_layer_z self z) <> None).
    { cbn. destruct (GCodeTranslator.first_z self); discriminate. }
    repeat (no_TypeError_step;
            auto using target_no_TypeError, target_z_no_TypeError).
  - destruct (H eq_refl) as [Hf|]; [|congruence]. cbn [bind].
    repeat (no_TypeError_step;
            auto using target_no_TypeError, target_z_no_TypeError,
              float_arg_no_TypeError, interpolate_no_TypeError,
              subdivide_no_TypeError).
    all: destruct a1; repeat (no_TypeError_step; auto using float_arg_no_TypeError).
Qed.

Lemma call_may_go_on {L : PyFloat.Libm}
  (s : GCodeTranslator.state) (self self' : GCodeTranslator.t)
  (g : GCode.t) (next : option GCodeTranslator.state) :
  may_call s self g ->
  GCodeTranslator.call s self g = OK (self', next) ->
  match next with
  | Some s' => may_call s' self' g
  | None => may_rest (s, self')
  end.
Proof.
  intros H E. destruct next as [s'|].
  - (* a transition: only [LayerHeader] leads to [LayerCode] *)
    destruct s; cbn [GCodeTranslator.call] in E.
    + destruct (PyStr.startswith _ _); inversion E. intros ?. discriminate.
    + destruct (GCodeTranslator.is_layer_move g) eqn:Hm; inversion E. intros _. auto.
    + destruct (PyStr.startswith _ _); [inversion E; intros ?; discriminate|].
      destruct (String.eqb _ _); [inversion E; intros ?; discriminate|].
      destruct (negb _); [discriminate|].
      apply LayerCode_motion_returns in E. discriminate.
    + discriminate.
  - intros Hs. cbn [fst snd] in *. subst s.
    destruct (H eq_refl) as [Hf|Hm].
    + destruct (GCodeTranslator.first_z self) as [fz|] eqn:Ef; [|congruence].
      rewrite (call_keeps_first_z _ _ _ E Ef). discriminate.
    + destruct (PyStr.startswith ";LAYER:" (GCode.comment g)) eqn:Hc.
      * cbn [GCodeTranslator.call] in E. rewrite Hc in E. discriminate.
      * destruct (LayerCode_layer_move _ _ E Hc Hm) as (z & _ & _ & F).
        rewrite F. discriminate.
Qed.

Lemma replay_no_TypeError {L : PyFloat.Libm} (fuel : nat) (g : GCode.t) :
  forall (s : GCodeTranslator.state) (self : GCodeTranslator.t),
    may_call s self g ->
    replay GCodeTranslator.call fuel s self g <> Raised TypeError
    /\ forall sd', replay GCodeTranslator.call fuel s self g = Returned sd' ->
                   may_rest sd'.
Proof.
  induction fuel as [|fuel IH]; intros s self H; cbn [replay].
  - split; [discriminate|intros sd'; discriminate].
  - pose proof (call_no_TypeError H) as N.
    pose proof (fun d n => @call_may_go_on L s self d g n H) as G.
    destruct (GCodeTranslator.call s self g) as [[d [n|]]|e].
    + apply IH. exact (G d (Some n) eq_refl).
    + split; [discriminate|]. intros sd' E. inversion E. subst.
      exact (G d None eq_refl).
    + split; [|intros sd'; discriminate]. unfold no_TypeError in N. congruence.
Qed.

Lemma handle_lines_no_TypeError {L : PyFloat.Libm} (fuel : nat) (lines : list string) :
  forall sd : GCodeTranslator.state * GCodeTranslator.t,
    may_rest sd ->
    GCodeTranslator.handle_lines fuel sd lines <> Raised TypeError
    /\ forall sd', GCodeTranslator.handle_lines fuel sd lines = Returned sd' ->
                   may_rest sd'.
Proof.
  unfold GCodeTranslator.handle_lines.
  induction lines as [|line rest IH]; intros sd H; cbn [handle_lines].
  - split; [discriminate|]. intros sd' E. inversion E. subst. exact H.
  - unfold handle_line.
    assert (C : may_call (fst sd) (snd sd) (GCode.parse line)).
    { intros Hs. left. exact (H Hs). }
    destruct (replay_no_TypeError fuel C) as [N R].
    destruct (replay GCodeTranslator.call fuel (fst sd) (snd sd) (GCode.parse line))
      as [sd1|e|].
    + apply IH. apply R. reflexivity.
    + split; [congruence|intros sd'; discriminate].
    + split; [discriminate|intros sd'; discriminate].
Qed.

(** C10.  A run of the translator from its initial state never raises
    the error of a missing baseline: whenever [target_z] is called,
    [first_z] is set, because [LayerCode] is entered only on the layer
    move that sets it. *)
Theorem translator_never_lacks_baseline {L : PyFloat.Libm} :
  forall (fuel : nat) (model : GCodeScanner.t) (lines : list string),
    GCodeTranslator.handle_lines fuel (GCodeTranslator.init model) lines
    <> Raised TypeError.
Proof.
  intros fuel model lines.
  apply handle_lines_no_TypeError. intros H. discriminate.
Qed.

(** ** Ordinary moves in a layer *)

Lemma get_set (V : Type) (k k' : string) (v : V) (d : Dict.t V) :
  Dict.get k' (Dict.set k v d) = if String.eqb k k' then Some v else Dict.get k' d.
Proof.
  induction d as [|[k0 v0] d IH]; cbn [Dict.set Dict.get].
  - destruct (String.eqb k k'); reflexivity.
  - destruct (String.eqb k0 k) eqn:E0; cbn [Dict.get].
    + apply String.eqb_eq in E0. subst k0.
      destruct (String.eqb k k'); reflexivity.
    + rewrite IH. destruct (String.eqb k0 k') eqn:E1; [|reflexivity].
      apply String.eqb_eq in E1. subst k0. rewrite String.eqb_sym in E0.
      now rewrite E0.
Qed.

Lemma subdivide_appends {L : PyFloat.Libm}
  (g : GCode.t) (points : list (Dict.t float)) :
  forall (self self' : GCodeTranslator.t) (c0 c' : option GCode.t),
    GCodeTranslator.subdivide self g c0 points = OK (self', c') ->
    exists clones,
      GCodeTranslator.output self' = (GCodeTranslator.output self ++ clones)%list
      /\ Forall2 (clone_at self g) points clones.
Proof.
  induction points as [|p rest IH]; intros self self' c0 c'; cbn [GCodeTranslator.subdivide].
  - intros H. inversion H. subst. exists []. split; [now rewrite app_nil_r|constructor].
  - destruct (GCodeTranslator.coord "X" p) as [x|] eqn:Ex; cbn [bind]; [|discriminate].
    destruct (GCodeTranslator.coord "Y" p) as [y|] eqn:Ey; cbn [bind]; [|discriminate].
    destruct (GCodeTranslator.target_z self x y (GCodeTranslator.layer_z self)) as [z|] eqn:Ez;
      cbn [bind]; [|discriminate].
    intros H. apply IH in H as (clones & Ho & Hc).
    exists (GCodeTranslator.clone_with g (Dict.set "Z" z p) :: clones). split.
    + rewrite Ho. cbn. now rewrite <- app_assoc.
    + constructor.
      * exists x, y, z. auto.
      * eapply Forall2_impl; [|exact Hc].
        intros q c (x' & y' & z' & ? & ? & ? & ?). exists x', y', z'. auto.
Qed.

(** The four points between two positions in X and Y, and in X, Y and
    E. *)
Lemma interpolate_xy (ax bx ay by_ : float) :
  interpolate 4 [("X", (ax, bx)); ("Y", (ay, by_))]
  = OK (map (fun i => [("X", interpolated ax bx i); ("Y", interpolated ay by_ i)])
          [1; 2; 3; 4]%Z).
Proof. reflexivity. Qed.

Lemma interpolate_xye (ax bx ay by_ ae be : float) :
  interpolate 4 [("X", (ax, bx)); ("Y", (ay, by_)); ("E", (ae, be))]
  = OK (map (fun i => [("X", interpolated ax bx i); ("Y", interpolated ay by_ i);
                       ("E", interpolated ae be i)])
          [1; 2; 3; 4]%Z).
Proof. reflexivity. Qed.

Lemma other_key_eqb (k : string) :
  other_key k ->
  String.eqb "X" k = false /\ String.eqb "Y" k = false
  /\ String.eqb "Z" k = false /\ String.eqb "E" k = false.
Proof.
  intros (Hx & Hy & Hz & He).
  repeat split; apply String.eqb_neq; congruence.
Qed.

Ltac clone_args :=
  cbn [GCodeTranslator.clone_with GCode.args GCode.command GCode.comment
       Dict.update fold_left map fst snd];
  repeat match goal with
    | |- context [Dict.set "Z" ?z (?p :: ?q)] =>
        change (Dict.set "Z" z (p :: q))
          with (ltac:(let r := eval cbn in (Dict.set "Z" z (p :: q)) in exact r))
    end;
  cbn [GCodeTranslator.clone_with GCode.args GCode.command GCode.comment
       Dict.update fold_left map fst snd].

Ltac dict_gets :=
  clone_args; rewrite ?get_set; cbn [String.eqb Ascii.eqb Bool.eqb].

Lemma clone_at_xy {L : PyFloat.Libm}
  (self : GCodeTranslator.t) (g c : GCode.t) (tx ty : float) (i : Z) :
  Dict.get "E" (GCode.args g) = None ->
  clone_at self g
    [("X", interpolated (GCodeTranslator.last_x self) tx i);
     ("Y", interpolated (GCodeTranslator.last_y self) ty i)] c ->
  sub_move self g tx ty i c.
Proof.
  intros He (x & y & z & Hx & Hy & Hz & Hc).
  cbn in Hx, Hy. inversion Hx. inversion Hy. subst x y c.
  constructor; try (dict_gets; reflexivity).
  - dict_gets. now rewrite He.
  - exists z. split; [exact Hz|dict_gets; reflexivity].
  - intros k Hk. apply other_key_eqb in Hk as (Kx & Ky & Kz & Ke).
    clone_args. now rewrite !get_set, Kx, Ky, Kz.
Qed.

Lemma clone_at_xye {L : PyFloat.Libm}
  (self : GCodeTranslator.t) (g c : GCode.t) (tx ty te : float)
  (i : Z) :
  GCode.float_arg "E" g = OK te ->
  clone_at self g
    [("X", interpolated (GCodeTranslator.last_x self) tx i);
     ("Y", interpolated (GCodeTranslator.last_y self) ty i);
     ("E", interpolated (GCodeTranslator.last_e self) te i)] c ->
  sub_move self g tx ty i c.
Proof.
  intros He (x & y & z & Hx & Hy & Hz & Hc).
  cbn in Hx, Hy. inversion Hx. inversion Hy. subst x y c.
  unfold GCode.float_arg in He.
  constructor; try (dict_gets; reflexivity).
  - destruct (Dict.get "E" (GCode.args g)) as [v|]; [|discriminate].
    exists te. split; [exact He|dict_gets; reflexivity].
  - exists z. split; [exact Hz|dict_gets; reflexivity].
  - intros k Hk. apply other_key_eqb in Hk as (Kx & Ky & Kz & Ke).
    clone_args. now rewrite !get_set, Kx, Ky, Kz, Ke.
Qed.

(** C5.  In [LayerCode], a motion command that is not the layer move
    and that [LayerCode] handles without an error appends exactly one
    command when its target Y equals [last_y], the command itself with
    Z set to the height at the target, and exactly four when it does
    not: sub-moves 1 to 4, each with the interpolated X and Y (and E
    when the command has an E argument), the height at that point as Z,
    and the mnemonic, the comment and every other argument of the
    command. *)
Theorem LayerCode_ordinary_move {L : PyFloat.Libm} :
  forall (self self' : GCodeTranslator.t) (g : GCode.t)
         (next : option GCodeTranslator.state),
    ordinary_move g ->
    GCodeTranslator.call GCodeTranslator.LayerCode self g = OK (self', next) ->
    exists tx ty,
      GCodeTranslator.target "X" g (GCodeTranslator.last_x self) = OK tx
      /\ GCodeTranslator.target "Y" g (GCodeTranslator.last_y self) = OK ty
      /\ if PrimFloat.eqb ty (GCodeTranslator.last_y self)
         then exists z,
             GCodeTranslator.target_z self tx ty (GCodeTranslator.layer_z self) = OK z
             /\ GCodeTranslator.output self'
                = (GCodeTranslator.output self
                     ++ [GCode.set_arg "Z" (GCode.VFloat z) g])%list
         else exists c1 c2 c3 c4,
             GCodeTranslator.output self'
             = (GCodeTranslator.output self ++ [c1; c2; c3; c4])%list
             /\ sub_move self g tx ty 1 c1
             /\ sub_move self g tx ty 2 c2
             /\ sub_move self g tx ty 3 c3
             /\ sub_move self g tx ty 4 c4.
Proof.
  intros self self' g next (Hc & Hmot & Hm). cbn [GCodeTranslator.call].
  rewrite Hc.
  assert (H107 : String.eqb (GCode.command g) "M107" = false).
  { unfold GCodeScanner.is_motion in Hmot. apply orb_prop in Hmot as [E|E];
      apply String.eqb_eq in E; rewrite E; reflexivity. }
  rewrite H107, Hmot. cbn [negb]. unfold GCodeTranslator.LayerCode_motion.
  rewrite Hm. cbn [bind].
  destruct (GCodeTranslator.target "X" g _) as [tx|]; cbn [bind]; [|discriminate].
  destruct (GCodeTranslator.target "Y" g _) as [ty|]; cbn [bind]; [|discriminate].
  intros H. exists tx, ty. split; [reflexivity|]. split; [reflexivity|].
  destruct (PrimFloat.eqb ty (GCodeTranslator.last_y self)).
  - destruct (GCodeTranslator.target_z self tx ty _) as [z|]; cbn [bind] in H;
      [|discriminate].
    exists z. split; [reflexivity|].
    match type of H with
    | (if ?b then _ else _) = _ =>
        destruct b; [destruct (GCode.float_arg "E" _); cbn [bind] in H|]
    end; inversion H; reflexivity.
  - match type of H with
    | bind ?r _ = _ => destruct r as [[t c]|] eqn:E; cbn [bind] in H; [|discriminate]
    end.
    assert (Ho : GCodeTranslator.output self' = GCodeTranslator.output t).
    { destruct c as [c|]; [|discriminate].
      match type of H with
      | (if ?b then _ else _) = _ =>
          destruct b; [destruct (GCode.float_arg "E" c); cbn [bind] in H|]
      end; inversion H; reflexivity. }
    rewrite Ho. clear H Ho.
    destruct (Dict.mem "E" (GCode.args g)) eqn:Emem.
    + destruct (GCode.float_arg "E" g) as [te|] eqn:Ee; cbn [bind] in E; [|discriminate].
      cbn [Dict.set String.eqb Ascii.eqb Bool.eqb] in E.
      rewrite interpolate_xye in E. cbn [bind map] in E.
      apply subdivide_appends in E as (clones & Ho & F).
      repeat match goal with
        | F : Forall2 _ (_ :: _) _ |- _ => inversion F; subst; clear F
        | F : Forall2 _ [] _ |- _ => inversion F; subst; clear F
        end.
      do 4 eexists. split; [exact Ho|].
      repeat split; eapply clone_at_xye; eassumption.
    + cbn [bind] in E.
      rewrite interpolate_xy in E. cbn [bind map] in E.
      apply subdivide_appends in E as (clones & Ho & F).
      repeat match goal with
        | F : Forall2 _ (_ :: _) _ |- _ => inversion F; subst; clear F
        | F : Forall2 _ [] _ |- _ => inversion F; subst; clear F
        end.
      assert (Ee : Dict.get "E" (GCode.args g) = None).
      { unfold Dict.mem in Emem. destruct (Dict.get "E" (GCode.args g)); congruence. }
      do 4 eexists. split; [exact Ho|].
      repeat split; eapply clone_at_xy; eassumption.
Qed.

Lemma LayerCode_ordinary_move_witness :
  exists self',
    GCodeTranslator.call (L:=PyFloat.crlibm) GCodeTranslator.LayerCode
      in_first_layer (GCode.parse "G1 X20 Y8 E2 F1800") = OK (self', None)
    /\ exists tx ty,
        GCodeTranslator.target "X" (GCode.parse "G1 X20 Y8 E2 F1800")
          (GCodeTranslator.last_x in_first_layer) = OK tx
        /\ GCodeTranslator.target "Y" (GCode.parse "G1 X20 Y8 E2 F1800")
             (GCodeTranslator.last_y in_first_layer) = OK ty
        /\ if PrimFloat.eqb ty (GCodeTranslator.last_y in_first_layer)
           then exists z,
               GCodeTranslator.target_z (L:=PyFloat.crlibm) in_first_layer tx ty
                 (GCodeTranslator.layer_z in_first_layer) = OK z
               /\ GCodeTranslator.output self'
                  = (GCodeTranslator.output in_first_layer
                       ++ [GCode.set_arg "Z" (GCode.VFloat z)
                             (GCode.parse "G1 X20 Y8 E2 F1800")])%list
           else exists c1 c2 c3 c4,
               GCodeTranslator.output self'
               = (GCodeTranslator.output in_first_layer ++ [c1; c2; c3; c4])%list
               /\ sub_move (L:=PyFloat.crlibm) in_first_layer
                    (GCode.parse "G1 X20 Y8 E2 F1800") tx ty 1 c1
               /\ sub_move (L:=PyFloat.crlibm) in_first_layer
                    (GCode.parse "G1 X20 Y8 E2 F1800") tx ty 2 c2
               /\ sub_move (L:=PyFloat.crlibm) in_first_layer
                    (GCode.parse "G1 X20 Y8 E2 F1800") tx ty 3 c3
               /\ sub_move (L:=PyFloat.crlibm) in_first_layer
                    (GCode.parse "G1 X20 Y8 E2 F1800") tx ty 4 c4.
Proof.
  eexists. split.
  - vm_compute. reflexivity.
  - apply (@LayerCode_ordinary_move PyFloat.crlibm in_first_layer _
             (GCode.parse "G1 X20 Y8 E2 F1800") None);
      [repeat split|]; vm_compute; reflexivity.
Defined.

(** ** Lines without arguments or comments *)

Lemma append_assoc (a b c : string) : ((a ++ b) ++ c = a ++ (b ++ c))%string.
Proof. induction a as [|x a IH]; cbn; [reflexivity|now rewrite IH]. Qed.

Lemma append_empty_r (a : string) : (a ++ "" = a)%string.
Proof. induction a as [|x a IH]; cbn; [reflexivity|now rewrite IH]. Qed.

Lemma lstrip_spaces (w s : string) :
  all_space w = true -> PyStr.lstrip (w ++ s) = PyStr.lstrip s.
Proof.
  induction w as [|c w IH]; cbn; [reflexivity|].
  intros H. apply andb_prop in H as [Hc Hw]. rewrite Hc. auto.
Qed.

Lemma lstrip_word (a s : string) :
  no_space a = true -> a <> "" -> PyStr.lstrip (a ++ s) = (a ++ s)%string.
Proof.
  destruct a as [|c a]; [congruence|]. cbn. intros H _.
  apply andb_prop in H as [Hc _]. now destruct (PyStr.isspace c).
Qed.

Lemma rstrip_spaces (w : string) : all_space w = true -> PyStr.rstrip w = "".
Proof.
  induction w as [|c w IH]; cbn; [reflexivity|].
  intros H. apply andb_prop in H as [Hc Hw]. now rewrite IH, Hc.
Qed.

Lemma rstrip_word (a w : string) :
  no_space a = true -> all_space w = true -> PyStr.rstrip (a ++ w) = a.
Proof.
  intros Ha Hw. induction a as [|c a IH]; cbn.
  - now apply rstrip_spaces.
  - cbn in Ha. apply andb_prop in Ha as [Hc Ha].
    destruct (PyStr.isspace c); [discriminate|]. cbn. now rewrite IH.
Qed.

Lemma rstrip_after (u x : string) :
  PyStr.is_empty (PyStr.rstrip x) = false ->
  PyStr.rstrip (u ++ x) = (u ++ PyStr.rstrip x)%string.
Proof.
  intros H. induction u as [|c u IH]; cbn; [reflexivity|].
  rewrite IH. destruct (u ++ PyStr.rstrip x)%string eqn:E.
  - destruct u; cbn in E; [|discriminate]. rewrite E in H. discriminate.
  - cbn. now rewrite andb_false_r.
Qed.

Lemma split_from_nil (s tok : string) :
  PyStr.split_from tok s = [] -> tok = "" /\ all_space s = true.
Proof.
  revert tok. induction s as [|c s IH]; intros tok; cbn.
  - destruct tok; [auto|discriminate].
  - destruct (PyStr.isspace c).
    + destruct tok; cbn; [|discriminate]. intros H. apply IH in H as [_ H]. auto.
    + intros H. apply IH in H as [H _]. destruct tok; discriminate.
Qed.

Lemma split_from_one (s tok t : string) :
  tok <> "" -> PyStr.split_from tok s = [t] ->
  exists a w, s = (a ++ w)%string /\ no_space a = true /\ all_space w = true
              /\ t = (tok ++ a)%string.
Proof.
  revert tok. induction s as [|c s IH]; intros tok Hn; cbn.
  - destruct tok; [congruence|]. cbn. intros H. inversion H.
    exists "", "". cbn. rewrite append_empty_r. auto.
  - destruct (PyStr.isspace c) eqn:Ec.
    + destruct tok; [congruence|]. cbn. intros H. inversion H as [[Ht Hs]].
      apply split_from_nil in Hs as [_ Hs].
      exists "", (String c s). cbn. rewrite Ec, Hs, append_empty_r. subst t. auto.
    + intros H. apply IH in H as (a & w & Hs & Ha & Hw & Ht).
      * exists (String c a), w. cbn. rewrite Ec, Ha, Hs, Ht, append_assoc. auto.
      * destruct tok; discriminate.
Qed.

Lemma split_one (s t : string) :
  PyStr.split s = [t] ->
  exists w0 w, s = (w0 ++ t ++ w)%string /\ all_space w0 = true
               /\ no_space t = true /\ t <> "" /\ all_space w = true.
Proof.
  unfold PyStr.split. induction s as [|c s IH]; cbn; [discriminate|].
  destruct (PyStr.isspace c) eqn:Ec.
  - intros H. apply IH in H as (w0 & w & Hs & H0 & Ht & Hn & Hw).
    exists (String c w0), w. cbn. rewrite Ec, Hs. auto.
  - intros H. apply split_from_one in H as (a & w & Hs & Ha & Hw & Ht); [|discriminate].
    exists "", w. subst t s. cbn. rewrite Ec, Ha. repeat split; auto. discriminate.
Qed.

Lemma split_from_word (a tok : string) :
  no_space a = true -> (tok ++ a)%string <> "" ->
  PyStr.split_from tok a = [(tok ++ a)%string].
Proof.
  revert tok. induction a as [|c a IH]; intros tok Ha Hn; cbn.
  - rewrite append_empty_r in *. destruct tok; [congruence|reflexivity].
  - cbn in Ha. apply andb_prop in Ha as [Hc Ha].
    destruct (PyStr.isspace c); [discriminate|].
    rewrite IH; rewrite ?append_assoc; auto.
Qed.

Lemma partition_prefix (sep : ascii) (u v : string) :
  PyStr.partition sep (u ++ v) = None -> PyStr.partition sep u = None.
Proof.
  induction u as [|c u IH]; cbn; [reflexivity|].
  destruct (Ascii.eqb c sep); [discriminate|].
  destruct (PyStr.partition sep (u ++ v)) as [[a b]|]; [discriminate|].
  intros _. now rewrite IH.
Qed.

(** The line "G28 " has one token and no ';', and is not what comes
    back: the blank at its end is gone. *)
Lemma trailing_blank_is_lost :
  PyStr.contains ";" "G28 " = false
  /\ PyStr.split "G28 " = ["G28"]
  /\ GCode.str (GCode.parse "G28 ") = OK "G28"
  /\ "G28" <> "G28 ".
Proof. repeat split; try reflexivity. discriminate. Qed.

(** C8, as the code has it.  A line with at most one token and no ';'
    comes back from [parse] and [str] without the whitespace at its two
    ends, and is otherwise reproduced character for character; it comes
    back as it is when it has no such whitespace. *)
Theorem str_parse_bare_line :
  forall line : string,
    PyStr.contains ";" line = false ->
    (List.length (PyStr.split line) <= 1)%nat ->
    GCode.str (GCode.parse line) = OK (PyStr.strip line)
    /\ (PyStr.strip line = line -> GCode.str (GCode.parse line) = OK line).
Proof.
  intros line Hsemi Hone.
  assert (Main : GCode.str (GCode.parse line) = OK (PyStr.strip line));
    [|split; [exact Main|intros E; now rewrite Main, E]].
  unfold PyStr.contains in Hsemi.
  destruct (PyStr.partition ";" line) as [|] eqn:Hp; [discriminate|]. clear Hsemi.
  destruct (PyStr.split line) as [|t [|t' rest]] eqn:Hs; [| |cbn in Hone; lia].
  - apply split_from_nil in Hs as [_ Hs].
    unfold GCode.parse, PyStr.strip.
    rewrite (rstrip_spaces _ Hs). cbn.
    rewrite <- (append_empty_r line), lstrip_spaces by exact Hs. reflexivity.
  - apply split_one in Hs as (w0 & w & Hl & H0 & Ht & Hn & Hw).
    assert (Hnz : PyStr.is_empty (PyStr.rstrip (t ++ w)) = false).
    { rewrite rstrip_word by assumption. destruct t; [congruence|reflexivity]. }
    assert (Hr : PyStr.rstrip line = (w0 ++ t)%string).
    { rewrite Hl, rstrip_after by exact Hnz. now rewrite rstrip_word. }
    assert (Hst : forall x, all_space x = true -> PyStr.strip (w0 ++ t ++ x) = t).
    { intros x Hx. unfold PyStr.strip.
      rewrite lstrip_spaces, lstrip_word, rstrip_word by assumption. reflexivity. }
    unfold GCode.parse. rewrite Hr.
    assert (Hp' : PyStr.partition ";" (w0 ++ t) = None).
    { apply partition_prefix with (v := w). now rewrite append_assoc, <- Hl. }
    rewrite Hp'.
    rewrite <- (append_empty_r t) at 1. rewrite (Hst "" eq_refl).
    unfold PyStr.split. rewrite split_from_word by (cbn; auto).
    cbn. rewrite Hl, (Hst w Hw). reflexivity.
Qed.

Lemma str_parse_bare_line_witness :
  GCode.str (GCode.parse " G28 ") = OK (PyStr.strip " G28 ")
  /\ (PyStr.strip " G28 " = " G28 " -> GCode.str (GCode.parse " G28 ") = OK " G28 ").
Proof.
  apply (str_parse_bare_line " G28 "); [reflexivity|vm_compute; lia].
Defined.

(** ** Rounding to binary64 *)

(** The arithmetic of [SpecFloat] on integers: the bit length of a
    mantissa, the shift that brings it to 53 bits, and what
    [binary_round_aux] makes of an exact product or sum. *)

Section Rounding.

Local Open Scope Z_scope.

Lemma fexp_spec (k : Z) : fexp prec emax k = Z.max (k - 53) (-1074).
Proof. reflexivity. Qed.

Lemma Zdigits2_log2 (x : Z) : 0 < x -> Zdigits2 x = Z.log2 x + 1.
Proof.
  destruct x as [|p|p]; try lia. intros _. cbn [Zdigits2].
  induction p as [p IH|p IH|]; cbn [digits2_pos]; try reflexivity;
    rewrite Pos2Z.inj_succ, IH.
  - rewrite Pos2Z.inj_xI, Z.log2_succ_double by lia. lia.
  - rewrite Pos2Z.inj_xO, Z.log2_double by lia. lia.
Qed.

Lemma Zdigits2_nonneg (x : Z) : 0 <= x -> 0 <= Zdigits2 x.
Proof. destruct x; cbn; lia. Qed.

Lemma Zdigits2_pos (x : Z) : 0 < x -> 0 < Zdigits2 x.
Proof. destruct x; cbn; lia. Qed.

Lemma Zdigits2_bounds (x : Z) :
  0 < x -> 2 ^ (Zdigits2 x - 1) <= x < 2 ^ Zdigits2 x.
Proof.
  intros H. rewrite Zdigits2_log2 by exact H.
  replace (Z.log2 x + 1 - 1) with (Z.log2 x) by lia.
  replace (Z.log2 x + 1) with (Z.succ (Z.log2 x)) by lia.
  apply Z.log2_spec. exact H.
Qed.

Lemma Zdigits2_unique (x k : Z) :
  2 ^ (k - 1) <= x < 2 ^ k -> 0 < x -> Zdigits2 x = k.
Proof.
  intros H Hx. rewrite Zdigits2_log2 by exact Hx.
  assert (0 < k).
  { destruct (Z.ltb_spec 0 k); [assumption|].
    assert (2 ^ k <= 1); [|lia].
    destruct (Z.eq_dec k 0); [subst; cbn; lia|].
    rewrite Z.pow_neg_r; lia. }
  assert (Z.log2 x = k - 1); [|lia].
  apply Z.log2_unique; [lia|].
  replace (Z.succ (k - 1)) with k by lia. exact H.
Qed.

Lemma Zdigits2_mono (x y : Z) : 0 <= x <= y -> Zdigits2 x <= Zdigits2 y.
Proof.
  intros H. destruct (Z.eq_dec x 0) as [->|].
  - cbn. apply Zdigits2_nonneg. lia.
  - rewrite !Zdigits2_log2 by lia. apply Z.add_le_mono_r, Z.log2_le_mono. lia.
Qed.

Lemma Zdigits2_succ (x : Z) : 0 <= x -> Zdigits2 (x + 1) <= Zdigits2 x + 1.
Proof.
  intros H. destruct (Z.eq_dec x 0) as [->|]; [cbn; lia|].
  rewrite !Zdigits2_log2 by lia.
  pose proof (Z.log2_succ_le x). unfold Z.succ in *. lia.
Qed.

(** The bits that are left after dropping [n] of them. *)
Lemma Zdigits2_div_pow2 (x n : Z) :
  0 <= n -> 2 ^ n <= x -> Zdigits2 (x / 2 ^ n) = Zdigits2 x - n.
Proof.
  intros Hn Hx.
  assert (P : 0 < 2 ^ n) by (apply Z.pow_pos_nonneg; lia).
  assert (Q : 0 < x / 2 ^ n) by (apply Z.div_str_pos; lia).
  rewrite !Zdigits2_log2 by lia.
  rewrite <- Z.shiftr_div_pow2, Z.log2_shiftr by lia.
  assert (n <= Z.log2 x); [|lia].
  apply Z.log2_le_pow2; lia.
Qed.

Lemma Zdigits2_small (x n : Z) : 0 <= n -> 0 <= x < 2 ^ n -> Zdigits2 x <= n.
Proof.
  intros Hn H. destruct (Z.eq_dec x 0) as [->|]; [cbn; lia|].
  assert (B : 2 ^ (Zdigits2 x - 1) <= x < 2 ^ Zdigits2 x)
    by (apply Zdigits2_bounds; lia).
  destruct (Z.leb_spec (Zdigits2 x) n); [assumption|].
  assert (2 ^ n <= 2 ^ (Zdigits2 x - 1)) by (apply Z.pow_le_mono_r; lia). lia.
Qed.

(** Shifting right by one bit, and by [p] bits: the mantissa of the
    record is halved each time. *)
Lemma shr_1_m (r : shr_record) : 0 <= shr_m r -> shr_m (shr_1 r) = shr_m r / 2.
Proof.
  destruct r as [m b s]. cbn [shr_m]. intros H.
  destruct m as [|[p|p|]|p]; cbn [shr_1 shr_m]; try lia; try reflexivity.
  - rewrite Pos2Z.inj_xI. apply Z.div_unique with 1; lia.
  - rewrite Pos2Z.inj_xO. apply Z.div_unique with 0; lia.
Qed.

Lemma iter_pos_shr_1_m (p : positive) :
  forall r, 0 <= shr_m r -> shr_m (iter_pos shr_1 p r) = shr_m r / 2 ^ Zpos p.
Proof.
  assert (D : forall a b c, 0 <= a -> 0 < b -> 0 < c -> a / b / c = a / (b * c)).
  { intros. apply Z.div_div; lia. }
  assert (N : forall a b, 0 <= a -> 0 < b -> 0 <= a / b).
  { intros. apply Z.div_pos; lia. }
  assert (P : forall q, 0 < 2 ^ Zpos q) by (intros; apply Z.pow_pos_nonneg; lia).
  assert (W : forall q, 0 <= q -> 2 ^ (2 * q) = 2 ^ q * 2 ^ q).
  { intros q Hq. replace (2 * q) with (q + q) by lia. apply Z.pow_add_r; lia. }
  induction p as [p IH|p IH|]; intros r H; cbn [iter_pos].
  - assert (H1 : 0 <= shr_m (shr_1 r)) by (rewrite shr_1_m; [apply N; lia|exact H]).
    assert (H2 : 0 <= shr_m (iter_pos shr_1 p (shr_1 r)))
      by (rewrite IH; [apply N; auto|exact H1]).
    rewrite IH, IH, shr_1_m by assumption.
    rewrite (D (shr_m r) 2 (2 ^ Z.pos p)) by (auto; lia).
    rewrite (D (shr_m r) (2 * 2 ^ Z.pos p) (2 ^ Z.pos p))
      by solve [assumption | pose proof (P p); lia]. f_equal.
    rewrite (Pos2Z.inj_xI p), Z.pow_add_r, W by lia. lia.
  - assert (H2 : 0 <= shr_m (iter_pos shr_1 p r))
      by (rewrite IH; [apply N; auto|exact H]).
    rewrite IH, IH by assumption.
    rewrite (D (shr_m r) (2 ^ Z.pos p) (2 ^ Z.pos p)) by auto. f_equal.
    rewrite (Pos2Z.inj_xO p), W by lia. lia.
  - rewrite shr_1_m by assumption. reflexivity.
Qed.

Lemma shr_spec (r : shr_record) (e n : Z) :
  0 <= shr_m r -> 0 <= n ->
  snd (shr r e n) = e + n /\ shr_m (fst (shr r e n)) = shr_m r / 2 ^ n.
Proof.
  intros H Hn. destruct n as [|p|p]; try lia; cbn [shr fst snd].
  - rewrite Z.div_1_r. lia.
  - split; [reflexivity|]. now apply iter_pos_shr_1_m.
Qed.

Lemma round_nearest_even_bounds (m : Z) (l : location) :
  m <= round_nearest_even m l <= m + 1.
Proof.
  destruct l as [|[| |]]; cbn [round_nearest_even]; try lia.
  destruct (Z.even m); lia.
Qed.

Lemma div_pos_iff (x n : Z) : 0 <= x -> 0 <= n -> (0 < x / 2 ^ n <-> 2 ^ n <= x).
Proof.
  intros Hx Hn. assert (P : 0 < 2 ^ n) by (apply Z.pow_pos_nonneg; lia). split.
  - intros H. destruct (Z.leb_spec (2 ^ n) x); [assumption|].
    rewrite Z.div_small in H; lia.
  - intros H. apply Z.div_str_pos. lia.
Qed.

(** [shr_fexp] on an exact mantissa with bits to spare: the exponent
    becomes the one of the format, and the bits below it are dropped. *)
Lemma shr_fexp_exact (x e : Z) :
  0 <= x -> e <= fexp prec emax (Zdigits2 x + e) ->
  snd (shr_fexp prec emax x e loc_Exact) = fexp prec emax (Zdigits2 x + e)
  /\ shr_m (fst (shr_fexp prec emax x e loc_Exact))
     = x / 2 ^ (fexp prec emax (Zdigits2 x + e) - e)
  /\ (fexp prec emax (Zdigits2 x + e) = e ->
      loc_of_shr_record (fst (shr_fexp prec emax x e loc_Exact)) = loc_Exact).
Proof.
  intros Hx He. unfold shr_fexp. cbn [shr_record_of_loc].
  pose proof (@shr_spec (Build_shr_record x false false) e
                (fexp prec emax (Zdigits2 x + e) - e)) as [S1 S2];
    [exact Hx|lia|].
  rewrite S1, S2. cbn [shr_m]. repeat split; [lia|].
  intros E. rewrite E, Z.sub_diag. reflexivity.
Qed.

Lemma binary_round_aux_exact (s : bool) (m e : Z) :
  0 < m -> e <= fexp prec emax (Zdigits2 m + e) ->
  rounded s m e (binary_round_aux prec emax s m e loc_Exact).
Proof.
  intros Hm He. unfold binary_round_aux.
  destruct (@shr_fexp_exact m e) as (S1 & S2 & S3); [lia|exact He|].
  destruct (shr_fexp prec emax m e loc_Exact) as [r1 e1]. cbn [fst snd] in *.
  rewrite <- S1 in S2, S3.
  set (m2 := round_nearest_even (shr_m r1) (loc_of_shr_record r1)).
  assert (B2 : shr_m r1 <= m2 <= shr_m r1 + 1) by apply round_nearest_even_bounds.
  set (d := Zdigits2 m) in *.
  assert (Hd : 0 < d) by (apply Zdigits2_pos; lia).
  assert (Bd : 2 ^ (d - 1) <= m < 2 ^ d) by (apply Zdigits2_bounds; lia).
  assert (Hn1 : 0 <= e1 - e) by lia.
  assert (P1 : 0 < 2 ^ (e1 - e)) by (apply Z.pow_pos_nonneg; lia).
  assert (N1 : 0 <= shr_m r1) by (rewrite S2; apply Z.div_pos; lia).
  (* the bit length of the mantissa after the first shift *)
  assert (D1 : (2 ^ (e1 - e) <= m /\ Zdigits2 (shr_m r1) = d - (e1 - e)
                /\ 0 < shr_m r1)
               \/ (m < 2 ^ (e1 - e) /\ shr_m r1 = 0 /\ e1 = -1074)).
  { destruct (Z.leb_spec (2 ^ (e1 - e)) m) as [L|L].
    - left. rewrite S2. split; [exact L|]. split.
      + apply Zdigits2_div_pow2; lia.
      + apply div_pos_iff; lia.
    - right. split; [exact L|]. split; [rewrite S2; apply Z.div_small; lia|].
      assert (d <= e1 - e) by (apply Zdigits2_small; lia).
      rewrite fexp_spec in S1. lia. }
  assert (D2 : Zdigits2 (shr_m r1) <= Zdigits2 m2 <= Zdigits2 (shr_m r1) + 1).
  { split; [apply Zdigits2_mono; lia|].
    transitivity (Zdigits2 (shr_m r1 + 1)); [apply Zdigits2_mono; lia|].
    apply Zdigits2_succ; lia. }
  assert (He2 : e1 <= fexp prec emax (Zdigits2 m2 + e1)).
  { rewrite fexp_spec in *. destruct D1 as [(_ & D1 & _)|(_ & _ & D1)]; lia. }
  destruct (@shr_fexp_exact m2 e1) as (T1 & T2 & _); [lia|exact He2|].
  destruct (shr_fexp prec emax m2 e1 loc_Exact) as [r2 e2]. cbn [fst snd] in *.
  rewrite <- T1 in T2.
  assert (Hn2 : 0 <= e2 - e1) by lia.
  assert (P2 : 0 < 2 ^ (e2 - e1)) by (apply Z.pow_pos_nonneg; lia).
  assert (Up : e2 <= fexp prec emax (d + e + 1)).
  { rewrite fexp_spec in *. destruct D1 as [(_ & D1 & _)|(_ & D1 & E1)]; [lia|].
    assert (Zdigits2 m2 <= 1); [|lia].
    apply (@Zdigits2_small m2 1); lia. }
  assert (Low : m / 2 ^ (e2 - e) <= shr_m r2).
  { rewrite T2. replace (e2 - e) with ((e1 - e) + (e2 - e1)) by lia.
    rewrite Z.pow_add_r, <- Z.div_div, <- S2 by lia.
    apply Z.div_le_mono; lia. }
  destruct (shr_m r2) as [|m3|m3] eqn:E3.
  - (* the result is zero: the exponent was below the format *)
    apply rounded_zero.
    destruct (Z.ltb_spec e (-1074)) as [|Ge]; [assumption|exfalso].
    assert (Z3 : ~ 2 ^ (e2 - e1) <= m2).
    { intros L. apply div_pos_iff in L; lia. }
    apply Z3. clear Z3.
    destruct (Z.eq_dec e1 e) as [Ee|Ne].
    + (* no first shift: nothing is rounded *)
      assert (M2 : m2 = m).
      { unfold m2. rewrite S3 by lia. cbn [round_nearest_even].
        rewrite S2, Ee, Z.sub_diag. apply Z.div_1_r. }
      rewrite M2 in *. fold d in T1.
      assert (E2 : e2 = e1) by (rewrite T1, Ee; lia).
      rewrite E2, Z.sub_diag. change (2 ^ 0) with 1. lia.
    + rewrite fexp_spec in *.
      assert (E1 : e1 = d + e - 53) by lia.
      destruct D1 as [(_ & D1 & G1)|(L & _ & _)].
      * assert (B : 2 ^ (Zdigits2 m2 - 1) <= m2 < 2 ^ Zdigits2 m2)
          by (apply Zdigits2_bounds; lia).
        transitivity (2 ^ (Zdigits2 m2 - 1)); [|lia].
        apply Z.pow_le_mono_r; lia.
      * exfalso. assert (2 ^ (e1 - e) <= 2 ^ (d - 1)); [|lia].
        apply Z.pow_le_mono_r; lia.
  - destruct (Z.leb_spec e2 (emax - prec)) as [Le|Gt].
    + apply rounded_finite.
      * unfold bounded, canonical_mantissa.
        apply andb_true_intro. split; [|apply Z.leb_le; exact Le].
        apply Z.eqb_eq.
        assert (D3 : Zdigits2 (Z.pos m3) = Zdigits2 m2 - (e2 - e1)).
        { rewrite T2. apply Zdigits2_div_pow2; [lia|].
          apply div_pos_iff; lia. }
        cbn [Zdigits2] in D3. rewrite D3.
        replace (Zdigits2 m2 - (e2 - e1) + e2) with (Zdigits2 m2 + e1) by lia.
        symmetry. exact T1.
      * fold d. lia.
      * exact Low.
    + apply rounded_infinity. fold d. change (emax - prec) with 971 in Gt. lia.
  - exfalso. assert (0 <= m2 / 2 ^ (e2 - e1)) by (apply Z.div_pos; lia). lia.
Qed.

End Rounding.

(** ** Floats through their specification *)

(** What the tests on a float say about the value it stands for. *)
Lemma SFeqb_refl (x : spec_float) :
  SFeqb x x = match x with S754_nan => false | _ => true end.
Proof.
  destruct x as [s|s| |s m e]; try reflexivity; unfold SFeqb; cbn.
  - destruct s; reflexivity.
  - rewrite Z.compare_refl, Pos.compare_cont_refl. destruct s; reflexivity.
Qed.

Lemma is_nan_spec (x : float) :
  PrimFloat.is_nan x = match Prim2SF x with S754_nan => true | _ => false end.
Proof.
  unfold PrimFloat.is_nan. rewrite eqb_spec, SFeqb_refl.
  destruct (Prim2SF x); reflexivity.
Qed.

Lemma is_infinity_spec (x : float) :
  PrimFloat.is_infinity x
  = match Prim2SF x with S754_infinity _ => true | _ => false end.
Proof.
  unfold PrimFloat.is_infinity. rewrite eqb_spec, abs_spec.
  destruct (Prim2SF x) as [s|s| |s m e]; reflexivity.
Qed.

Lemma is_finite_spec (x : float) :
  PrimFloat.is_finite x
  = match Prim2SF x with S754_zero _ | S754_finite _ _ _ => true | _ => false end.
Proof.
  unfold PrimFloat.is_finite. rewrite is_nan_spec, is_infinity_spec.
  destruct (Prim2SF x); reflexivity.
Qed.

Lemma eqb_zero_spec (x : float) :
  PrimFloat.eqb x PyFloat.zero
  = match Prim2SF x with S754_zero _ => true | _ => false end.
Proof.
  rewrite eqb_spec. destruct (Prim2SF x) as [s|s| |s m e]; try reflexivity;
    destruct s; reflexivity.
Qed.

Lemma is_a_zero_eqb (x : float) : PrimFloat.eqb x PyFloat.zero = true -> is_a_zero x.
Proof.
  rewrite eqb_zero_spec. destruct (Prim2SF x) as [s|s| |s m e] eqn:E; try discriminate.
  intros _. now exists s.
Qed.

Lemma mul_zero_l (a b : float) :
  is_a_zero a -> PrimFloat.is_finite b = true -> is_a_zero (PrimFloat.mul a b).
Proof.
  intros [s Ha]. rewrite is_finite_spec. unfold is_a_zero.
  rewrite mul_spec, Ha. destruct (Prim2SF b) as [t|t| |t m e]; try discriminate;
    intros _; eexists; reflexivity.
Qed.

Lemma mul_zero_r (a b : float) :
  PrimFloat.is_finite a = true -> is_a_zero b -> is_a_zero (PrimFloat.mul a b).
Proof.
  rewrite is_finite_spec. intros Ha [s Hb]. unfold is_a_zero.
  rewrite mul_spec, Hb. destruct (Prim2SF a) as [t|t| |t m e]; try discriminate;
    eexists; reflexivity.
Qed.

Lemma is_a_zero_finite (a : float) : is_a_zero a -> PrimFloat.is_finite a = true.
Proof. intros [s H]. now rewrite is_finite_spec, H. Qed.

(** The square of a zero is the positive zero, whatever the library:
    [float_pow] does not ask it. *)
Lemma sqr_zero {L : PyFloat.Libm}
  (a : float) : is_a_zero a -> PyFloat.sqr a = OK PyFloat.zero.
Proof.
  intros [s H]. unfold PyFloat.sqr.
  rewrite is_nan_spec, is_infinity_spec, eqb_zero_spec, H. reflexivity.
Qed.

(** [2 * d - 0] and its square root are zeros when [d] is. *)
Lemma two_d_minus_zero (d : float) :
  is_a_zero d -> is_a_zero (PrimFloat.sub (PrimFloat.mul PyFloat.two d) PyFloat.zero).
Proof.
  intros [s H]. unfold is_a_zero. rewrite sub_spec, mul_spec, H.
  destruct s; eexists; reflexivity.
Qed.

Lemma sqrt_zero (a : float) :
  is_a_zero a -> exists r, PyFloat.sqrt a = OK r /\ is_a_zero r.
Proof.
  intros [s H]. unfold PyFloat.sqrt.
  assert (E : Prim2SF (PrimFloat.sqrt a) = S754_zero s) by (now rewrite sqrt_spec, H).
  rewrite is_nan_spec, E. cbn. eexists. split; [reflexivity|]. now exists s.
Qed.

Lemma sqrt_one : PyFloat.sqrt PyFloat.one = OK PyFloat.one.
Proof. reflexivity. Qed.

(** The height at a point where the depression is a zero: nothing is
    taken off, and [z + 1 - 1] is what is left of [z]. *)
Lemma target_z_flat {L : PyFloat.Libm}
  (self : GCodeTranslator.t) (x y z fz d xm ym : float) :
  GCodeTranslator.first_z self = Some fz ->
  GCodeScanner.layer_depression (GCodeTranslator.model self) (PrimFloat.sub z fz) = OK d ->
  is_a_zero d ->
  GCodeScanner.xmid (GCodeTranslator.model self) x = OK xm ->
  GCodeScanner.ymid (GCodeTranslator.model self) y = OK ym ->
  PrimFloat.is_finite ym = true ->
  GCodeTranslator.target_z self x y z
  = OK (PrimFloat.sub (PrimFloat.add z PyFloat.one) PyFloat.one).
Proof.
  intros Hf Hd Zd Hx Hy Fy. unfold GCodeTranslator.target_z.
  rewrite Hf, Hd. cbn [bind]. rewrite Hx. cbn [bind]. rewrite Hy. cbn [bind].
  rewrite (sqr_zero Zd). cbn [bind].
  destruct (sqrt_zero (two_d_minus_zero Zd)) as (s & Hs & Zs).
  rewrite Hs. cbn [bind].
  rewrite (sqr_zero (mul_zero_r _ Fy Zs)). cbn [bind].
  replace (PrimFloat.sub PyFloat.one PyFloat.zero) with PyFloat.one by reflexivity.
  rewrite sqrt_one. reflexivity.
Qed.

(** With a zero [target_depression] the depression of a layer is a
    zero, as long as the height over [max_z] is a finite number. *)
Lemma layer_depression_zero (model : GCodeScanner.t) (z q : float) :
  PrimFloat.eqb (GCodeScanner.target_depression model) PyFloat.zero = true ->
  PyFloat.div z (GCodeScanner.max_z model) = OK q ->
  PrimFloat.is_finite q = true ->
  exists d, GCodeScanner.layer_depression model z = OK d /\ is_a_zero d.
Proof.
  intros Ht Hq Fq. unfold GCodeScanner.layer_depression. rewrite Hq. cbn [bind].
  eexists. split; [reflexivity|].
  apply mul_zero_l; [apply mul_zero_l; [apply is_a_zero_eqb; exact Ht|exact Fq]|].
  reflexivity.
Qed.

(** In a layer at 0.2 with a zero depression, the height computed for
    0.2 is 0.19999999999999996, the float two units in the last place
    below 0.2; it is what the translator writes over Z on the layer
    move "G0 Z0.2" of a print. *)
Lemma flat_height_is_not_z :
  GCodeScanner.target_depression (GCodeTranslator.model in_first_layer) = 0%float
  /\ GCodeTranslator.target_z (L:=PyFloat.crlibm) in_first_layer 0 0 z02
     = OK 0x1.9999999999998p-3%float
  /\ PrimFloat.eqb 0x1.9999999999998p-3%float z02 = false
  /\ GCodeTranslator.handle_lines (L:=PyFloat.crlibm) 2
       (GCodeTranslator.init scanned_region) [";LAYER:0"; "G0 Z0.2"]
     = Returned
         (GCodeTranslator.LayerCode,
          GCodeTranslator.make scanned_region
            [GCode.make "" [] ";LAYER:0";
             GCode.make "G0" [("Z", GCode.VFloat 0x1.9999999999998p-3%float)] ""]
            (Some z02) z02 0 0 0 0).
Proof. repeat split. Qed.

(** C4, as the code has it.  With a zero depression amount, wherever
    the formula is defined (a baseline, finite quotients in
    [layer_depression] and [ymid], no division by zero in [xmid]), the
    height is [z + 1 - 1] in float arithmetic: [z] once it has been
    rounded with 1 added, which is not [z] for every [z]. *)
Theorem target_z_without_depression {L : PyFloat.Libm} :
  forall (self : GCodeTranslator.t) (x y z fz q xm ym : float),
    PrimFloat.eqb (GCodeScanner.target_depression (GCodeTranslator.model self))
      PyFloat.zero = true ->
    GCodeTranslator.first_z self = Some fz ->
    PyFloat.div (PrimFloat.sub z fz) (GCodeScanner.max_z (GCodeTranslator.model self))
    = OK q ->
    PrimFloat.is_finite q = true ->
    GCodeScanner.xmid (GCodeTranslator.model self) x = OK xm ->
    GCodeScanner.ymid (GCodeTranslator.model self) y = OK ym ->
    PrimFloat.is_finite ym = true ->
    GCodeTranslator.target_z self x y z
    = OK (PrimFloat.sub (PrimFloat.add z PyFloat.one) PyFloat.one).
Proof.
  intros self x y z fz q xm ym Ht Hf Hq Fq Hx Hy Fy.
  destruct (layer_depression_zero _ _ Ht Hq Fq) as (d & Hd & Zd).
  eapply target_z_flat; eassumption.
Qed.

Lemma target_z_without_depression_witness :
  GCodeTranslator.target_z (L:=PyFloat.crlibm) in_first_layer 20 5 z04
  = OK (PrimFloat.sub (PrimFloat.add z04 PyFloat.one) PyFloat.one).
Proof.
  eapply (@target_z_without_depression PyFloat.crlibm in_first_layer 20 5 z04);
    vm_compute; reflexivity.
Defined.

(** ** Squares above one *)

Section AboveOne.

Local Open Scope Z_scope.

Lemma Zdigits2_mul_pow2 (x k : Z) :
  0 < x -> 0 <= k -> Zdigits2 (x * 2 ^ k) = Zdigits2 x + k.
Proof.
  intros Hx Hk.
  assert (P : 0 < 2 ^ k) by (apply Z.pow_pos_nonneg; lia).
  assert (B : 2 ^ (Zdigits2 x - 1) <= x < 2 ^ Zdigits2 x) by (apply Zdigits2_bounds; lia).
  assert (D : 0 < Zdigits2 x) by (apply Zdigits2_pos; lia).
  apply Zdigits2_unique; [|nia].
  replace (Zdigits2 x + k - 1) with ((Zdigits2 x - 1) + k) by lia.
  rewrite !Z.pow_add_r by lia. nia.
Qed.

(** [shl_align] brings the exponent down to [et] when it is above. *)
Lemma shl_align_spec (m : positive) (e et : Z) :
  snd (shl_align m e et) = Z.min e et
  /\ Zpos (fst (shl_align m e et)) = Zpos m * 2 ^ (e - Z.min e et).
Proof.
  unfold shl_align. destruct (et - e) as [|p|p] eqn:E; cbn [fst snd].
  - rewrite Z.min_l by lia. rewrite Z.sub_diag. lia.
  - rewrite Z.min_l by lia. rewrite Z.sub_diag. lia.
  - rewrite Z.min_r by lia. split; [reflexivity|].
    change (Pos.iter xO m p) with (shift_pos p m).
    rewrite shift_pos_correct. replace (e - et) with (Zpos p) by lia.
    rewrite Z.mul_comm. reflexivity.
Qed.

(** Rounding [m * 2^e] when [e] is an exponent of the format: the
    result has the sign asked for and is no zero. *)
Lemma binary_round_exact (s : bool) (m : positive) (e : Z) :
  -1074 <= e ->
  binary_round prec emax s m e = S754_infinity s
  /\ 971 < fexp prec emax (Zpos (digits2_pos m) + e + 1)
  \/ exists m' e',
      binary_round prec emax s m e = S754_finite s m' e'
      /\ bounded prec emax m' e' = true.
Proof.
  intros He. unfold binary_round.
  destruct (shl_align_spec m e (fexp prec emax (Zpos (digits2_pos m) + e)))
    as [A1 A2].
  destruct (shl_align m e _) as [mz ez]. cbn [fst snd] in *.
  assert (Dz : Zdigits2 (Zpos mz) + ez = Zpos (digits2_pos m) + e).
  { rewrite A2, Zdigits2_mul_pow2 by lia. cbn [Zdigits2]. lia. }
  destruct (@binary_round_aux_exact s (Zpos mz) ez) as [Z|I|m' e' B _ _].
  - lia.
  - rewrite Dz, A1. lia.
  - rewrite fexp_spec in A1. lia.
  - left. split; [reflexivity|]. now rewrite <- Dz.
  - right. exists m', e'. auto.
Qed.

End AboveOne.

Lemma ltb_one_finite (m : positive) (e : Z) :
  SFltb (Prim2SF PyFloat.one) (S754_finite false m e) = true ->
  (-52 < e \/ e = -52 /\ 2 ^ 52 < Zpos m)%Z.
Proof.
  change (Prim2SF PyFloat.one) with (S754_finite false 4503599627370496 (-52)).
  unfold SFltb, SFcompare.
  destruct (Z.compare_spec (-52) e) as [E|L|G]; try discriminate.
  - destruct (Pos.compare_cont Eq 4503599627370496 m) eqn:C; try discriminate.
    intros _. right. split; [lia|].
    assert (C' : (4503599627370496 < m)%positive) by exact C.
    change (2 ^ 52)%Z with 4503599627370496%Z. lia.
  - intros _. left. exact L.
Qed.

(** A float above one in magnitude has 53 bits and an exponent of -52
    at least. *)
Lemma above_one_mantissa (m : positive) (e : Z) :
  bounded prec emax m e = true ->
  (-52 < e \/ e = -52 /\ 2 ^ 52 < Zpos m)%Z ->
  (-52 <= e /\ 2 ^ 52 <= Zpos m < 2 ^ 53
   /\ (e = -52 -> 2 ^ 52 + 1 <= Zpos m))%Z.
Proof.
  unfold bounded, canonical_mantissa. intros B H.
  apply andb_prop in B as [C _]. apply Z.eqb_eq in C. rewrite fexp_spec in C.
  assert (D : Zdigits2 (Zpos m) = 53%Z) by (cbn [Zdigits2]; lia).
  assert (Bd : (2 ^ (Zdigits2 (Zpos m) - 1) <= Zpos m < 2 ^ Zdigits2 (Zpos m))%Z)
    by (apply Zdigits2_bounds; lia).
  rewrite D in Bd. change (53 - 1)%Z with 52%Z in Bd. lia.
Qed.

(** A float above one is the float itself in magnitude, and is not 1. *)
Lemma above_one_finite (v : float) :
  above_one v -> PrimFloat.is_finite v = true ->
  exists m e, Prim2SF v = S754_finite false m e
              /\ (-52 < e \/ e = -52 /\ 2 ^ 52 < Zpos m)%Z.
Proof.
  intros [A|A] F; [|exact A].
  rewrite is_finite_spec, A in F. discriminate.
Qed.

Lemma above_one_not_one (m : positive) (e : Z) :
  (-52 < e \/ e = -52 /\ 2 ^ 52 < Zpos m)%Z ->
  SFeqb (S754_finite false m e) (Prim2SF PyFloat.one) = false.
Proof.
  change (Prim2SF PyFloat.one) with (S754_finite false 4503599627370496 (-52)).
  change (2 ^ 52)%Z with 4503599627370496%Z.
  intros H. unfold SFeqb, SFcompare.
  destruct (Z.compare_spec e (-52)) as [E|E|E]; try reflexivity.
  destruct (Pos.compare_cont Eq m 4503599627370496) eqn:C; try reflexivity.
  apply Pos.compare_eq in C. lia.
Qed.

(** The library of the examples is sound above one: the rounded square
    of a float above one is an infinity or a float above one. *)
Lemma crlibm_squares_above_one : squares_above_one PyFloat.crlibm.
Proof.
  intros v A F. cbn [PyFloat.pow2 PyFloat.crlibm fst].
  destruct (above_one_finite A F) as (m & e & E & H).
  pose proof (Prim2SF_valid v) as V. rewrite E in V.
  destruct (above_one_mantissa V H) as (He & Hm & Hm').
  unfold above_one. rewrite mul_spec, E.
  unfold SF64mul, SFmul. cbn [xorb].
  assert (Sq : (2 ^ 104 <= Zpos (m * m) < 2 ^ 106)%Z).
  { rewrite Pos2Z.inj_mul.
    change (2 ^ 104)%Z with (2 ^ 52 * 2 ^ 52)%Z.
    change (2 ^ 106)%Z with (2 ^ 53 * 2 ^ 53)%Z. nia. }
  assert (Dg : (105 <= Zdigits2 (Zpos (m * m)))%Z).
  { change 105%Z with (Zdigits2 (2 ^ 104)). apply Zdigits2_mono. lia. }
  destruct (@binary_round_aux_exact false (Zpos (m * m)) (e + e)) as [Z|I|m' e' B E' M].
  - lia.
  - rewrite fexp_spec. lia.
  - lia.
  - left. reflexivity.
  - right. exists m', e'. split; [reflexivity|].
    rewrite !fexp_spec in E'.
    destruct (Z.eq_dec e' (-52)) as [E52|]; [right|left; lia].
    split; [exact E52|].
    assert (e = -52)%Z by lia. subst e e'.
    change (-52 - (-52 + -52))%Z with 52%Z in M.
    assert (2 ^ 52 + 1 <= Zpos (m * m) / 2 ^ 52)%Z; [|lia].
    apply Z.div_le_lower_bound; [lia|].
    rewrite Pos2Z.inj_mul. specialize (Hm' eq_refl).
    change (2 ^ 52)%Z with 4503599627370496%Z in *. nia.
Qed.

(** The square of a float above one in magnitude, with a library that
    is sound above one: the power raises, or what it returns is above
    one. *)
Lemma sqr_above_one {L : PyFloat.Libm} (v : float) :
  squares_above_one L ->
  PrimFloat.ltb PyFloat.one (PrimFloat.abs v) = true ->
  PyFloat.sqr v = Raise OverflowError
  \/ PyFloat.sqr v = Raise ValueError
  \/ exists r, PyFloat.sqr v = OK r /\ above_one r.
Proof.
  intros HL. rewrite ltb_spec, abs_spec. unfold PyFloat.sqr.
  rewrite is_nan_spec, is_infinity_spec, eqb_zero_spec.
  destruct (Prim2SF v) as [s|s| |s m e] eqn:E; try discriminate.
  - (* an infinity *)
    intros _. right. right. eexists. split; [reflexivity|].
    left. now rewrite abs_spec, E.
  - cbn [SFabs]. intros H. apply ltb_one_finite in H.
    set (iv := if PrimFloat.ltb v PyFloat.zero then PrimFloat.opp v else v).
    assert (Ei : Prim2SF iv = S754_finite false m e).
    { unfold iv. rewrite ltb_spec, E.
      destruct s; cbn; [rewrite opp_spec, E|exact E]; reflexivity. }
    assert (A : above_one iv) by (right; eauto).
    assert (F : PrimFloat.is_finite iv = true) by (now rewrite is_finite_spec, Ei).
    rewrite eqb_spec, Ei, (above_one_not_one H).
    specialize (HL iv A F).
    destruct (PyFloat.pow2 iv) as [ix er]. cbn [fst] in HL.
    assert (Z : PrimFloat.eqb ix PyFloat.zero = false).
    { rewrite eqb_zero_spec. destruct HL as [I|(m' & e' & I & _)]; now rewrite I. }
    destruct er; cbn [PyFloat.adjust_erange1]; rewrite ?Z; auto.
    destruct (PrimFloat.is_infinity ix); eauto.
Qed.

(** One minus a float above one is below zero, and has no square
    root. *)
Lemma sqrt_one_minus (r : float) :
  above_one r ->
  PyFloat.sqrt (PrimFloat.sub PyFloat.one r) = Raise ValueError.
Proof.
  intros A.
  assert (N : Prim2SF (PrimFloat.sub PyFloat.one r) = S754_infinity true
              \/ exists m e, Prim2SF (PrimFloat.sub PyFloat.one r)
                             = S754_finite true m e).
  { rewrite sub_spec. pose proof (Prim2SF_valid r) as V.
    change (Prim2SF PyFloat.one) with (S754_finite false 4503599627370496 (-52)).
    destruct A as [A|(m & e & A & H)]; rewrite A in *; [left; reflexivity|].
    destruct (above_one_mantissa V H) as (He & Hm & _).
    unfold SF64sub, SFsub. rewrite Z.min_l by lia. cbn [cond_Zopp].
    destruct (shl_align_spec 4503599627370496 (-52) (-52)) as [_ A1].
    destruct (shl_align_spec m e (-52)) as [_ A2].
    rewrite Z.min_r in A2 by lia. rewrite A1, A2. clear A1 A2.
    change (-52 - Z.min (-52) (-52))%Z with 0%Z.
    assert (P : (2 ^ (e - -52) = 1 /\ e = -52 \/ 2 <= 2 ^ (e - -52))%Z).
    { destruct (Z.eq_dec e (-52)) as [->|]; [left; auto|right].
      change 2%Z with (2 ^ 1)%Z at 1. apply Z.pow_le_mono_r; lia. }
    assert (D : (4503599627370496 * 2 ^ 0 - Zpos m * 2 ^ (e - -52) < 0)%Z).
    { change (2 ^ 0)%Z with 1%Z. change (2 ^ 52)%Z with 4503599627370496%Z in *.
      destruct P as [[P E]|P]; [rewrite P; lia|nia]. }
    destruct (4503599627370496 * 2 ^ 0 - Zpos m * 2 ^ (e - -52))%Z as [|p|p];
      try lia.
    cbn [binary_normalize].
    destruct (@binary_round_exact true p (-52)) as [[I _]|(m' & e' & F & _)];
      [lia|rewrite I; auto|rewrite F; eauto]. }
  unfold PyFloat.sqrt. rewrite !is_nan_spec, sqrt_spec.
  destruct N as [N|(m & e & N)]; rewrite N; reflexivity.
Qed.

(** At the height 5.2 the depression is 0.2; at Y = 1e200, far off the
    region, [ymid(y) * sqrt(2d - d^2)] is 6e198 and its square is too
    large for a float: the error is the overflow of the power, raised
    before the square root is taken.  A print reaches the point with a
    move made in relative positioning, which the scanner leaves out of
    the region. *)
Lemma far_point_overflows :
  (exists d ym s,
      GCodeScanner.layer_depression deep_region (PrimFloat.sub z52 z02) = OK d
      /\ GCodeScanner.ymid deep_region (PyFloat.of_decimal false 1 200) = OK ym
      /\ d2 <- PyFloat.sqr (L:=PyFloat.crlibm) d ;;
         PyFloat.sqrt (PrimFloat.sub (PrimFloat.mul PyFloat.two d) d2) = OK s
      /\ PrimFloat.ltb PyFloat.one (PrimFloat.abs (PrimFloat.mul ym s)) = true)
  /\ GCodeTranslator.target_z (L:=PyFloat.crlibm) in_deep_layer
       0 (PyFloat.of_decimal false 1 200) z52
     = Raise OverflowError
  /\ main (L:=PyFloat.crlibm) 3
       [";TYPE:SKIRT"; "G1 X0 Y0 Z10"; "G1 X20 Y20"; "G91";
        ";LAYER:0"; "G0 Z0.2"; "G0 Z5.2 Y1e200"] z01
     = Raised OverflowError.
Proof.
  split; [do 3 eexists|]; repeat split; vm_compute; reflexivity.
Qed.

(** C9, as the code has it.  When the depression, [ymid(y)] and
    [sqrt(2d - d^2)] are computed and their product is above one in
    magnitude, [target_z] raises and returns no value, clamped or
    other: the domain error of the square root, or, when the power
    that comes before it overflows, the overflow of the power.  The C
    library is any that is sound above one. *)
Theorem target_z_out_of_domain {L : PyFloat.Libm} :
  squares_above_one L ->
  forall (self : GCodeTranslator.t) (x y z fz d xm ym d2 s : float),
    GCodeTranslator.first_z self = Some fz ->
    GCodeScanner.layer_depression (GCodeTranslator.model self) (PrimFloat.sub z fz)
    = OK d ->
    GCodeScanner.xmid (GCodeTranslator.model self) x = OK xm ->
    GCodeScanner.ymid (GCodeTranslator.model self) y = OK ym ->
    PyFloat.sqr d = OK d2 ->
    PyFloat.sqrt (PrimFloat.sub (PrimFloat.mul PyFloat.two d) d2) = OK s ->
    PrimFloat.ltb PyFloat.one (PrimFloat.abs (PrimFloat.mul ym s)) = true ->
    GCodeTranslator.target_z self x y z = Raise ValueError
    \/ PyFloat.sqr (PrimFloat.mul ym s) = Raise OverflowError
       /\ GCodeTranslator.target_z self x y z = Raise OverflowError.
Proof.
  intros HL self x y z fz d xm ym d2 s Hf Hd Hx Hy Hd2 Hs H.
  unfold GCodeTranslator.target_z.
  rewrite Hf, Hd. cbn [bind]. rewrite Hx. cbn [bind]. rewrite Hy. cbn [bind].
  rewrite Hd2. cbn [bind]. rewrite Hs. cbn [bind].
  destruct (sqr_above_one HL H) as [E|[E|(r & E & A)]]; rewrite E; cbn [bind].
  - right. split; reflexivity.
  - left. reflexivity.
  - left. now rewrite (sqrt_one_minus A).
Qed.

Lemma target_z_out_of_domain_witness :
  exists ym s : float,
    PrimFloat.ltb PyFloat.one (PrimFloat.abs (PrimFloat.mul ym s)) = true
    /\ (GCodeTranslator.target_z (L:=PyFloat.crlibm) in_deep_layer 0 100 z52
        = Raise ValueError
        \/ PyFloat.sqr (L:=PyFloat.crlibm) (PrimFloat.mul ym s) = Raise OverflowError
           /\ GCodeTranslator.target_z (L:=PyFloat.crlibm) in_deep_layer 0 100 z52
              = Raise OverflowError).
Proof.
  do 2 eexists. split;
    [|eapply (@target_z_out_of_domain PyFloat.crlibm crlibm_squares_above_one
                in_deep_layer 0 100 z52);
      vm_compute; reflexivity].
  vm_compute. reflexivity.
Defined.

(** ** Exact products and integers as floats *)

Section Exact.

Local Open Scope Z_scope.

(** Shifting out zeros leaves the record exact. *)
Lemma shr_1_exact (x : Z) :
  0 <= x ->
  shr_1 (Build_shr_record (2 * x) false false) = Build_shr_record x false false.
Proof. destruct x as [|q|q]; try lia; reflexivity. Qed.

Lemma iter_pos_shr_1_exact (p : positive) :
  forall x, 0 <= x ->
    iter_pos shr_1 p (Build_shr_record (x * 2 ^ Zpos p) false false)
    = Build_shr_record x false false.
Proof.
  assert (P : forall q, 0 < 2 ^ Zpos q) by (intros; apply Z.pow_pos_nonneg; lia).
  assert (W : forall q, 0 <= q -> 2 ^ (2 * q) = 2 ^ q * 2 ^ q).
  { intros q Hq. replace (2 * q) with (q + q) by lia. apply Z.pow_add_r; lia. }
  induction p as [p IH|p IH|]; intros x Hx; cbn [iter_pos].
  - rewrite (Pos2Z.inj_xI p), Z.pow_add_r, W by lia. change (2 ^ 1) with 2.
    replace (x * (2 ^ Z.pos p * 2 ^ Z.pos p * 2))
      with (2 * (x * 2 ^ Z.pos p * 2 ^ Z.pos p)) by lia.
    pose proof (P p).
    rewrite shr_1_exact, IH, IH by nia. reflexivity.
  - rewrite (Pos2Z.inj_xO p), W by lia.
    replace (x * (2 ^ Z.pos p * 2 ^ Z.pos p))
      with (x * 2 ^ Z.pos p * 2 ^ Z.pos p) by lia.
    pose proof (P p).
    rewrite IH, IH by nia. reflexivity.
  - change (2 ^ 1) with 2. rewrite Z.mul_comm. now apply shr_1_exact.
Qed.

(** A float written with [k] more bits than it needs rounds to
    itself. *)
Lemma binary_round_aux_representable (s : bool) (m : positive) (e k : Z) :
  bounded prec emax m e = true -> 0 <= k ->
  binary_round_aux prec emax s (Zpos m * 2 ^ k) (e - k) loc_Exact
  = S754_finite s m e.
Proof.
  unfold bounded, canonical_mantissa. intros B Hk.
  apply andb_prop in B as [C Le]. apply Z.eqb_eq in C.
  change (Zpos (digits2_pos m)) with (Zdigits2 (Zpos m)) in C.
  unfold binary_round_aux, shr_fexp.
  rewrite Zdigits2_mul_pow2 by lia.
  replace (Zdigits2 (Zpos m) + k + (e - k)) with (Zdigits2 (Zpos m) + e) by lia.
  rewrite C. replace (e - (e - k)) with k by lia.
  cbn [shr_record_of_loc].
  assert (S : shr (Build_shr_record (Zpos m * 2 ^ k) false false) (e - k) k
              = (Build_shr_record (Zpos m) false false, e)).
  { destruct k as [|p|p]; try lia; cbn [shr].
    - f_equal; [f_equal|]; lia.
    - rewrite iter_pos_shr_1_exact by lia. f_equal. lia. }
  rewrite S. cbn [shr_m loc_of_shr_record round_nearest_even shr_record_of_loc].
  rewrite C, Z.sub_diag. cbn [shr shr_m]. now rewrite Le.
Qed.

End Exact.

(** [1 * s] is [s], for every float. *)
Lemma mul_one_l (s : float) : PrimFloat.mul PyFloat.one s = s.
Proof.
  apply Prim2SF_inj. rewrite mul_spec. pose proof (Prim2SF_valid s) as V.
  change (Prim2SF PyFloat.one) with (S754_finite false 4503599627370496 (-52)).
  destruct (Prim2SF s) as [t|t| |t m e]; try reflexivity.
  unfold SF64mul, SFmul. cbn [xorb].
  rewrite Pos2Z.inj_mul, Z.mul_comm.
  change (Zpos 4503599627370496) with (2 ^ 52)%Z.
  replace (-52 + e)%Z with (e - 52)%Z by lia.
  apply binary_round_aux_representable; [exact V|lia].
Qed.

(** An integer from 1 to below [2^1023] becomes a finite float that is
    no zero. *)
Lemma of_Z_finite (n : Z) :
  (1 <= n < 2 ^ 1023)%Z ->
  exists m e, Prim2SF (PyFloat.of_Z n) = S754_finite false m e.
Proof.
  intros H. unfold PyFloat.of_Z. destruct n as [|p|p]; try lia.
  cbn [binary_normalize].
  destruct (@binary_round_exact false p 0) as [[_ I]|(m & e & F & B)]; [lia| |].
  - exfalso. rewrite fexp_spec in I.
    assert (Zdigits2 (Zpos p) <= 1023)%Z by (apply Zdigits2_small; lia).
    cbn [Zdigits2] in *. lia.
  - exists m, e. rewrite F. apply Prim2SF_SF2Prim. exact B.
Qed.

Lemma of_int_small (n : Z) :
  (1 <= n < 2 ^ 1023)%Z ->
  PyFloat.of_int n = OK (PyFloat.of_Z n)
  /\ PrimFloat.eqb (PyFloat.of_Z n) PyFloat.zero = false.
Proof.
  intros H. destruct (of_Z_finite H) as (m & e & F).
  unfold PyFloat.of_int. now rewrite is_infinity_spec, eqb_zero_spec, F.
Qed.

(** ** interpolate *)

Lemma mapM_map (A B : Type) (f : A -> result B) (g : A -> B) (l : list A) :
  (forall a, In a l -> f a = OK (g a)) -> mapM f l = OK (map g l).
Proof.
  induction l as [|a l IH]; intros H; cbn [mapM map]; [reflexivity|].
  rewrite H by (left; reflexivity). cbn [bind].
  rewrite IH by (intros; apply H; right; assumption). reflexivity.
Qed.

Lemma get_map_values (V W : Type) (h : string * V -> W) (p : Dict.t V)
  (kj : string * V) :
  NoDup (map fst p) -> In kj p ->
  Dict.get (fst kj) (map (fun x => (fst x, h x)) p) = Some (h kj).
Proof.
  induction p as [|[k v] p IH]; intros N I; [contradiction|].
  cbn [map fst Dict.get]. inversion N as [|? ? Hk Np]. subst.
  destruct I as [<-|I].
  - cbn [fst]. now rewrite String.eqb_refl.
  - destruct (String.eqb k (fst kj)) eqn:E.
    + apply String.eqb_eq in E. subst k. exfalso. apply Hk.
      apply in_map. exact I.
    + apply IH; assumption.
Qed.

Lemma In_range1 (n i : Z) : In i (range1 n) -> (1 <= i <= n)%Z.
Proof.
  unfold range1. rewrite in_map_iff. intros (k & <- & I).
  apply in_seq in I. lia.
Qed.

Lemma nth_error_range1 (n i : Z) :
  (1 <= i <= n)%Z -> nth_error (range1 n) (Z.to_nat (i - 1)) = Some i.
Proof.
  intros H. unfold range1.
  rewrite nth_error_map.
  rewrite (nth_error_nth' _ 0%nat) by (rewrite length_seq; lia).
  rewrite seq_nth by lia. cbn [option_map]. f_equal. lia.
Qed.

(** From 5 to 0.1 in four points, the last point is 0.09999999999999964
    and not 0.1: the difference and the sum are both rounded. *)
Lemma last_point_misses_end :
  interpolate 4 [("x", (5%float, z01))]
  = OK [[("x", 0x1.e333333333333p+1)]; [("x", 0x1.4666666666666p+1)];
        [("x", 0x1.5333333333332p+0)]; [("x", 0x1.999999999998p-4)]]%float
  /\ PrimFloat.eqb 0x1.999999999998p-4 z01 = false.
Proof. split; reflexivity. Qed.

(** C7, as the code has it.  For [n] from 1 to below [2^1023] and
    ranges under distinct names, [interpolate] yields exactly [n]
    points; point [i], counted from 1, has on each axis the float
    [start + i * ((end - start) / n)], each operation rounded; point 1
    is [start + (end - start) / n], so the start itself is not among
    the points. *)
Theorem interpolate_points :
  forall (n : Z) (p : Dict.t (float * float)),
    (1 <= n < 2 ^ 1023)%Z ->
    NoDup (map fst p) ->
    exists pts,
      interpolate n p = OK pts
      /\ List.length pts = Z.to_nat n
      /\ (forall i, (1 <= i <= n)%Z ->
                    nth_error pts (Z.to_nat (i - 1)) = Some (point n p i))
      /\ nth_error pts 0
         = Some (map (fun kj : string * (float * float) =>
                        (fst kj, PrimFloat.add (fst (snd kj)) (step n (snd kj)))) p).
Proof.
  intros n p Hn Np. exists (map (point n p) (range1 n)).
  destruct (of_int_small Hn) as [On Zn].
  assert (I : interpolate n p = OK (map (point n p) (range1 n))).
  { unfold interpolate.
    rewrite mapM_map with (g := fun kj => (fst kj, step n (snd kj))).
    - cbn [bind]. apply mapM_map. intros i Hi. apply In_range1 in Hi.
      destruct (@of_int_small i) as [Oi _]; [lia|].
      unfold point_of. apply mapM_map. intros kj Hkj.
      rewrite (@get_map_values _ _ (fun kj => step n (snd kj)) p kj Np Hkj).
      rewrite Oi. reflexivity.
    - intros kj _. unfold step_of, PyFloat.div. rewrite On. cbn [bind].
      now rewrite Zn. }
  assert (Nth : forall i, (1 <= i <= n)%Z ->
                  nth_error (map (point n p) (range1 n)) (Z.to_nat (i - 1))
                  = Some (point n p i)).
  { intros i Hi. now rewrite nth_error_map, nth_error_range1. }
  split; [exact I|]. split.
  - unfold range1. rewrite !length_map, length_seq. reflexivity.
  - split; [exact Nth|].
    change 0%nat with (Z.to_nat (1 - 1)). rewrite Nth by lia. f_equal.
    unfold point. apply map_ext. intros kj.
    change (PyFloat.of_Z 1) with PyFloat.one. now rewrite mul_one_l.
Qed.

Lemma interpolate_points_witness :
  exists pts,
    interpolate 2 [("x", (1, 3)); ("y", (4, 8))]%float = OK pts
    /\ List.length pts = Z.to_nat 2
    /\ (forall i, (1 <= i <= 2)%Z ->
                  nth_error pts (Z.to_nat (i - 1))
                  = Some (point 2 [("x", (1, 3)); ("y", (4, 8))]%float i))
    /\ nth_error pts 0
       = Some (map (fun kj : string * (float * float) =>
                      (fst kj, PrimFloat.add (fst (snd kj)) (step 2 (snd kj))))
                 [("x", (1, 3)); ("y", (4, 8))]%float).
Proof.
  apply interpolate_points; [lia|].
  repeat constructor; cbn; intuition discriminate.
Defined.

(** * The scanner *)

(** ** What the scanner raises, and that it comes to an end *)

Lemma raises_only_OK (A : Type) (P : exn -> Prop) (a : A) : raises_only P (OK a).
Proof. intros e H. discriminate. Qed.

Lemma raises_only_bind (A B : Type) (P : exn -> Prop) (r : result A)
  (k : A -> result B) :
  raises_only P r -> (forall a, r = OK a -> raises_only P (k a)) ->
  raises_only P (bind r k).
Proof.
  intros Hr Hk. destruct r as [a|e]; cbn [bind]; [apply (Hk a eq_refl)|].
  intros e' H. apply Hr. congruence.
Qed.

Lemma of_string_raises_ValueError (s : string) :
  raises_only (eq ValueError) (PyFloat.of_string s).
Proof.
  unfold PyFloat.of_string. intros e.
  destruct (PyFloat.drop_underscores None s); [|congruence].
  destruct (PyFloat.sign _). destruct (PyFloat.parse_decimal _) as [[m x]|];
    [discriminate|].
  repeat match goal with
    | |- (if ?b then _ else _) = _ -> _ => destruct b
    end; congruence.
Qed.

(** [float(g.args[k])] after [k in g.args]: the key is there, and the
    only error is that of [float]. *)
Lemma float_arg_raises_ValueError (k : string) (g : GCode.t) :
  Dict.mem k (GCode.args g) = true ->
  raises_only (eq ValueError) (GCode.float_arg k g).
Proof.
  unfold Dict.mem, GCode.float_arg, GCode.to_float.
  destruct (Dict.get k (GCode.args g)) as [[s|f]|]; [| |discriminate]; intros _.
  - apply of_string_raises_ValueError.
  - apply raises_only_OK.
Qed.

Lemma when_arg_raises_ValueError (k : string) (g : GCode.t)
  (see : GCodeScanner.t -> float -> GCodeScanner.t) (self : GCodeScanner.t) :
  raises_only (eq ValueError) (GCodeScanner.when_arg k g see self).
Proof.
  unfold GCodeScanner.when_arg.
  destruct (Dict.mem k (GCode.args g)) eqn:M; [|apply raises_only_OK].
  apply raises_only_bind; [now apply float_arg_raises_ValueError|].
  intros; apply raises_only_OK.
Qed.

Lemma scanner_call_raises_ValueError (s : GCodeScanner.state) (self : GCodeScanner.t)
  (g : GCode.t) :
  raises_only (eq ValueError) (GCodeScanner.call s self g).
Proof.
  destruct s; cbn [GCodeScanner.call];
    repeat match goal with
      | |- raises_only _ (if ?b then _ else _) => destruct b
      | |- raises_only _ (OK _) => apply raises_only_OK
      | |- raises_only _ (bind _ _) =>
          apply raises_only_bind; [apply when_arg_raises_ValueError|intros ? _]
      end.
Qed.

Lemma scanner_replay_raises_ValueError (fuel : nat) (g : GCode.t) :
  forall (s : GCodeScanner.state) (self : GCodeScanner.t) (e : exn),
    replay GCodeScanner.call fuel s self g = Raised e -> e = ValueError.
Proof.
  induction fuel as [|fuel IH]; intros s self e; cbn [replay]; [discriminate|].
  pose proof (@scanner_call_raises_ValueError s self g) as R.
  destruct (GCodeScanner.call s self g) as [[d [n|]]|e'].
  - apply IH.
  - discriminate.
  - intros H. inversion H. subst. symmetry. now apply R.
Qed.

Lemma scanner_handle_lines_ends (fuel : nat) (lines : list string) :
  forall sd : GCodeScanner.state * GCodeScanner.t,
    (exists sd', GCodeScanner.handle_lines (4 + fuel) sd lines = Returned sd')
    \/ GCodeScanner.handle_lines (4 + fuel) sd lines = Raised ValueError.
Proof.
  unfold GCodeScanner.handle_lines.
  induction lines as [|line rest IH]; intros sd; cbn [handle_lines].
  - left. eauto.
  - unfold handle_line.
    pose proof (@scanner_replay_terminates fuel (fst sd) (snd sd)
                  (GCode.parse line)) as T.
    pose proof (@scanner_replay_raises_ValueError (4 + fuel) (GCode.parse line)
                  (fst sd) (snd sd)) as R.
    destruct (replay GCodeScanner.call (4 + fuel) (fst sd) (snd sd) (GCode.parse line))
      as [sd1|e|].
    + apply IH.
    + right. now rewrite (R e eq_refl).
    + congruence.
Qed.

(** X1.  The scanner comes to an end on every file: with four calls
    allowed per line it returns, or it stops on the [ValueError] of a
    [float()] that could not read an X, Y or Z argument.  It raises
    nothing else and it never keeps replaying a line. *)
Theorem scanner_returns_or_ValueError :
  forall (fuel : nat) (sd : GCodeScanner.state * GCodeScanner.t)
         (lines : list string),
    (exists sd', GCodeScanner.handle_lines (4 + fuel) sd lines = Returned sd')
    \/ GCodeScanner.handle_lines (4 + fuel) sd lines = Raised ValueError.
Proof. intros fuel sd lines. apply scanner_handle_lines_ends. Qed.

(** ** The states that skip *)

Lemma scanner_Intro_stays (fuel : nat) (self : GCodeScanner.t) (line : string) :
  no_skirt_marker line ->
  handle_line GCodeScanner.call (1 + fuel) (GCodeScanner.Intro, self) line
  = Returned (GCodeScanner.Intro, self).
Proof.
  unfold no_skirt_marker, handle_line. intros H. cbn [fst snd replay Nat.add].
  cbn [GCodeScanner.call].
  destruct (String.eqb_spec (GCode.comment (GCode.parse line)) ";TYPE:SKIRT");
    [contradiction|reflexivity].
Qed.

(** X2.  Without a line whose comment is exactly ";TYPE:SKIRT" the
    scanner stays in [Intro] and learns nothing: the model it hands to
    the translator is the one [__init__] made, with [max_z] still 0. *)
Theorem scanner_needs_skirt_marker :
  forall (fuel : nat) (td : float) (lines : list string),
    Forall no_skirt_marker lines ->
    GCodeScanner.handle_lines (1 + fuel) (GCodeScanner.init td) lines
    = Returned (GCodeScanner.init td).
Proof.
  intros fuel td lines H. unfold GCodeScanner.handle_lines, GCodeScanner.init.
  induction H as [|line rest Hl _ IH]; cbn [handle_lines]; [reflexivity|].
  now rewrite (scanner_Intro_stays fuel _ Hl).
Qed.

Lemma scanner_needs_skirt_marker_witness :
  GCodeScanner.handle_lines (1 + 0) (GCodeScanner.init 0)
    [";LAYER:0"; "G0 Z0.2"; "G1 X10 Y0 E1"; ";TYPE:WALL-OUTER"]
  = Returned (GCodeScanner.init 0).
Proof.
  apply scanner_needs_skirt_marker.
  repeat constructor; unfold no_skirt_marker; vm_compute; discriminate.
Defined.

Section Runs.

Variables state data : Type.
Variable call : state -> data -> GCode.t -> result (data * option state).

(** Lines fed one after the other: the second list starts where the
    first one ended. *)
Lemma handle_lines_app (fuel : nat) (l1 l2 : list string) (sd : state * data) :
  handle_lines call fuel sd (l1 ++ l2)
  = match handle_lines call fuel sd l1 with
    | Returned sd' => handle_lines call fuel sd' l2
    | Raised e => Raised e
    | OutOfFuel => OutOfFuel
    end.
Proof.
  revert sd. induction l1 as [|line l1 IH]; intros sd; cbn [app handle_lines];
    [reflexivity|].
  destruct (handle_line call fuel sd line); auto.
Qed.

End Runs.

(** X3.  In [RegionScan] the command M107 ends the scan: whatever
    follows it in the file, the model stays as it was when M107 was
    read. *)
Theorem scanner_stops_at_M107 :
  forall (fuel : nat) (m : GCodeScanner.t) (line : string) (rest : list string),
    GCode.command (GCode.parse line) = "M107" ->
    GCodeScanner.handle_lines (2 + fuel) (GCodeScanner.RegionScan, m) (line :: rest)
    = Returned (GCodeScanner.EndStage, m).
Proof.
  intros fuel m line rest H. unfold GCodeScanner.handle_lines.
  cbn [handle_lines]. unfold handle_line at 1.
  cbn [fst snd replay Nat.add GCodeScanner.call]. rewrite H. cbn [String.eqb].
  replace (String.eqb "M107" "M107") with true by reflexivity.
  cbn [replay GCodeScanner.call].
  induction rest as [|l rest IH]; cbn [handle_lines]; [reflexivity|exact IH].
Qed.

Lemma scanner_stops_at_M107_witness :
  GCodeScanner.handle_lines (2 + 0) (GCodeScanner.RegionScan, scanned_region)
    ["M107 ; fan off"; "G1 X500 Y500 Z500"]
  = Returned (GCodeScanner.EndStage, scanned_region).
Proof. apply scanner_stops_at_M107. reflexivity. Defined.

Lemma scanner_relative_stays (fuel : nat) (m : GCodeScanner.t) (rest : list string) :
  Forall (not_command "G90") rest ->
  handle_lines GCodeScanner.call (1 + fuel) (GCodeScanner.SkipRelativePosition, m) rest
  = Returned (GCodeScanner.SkipRelativePosition, m).
Proof.
  induction 1 as [|l rest Hl _ IH]; cbn [handle_lines]; [reflexivity|].
  unfold handle_line at 1. cbn [fst snd replay Nat.add GCodeScanner.call].
  destruct (String.eqb_spec (GCode.command (GCode.parse l)) "G90");
    [contradiction|exact IH].
Qed.

(** X4.  Moves made in relative positioning are invisible to the
    scanner: from a G91 command up to the next G90, that command
    included, no line changes the model, and the scan goes on after
    the G90 as if the lines had not been there. *)
Theorem scanner_skips_relative_moves :
  forall (fuel : nat) (m : GCodeScanner.t) (rel : string) (skipped : list string)
         (back : string) (more : list string),
    GCode.command (GCode.parse rel) = "G91" ->
    Forall (not_command "G90") skipped ->
    GCode.command (GCode.parse back) = "G90" ->
    GCodeScanner.handle_lines (2 + fuel) (GCodeScanner.RegionScan, m)
      (rel :: skipped ++ back :: more)
    = GCodeScanner.handle_lines (2 + fuel) (GCodeScanner.RegionScan, m) more.
Proof.
  intros fuel m rel skipped back more Hr Hs Hb. unfold GCodeScanner.handle_lines.
  cbn [handle_lines]. unfold handle_line at 1.
  cbn [fst snd replay Nat.add GCodeScanner.call]. rewrite Hr.
  replace (String.eqb "G91" "M107") with false by reflexivity.
  replace (String.eqb "G91" "G91") with true by reflexivity.
  cbn [replay GCodeScanner.call]. rewrite Hr.
  replace (String.eqb "G91" "G90") with false by reflexivity.
  rewrite handle_lines_app.
  change (S (S fuel)) with (1 + (1 + fuel))%nat.
  rewrite (scanner_relative_stays (1 + fuel) m Hs).
  cbn [handle_lines]. unfold handle_line at 1.
  cbn [fst snd replay Nat.add GCodeScanner.call]. rewrite Hb.
  replace (String.eqb "G90" "G90") with true by reflexivity.
  cbn [replay GCodeScanner.call]. rewrite Hb.
  replace (String.eqb "G90" "M107") with false by reflexivity.
  replace (String.eqb "G90" "G91") with false by reflexivity.
  unfold GCodeScanner.is_motion. rewrite Hb.
  replace (String.eqb "G90" "G0" || String.eqb "G90" "G1") with false by reflexivity.
  reflexivity.
Qed.

Lemma scanner_skips_relative_moves_witness :
  GCodeScanner.handle_lines (2 + 0) (GCodeScanner.RegionScan, scanned_region)
    ("G91" :: ["G1 X500 Y500 Z500"; "G1 E-2"] ++ "G90" :: ["G1 X21"])
  = GCodeScanner.handle_lines (2 + 0) (GCodeScanner.RegionScan, scanned_region)
      ["G1 X21"].
Proof.
  apply scanner_skips_relative_moves; [reflexivity| |reflexivity].
  repeat constructor; unfold not_command; vm_compute; discriminate.
Defined.

(** ** The order of floats *)

Section Order.

Local Open Scope Z_scope.

Ltac compare_cases :=
  repeat match goal with
    | s : bool |- _ => destruct s
    end;
  cbn; try discriminate; try reflexivity;
  change (Pos.compare_cont Eq) with Pos.compare in *;
  repeat match goal with
    | |- context [Z.compare ?a ?b] => destruct (Z.compare_spec a b)
    | |- context [Pos.compare ?a ?b] => destruct (Pos.compare_spec a b)
    end;
  cbn; try discriminate; try reflexivity; try (exfalso; lia).

Lemma SFleb_refl (x : spec_float) : x <> S754_nan -> SFleb x x = true.
Proof.
  unfold SFleb, SFcompare. destruct x as [s|s| |s m e]; try congruence; intros _;
    compare_cases.
Qed.

Lemma SFltb_SFleb (x y : spec_float) : SFltb x y = true -> SFleb x y = true.
Proof. unfold SFltb, SFleb. destruct (SFcompare x y) as [[| |]|]; congruence. Qed.

Lemma SFleb_total (x y : spec_float) :
  x <> S754_nan -> y <> S754_nan -> SFltb x y = false -> SFleb y x = true.
Proof.
  unfold SFltb, SFleb, SFcompare.
  destruct x as [sx|sx| |sx mx ex], y as [sy|sy| |sy my ey]; try congruence;
    intros _ _; compare_cases.
Qed.

Lemma SFleb_trans (x y z : spec_float) :
  SFleb x y = true -> SFleb y z = true -> SFleb x z = true.
Proof.
  unfold SFleb, SFcompare.
  destruct x as [sx|sx| |sx mx ex], y as [sy|sy| |sy my ey], z as [sz|sz| |sz mz ez];
    compare_cases.
Qed.

End Order.

(** ** The box only grows *)

Lemma not_nan_spec (x : float) : PrimFloat.is_nan x = false <-> Prim2SF x <> S754_nan.
Proof. rewrite is_nan_spec. destruct (Prim2SF x); split; congruence. Qed.

Lemma leb_refl (x : float) : PrimFloat.is_nan x = false -> PrimFloat.leb x x = true.
Proof. rewrite not_nan_spec, leb_spec. apply SFleb_refl. Qed.

Lemma leb_trans (x y z : float) :
  PrimFloat.leb x y = true -> PrimFloat.leb y z = true -> PrimFloat.leb x z = true.
Proof. rewrite !leb_spec. apply SFleb_trans. Qed.

Lemma ltb_not_nan (x y : float) :
  PrimFloat.ltb x y = true -> PrimFloat.is_nan x = false /\ PrimFloat.is_nan y = false.
Proof.
  rewrite ltb_spec, !is_nan_spec. unfold SFltb, SFcompare.
  destruct (Prim2SF x), (Prim2SF y); auto; discriminate.
Qed.

(** [max(a, b)] and [min(a, b)] when [a] is a number: a number, on
    the right side of [a], and of [b] when [b] is a number too. *)
Lemma max_spec (a b : float) :
  PrimFloat.is_nan a = false ->
  PrimFloat.is_nan (GCodeScanner.max a b) = false
  /\ PrimFloat.leb a (GCodeScanner.max a b) = true
  /\ (PrimFloat.is_nan b = false -> PrimFloat.leb b (GCodeScanner.max a b) = true).
Proof.
  intros Na. unfold GCodeScanner.max. destruct (PrimFloat.ltb a b) eqn:E.
  - destruct (ltb_not_nan E) as [_ Nb]. repeat split; auto using leb_refl.
    rewrite leb_spec. apply SFltb_SFleb. now rewrite <- ltb_spec.
  - repeat split; auto using leb_refl. intros Nb.
    rewrite leb_spec. apply SFleb_total; try (now apply not_nan_spec).
    now rewrite <- ltb_spec.
Qed.

Lemma min_spec (a b : float) :
  PrimFloat.is_nan a = false ->
  PrimFloat.is_nan (GCodeScanner.min a b) = false
  /\ PrimFloat.leb (GCodeScanner.min a b) a = true
  /\ (PrimFloat.is_nan b = false -> PrimFloat.leb (GCodeScanner.min a b) b = true).
Proof.
  intros Na. unfold GCodeScanner.min. destruct (PrimFloat.ltb b a) eqn:E.
  - destruct (ltb_not_nan E) as [Nb _]. repeat split; auto using leb_refl.
    rewrite leb_spec. apply SFltb_SFleb. now rewrite <- ltb_spec.
  - repeat split; auto using leb_refl. intros Nb.
    rewrite leb_spec. apply SFleb_total; try (now apply not_nan_spec).
    now rewrite <- ltb_spec.
Qed.

Lemma box_within_refl (m : GCodeScanner.t) : box_numeric m -> box_within m m.
Proof. intros (A & B & C & D & E). repeat split; now apply leb_refl. Qed.

Lemma box_within_trans (m1 m2 m3 : GCodeScanner.t) :
  box_within m1 m2 -> box_within m2 m3 -> box_within m1 m3.
Proof.
  intros (A & B & C & D & E) (A' & B' & C' & D' & E').
  repeat split; eauto using leb_trans.
Qed.

(** What one argument read in [RegionScan] does to the box. *)
Lemma see_x_spec (m : GCodeScanner.t) (x : float) :
  box_numeric m ->
  box_numeric (GCodeScanner.see_x m x) /\ box_within m (GCodeScanner.see_x m x)
  /\ (PrimFloat.is_nan x = false ->
      between (GCodeScanner.min_x (GCodeScanner.see_x m x))
        (GCodeScanner.max_x (GCodeScanner.see_x m x)) x).
Proof.
  intros (A & B & C & D & E).
  destruct (@max_spec _ x A) as (M1 & M2 & M3), (@min_spec _ x B) as (N1 & N2 & N3).
  unfold box_numeric, box_within, between. cbn. repeat split; auto using leb_refl.
Qed.

Lemma see_y_spec (m : GCodeScanner.t) (y : float) :
  box_numeric m ->
  box_numeric (GCodeScanner.see_y m y) /\ box_within m (GCodeScanner.see_y m y)
  /\ (PrimFloat.is_nan y = false ->
      between (GCodeScanner.min_y (GCodeScanner.see_y m y))
        (GCodeScanner.max_y (GCodeScanner.see_y m y)) y).
Proof.
  intros (A & B & C & D & E).
  destruct (@max_spec _ y C) as (M1 & M2 & M3), (@min_spec _ y D) as (N1 & N2 & N3).
  unfold box_numeric, box_within, between. cbn. repeat split; auto using leb_refl.
Qed.

Lemma see_z_spec (m : GCodeScanner.t) (z : float) :
  box_numeric m ->
  box_numeric (GCodeScanner.see_z m z) /\ box_within m (GCodeScanner.see_z m z)
  /\ (PrimFloat.is_nan z = false ->
      PrimFloat.leb z (GCodeScanner.max_z (GCodeScanner.see_z m z)) = true).
Proof.
  intros (A & B & C & D & E).
  destruct (@max_spec _ z E) as (M1 & M2 & M3).
  unfold box_numeric, box_within. cbn. repeat split; auto using leb_refl.
Qed.

Lemma when_arg_box (k : string) (g : GCode.t)
  (see : GCodeScanner.t -> float -> GCodeScanner.t) (m m' : GCodeScanner.t) :
  (forall m v, box_numeric m -> box_numeric (see m v) /\ box_within m (see m v)) ->
  (forall m v, GCodeScanner.min_z (see m v) = GCodeScanner.min_z m
               /\ GCodeScanner.target_depression (see m v)
                  = GCodeScanner.target_depression m) ->
  box_numeric m ->
  GCodeScanner.when_arg k g see m = OK m' ->
  box_numeric m' /\ box_within m m'
  /\ GCodeScanner.min_z m' = GCodeScanner.min_z m
  /\ GCodeScanner.target_depression m' = GCodeScanner.target_depression m.
Proof.
  intros Hsee Hf N. unfold GCodeScanner.when_arg.
  destruct (Dict.mem k (GCode.args g)).
  - destruct (GCode.float_arg k g) as [v|]; cbn [bind]; [|discriminate].
    intros H. inversion H. subst. destruct (Hsee m v N), (Hf m v). auto.
  - intros H. inversion H. subst. auto using box_within_refl.
Qed.

(** One call of a state of the scanner: the box only grows, and
    [min_z] and [target_depression] are not written. *)
Lemma scanner_call_box (s : GCodeScanner.state) (m m' : GCodeScanner.t) (g : GCode.t)
  (next : option GCodeScanner.state) :
  box_numeric m ->
  GCodeScanner.call s m g = OK (m', next) ->
  box_numeric m' /\ box_within m m'
  /\ GCodeScanner.min_z m' = GCodeScanner.min_z m
  /\ GCodeScanner.target_depression m' = GCodeScanner.target_depression m.
Proof.
  intros N.
  assert (Same : forall n, OK (m, n) = OK (m', next) ->
                 box_numeric m' /\ box_within m m'
                 /\ GCodeScanner.min_z m' = GCodeScanner.min_z m
                 /\ GCodeScanner.target_depression m' = GCodeScanner.target_depression m).
  { intros n H. inversion H. subst. auto using box_within_refl. }
  destruct s; cbn [GCodeScanner.call];
    repeat match goal with
      | |- (if ?b then _ else _) = _ -> _ => destruct b
      end; try apply Same.
  destruct (GCodeScanner.when_arg "X" g GCodeScanner.see_x m) as [m1|] eqn:E1;
    cbn [bind]; [|discriminate].
  destruct (GCodeScanner.when_arg "Y" g GCodeScanner.see_y m1) as [m2|] eqn:E2;
    cbn [bind]; [|discriminate].
  destruct (GCodeScanner.when_arg "Z" g GCodeScanner.see_z m2) as [m3|] eqn:E3;
    cbn [bind]; [|discriminate].
  intros H. inversion H. subst. clear H.
  apply when_arg_box in E1 as (N1 & W1 & Z1 & T1);
    [|intros m0 v Hn; destruct (@see_x_spec m0 v Hn) as (? & ? & _); auto
     |intros; split; reflexivity|assumption].
  apply when_arg_box in E2 as (N2 & W2 & Z2 & T2);
    [|intros m0 v Hn; destruct (@see_y_spec m0 v Hn) as (? & ? & _); auto
     |intros; split; reflexivity|assumption].
  apply when_arg_box in E3 as (N3 & W3 & Z3 & T3);
    [|intros m0 v Hn; destruct (@see_z_spec m0 v Hn) as (? & ? & _); auto
     |intros; split; reflexivity|assumption].
  repeat split; try congruence; try apply N3.
  all: eapply box_within_trans; [eapply box_within_trans|]; eassumption.
Qed.

Lemma scanner_replay_box (fuel : nat) (g : GCode.t) :
  forall (s s' : GCodeScanner.state) (m m' : GCodeScanner.t),
    box_numeric m ->
    replay GCodeScanner.call fuel s m g = Returned (s', m') ->
    box_numeric m' /\ box_within m m'
    /\ GCodeScanner.min_z m' = GCodeScanner.min_z m
    /\ GCodeScanner.target_depression m' = GCodeScanner.target_depression m.
Proof.
  induction fuel as [|fuel IH]; intros s s' m m' N; cbn [replay]; [discriminate|].
  destruct (GCodeScanner.call s m g) as [[d [n|]]|e] eqn:E; [| |discriminate].
  - apply scanner_call_box in E as (N1 & W1 & Z1 & T1); [|exact N].
    intros H. apply IH in H as (N2 & W2 & Z2 & T2); [|exact N1].
    repeat split; try congruence; try apply N2.
    all: eapply box_within_trans; eassumption.
  - intros H. inversion H. subst. eapply scanner_call_box; eassumption.
Qed.

Lemma scanner_handle_lines_box (fuel : nat) (lines : list string) :
  forall (sd sd' : GCodeScanner.state * GCodeScanner.t),
    box_numeric (snd sd) ->
    GCodeScanner.handle_lines fuel sd lines = Returned sd' ->
    box_numeric (snd sd') /\ box_within (snd sd) (snd sd')
    /\ GCodeScanner.min_z (snd sd') = GCodeScanner.min_z (snd sd)
    /\ GCodeScanner.target_depression (snd sd')
       = GCodeScanner.target_depression (snd sd).
Proof.
  unfold GCodeScanner.handle_lines.
  induction lines as [|line rest IH]; intros sd sd' N; cbn [handle_lines].
  - intros H. inversion H. subst. auto using box_within_refl.
  - unfold handle_line.
    destruct (replay GCodeScanner.call fuel (fst sd) (snd sd) (GCode.parse line))
      as [[s1 m1]| |] eqn:E; try discriminate.
    apply scanner_replay_box in E as (N1 & W1 & Z1 & T1); [|exact N].
    intros H. apply IH in H as (N2 & W2 & Z2 & T2); [|exact N1]. cbn [snd] in *.
    repeat split; try congruence; try apply N2.
    all: eapply box_within_trans; eassumption.
Qed.

Lemma init_box_numeric (td : float) : box_numeric (snd (GCodeScanner.init td)).
Proof. repeat split. Qed.

(** X5.  The box of the scanner only grows: over any run that starts
    from a box of numbers, the minima do not go up and the maxima do
    not go down, the box is still made of numbers (a NaN argument is
    never taken in), and [min_z] and [target_depression] are never
    written. *)
Theorem scanner_box_only_grows :
  forall (fuel : nat) (lines : list string)
         (sd sd' : GCodeScanner.state * GCodeScanner.t),
    box_numeric (snd sd) ->
    GCodeScanner.handle_lines fuel sd lines = Returned sd' ->
    box_numeric (snd sd') /\ box_within (snd sd) (snd sd')
    /\ GCodeScanner.min_z (snd sd') = GCodeScanner.min_z (snd sd)
    /\ GCodeScanner.target_depression (snd sd')
       = GCodeScanner.target_depression (snd sd).
Proof. intros fuel lines sd sd'. apply scanner_handle_lines_box. Qed.

Lemma scanner_box_only_grows_witness :
  box_numeric (snd (GCodeScanner.RegionScan, scanned_region))
  /\ box_within scanned_region
       (GCodeScanner.make 100 (-5) 20 0 10 0 0).
Proof.
  split; [repeat split|].
  apply (@scanner_box_only_grows 2 ["G1 X100"; "G0 X-5 Ynan"]
           (GCodeScanner.RegionScan, scanned_region)
           (GCodeScanner.RegionScan, GCodeScanner.make 100 (-5) 20 0 10 0 0));
    [repeat split|vm_compute; reflexivity].
Defined.

(** X6.  From a fresh scanner the maxima never go below 0 and [min_z]
    is 0 for ever: a print that lies in negative coordinates, or below
    Z = 0, is given a box that reaches up to 0. *)
Theorem scanner_maxima_start_at_zero :
  forall (fuel : nat) (td : float) (lines : list string)
         (s : GCodeScanner.state) (m : GCodeScanner.t),
    GCodeScanner.handle_lines fuel (GCodeScanner.init td) lines = Returned (s, m) ->
    PrimFloat.leb 0 (GCodeScanner.max_x m) = true
    /\ PrimFloat.leb 0 (GCodeScanner.max_y m) = true
    /\ PrimFloat.leb 0 (GCodeScanner.max_z m) = true
    /\ GCodeScanner.min_z m = 0%float
    /\ GCodeScanner.target_depression m = td.
Proof.
  intros fuel td lines s m H.
  apply scanner_handle_lines_box in H as (_ & (_ & A & _ & B & C) & Z & T);
    [|apply init_box_numeric].
  cbn [snd] in *. auto.
Qed.

Lemma scanner_maxima_start_at_zero_witness :
  PrimFloat.leb 0 (GCodeScanner.max_x (GCodeScanner.make 0 (-7) 0 (-3) 0 0 z01)) = true
  /\ PrimFloat.leb 0 (GCodeScanner.max_y (GCodeScanner.make 0 (-7) 0 (-3) 0 0 z01)) = true
  /\ PrimFloat.leb 0 (GCodeScanner.max_z (GCodeScanner.make 0 (-7) 0 (-3) 0 0 z01)) = true
  /\ GCodeScanner.min_z (GCodeScanner.make 0 (-7) 0 (-3) 0 0 z01) = 0%float
  /\ GCodeScanner.target_depression (GCodeScanner.make 0 (-7) 0 (-3) 0 0 z01) = z01.
Proof.
  apply (@scanner_maxima_start_at_zero 3 z01
           [";TYPE:SKIRT"; "G1 X-7 Y-3 Z-1"] GCodeScanner.RegionScan).
  vm_compute. reflexivity.
Defined.

(** ** Every move scanned is in the box *)

Lemma when_arg_present (k : string) (g : GCode.t)
  (see : GCodeScanner.t -> float -> GCodeScanner.t) (m : GCodeScanner.t) (v : float) :
  GCode.float_arg k g = OK v ->
  GCodeScanner.when_arg k g see m = OK (see m v).
Proof.
  unfold GCodeScanner.when_arg, Dict.mem, GCode.float_arg.
  destruct (Dict.get k (GCode.args g)); [|discriminate].
  intros ->. reflexivity.
Qed.

Lemma is_motion_command (g : GCode.t) :
  GCodeScanner.is_motion g = true ->
  String.eqb (GCode.command g) "M107" = false
  /\ String.eqb (GCode.command g) "G91" = false.
Proof.
  unfold GCodeScanner.is_motion. intros H.
  apply orb_prop in H as [H|H]; apply String.eqb_eq in H; rewrite H; auto.
Qed.

(** A motion command read in [RegionScan]: the machine stays there,
    and each of X, Y and Z that is a number is in the box. *)
Lemma RegionScan_takes_in (m m' : GCodeScanner.t) (g : GCode.t)
  (next : option GCodeScanner.state) :
  box_numeric m ->
  GCodeScanner.is_motion g = true ->
  GCodeScanner.call GCodeScanner.RegionScan m g = OK (m', next) ->
  next = None /\ box_numeric m'
  /\ (forall x, GCode.float_arg "X" g = OK x -> PrimFloat.is_nan x = false ->
                between (GCodeScanner.min_x m') (GCodeScanner.max_x m') x)
  /\ (forall y, GCode.float_arg "Y" g = OK y -> PrimFloat.is_nan y = false ->
                between (GCodeScanner.min_y m') (GCodeScanner.max_y m') y)
  /\ (forall z, GCode.float_arg "Z" g = OK z -> PrimFloat.is_nan z = false ->
                PrimFloat.leb z (GCodeScanner.max_z m') = true).
Proof.
  intros N Hm. cbn [GCodeScanner.call].
  destruct (is_motion_command _ Hm) as [H107 H91]. rewrite H107, H91, Hm. cbn [negb].
  destruct (GCodeScanner.when_arg "X" g GCodeScanner.see_x m) as [m1|] eqn:E1;
    cbn [bind]; [|discriminate].
  destruct (GCodeScanner.when_arg "Y" g GCodeScanner.see_y m1) as [m2|] eqn:E2;
    cbn [bind]; [|discriminate].
  destruct (GCodeScanner.when_arg "Z" g GCodeScanner.see_z m2) as [m3|] eqn:E3;
    cbn [bind]; [|discriminate].
  intros H. inversion H. subst. clear H.
  pose proof E1 as B1. pose proof E2 as B2. pose proof E3 as B3.
  apply when_arg_box in B1 as (N1 & W1 & _);
    [|intros m0 v Hn; destruct (@see_x_spec m0 v Hn) as (? & ? & _); auto
     |intros; split; reflexivity|assumption].
  apply when_arg_box in B2 as (N2 & W2 & _);
    [|intros m0 v Hn; destruct (@see_y_spec m0 v Hn) as (? & ? & _); auto
     |intros; split; reflexivity|assumption].
  apply when_arg_box in B3 as (N3 & W3 & _);
    [|intros m0 v Hn; destruct (@see_z_spec m0 v Hn) as (? & ? & _); auto
     |intros; split; reflexivity|assumption].
  split; [reflexivity|]. split; [exact N3|].
  split; [intros x H Nx|split; [intros y H Ny|intros z H Nz]].
  - erewrite when_arg_present in E1 by exact H. inversion E1. subst m1.
    destruct (@see_x_spec m x N) as (_ & _ & B). destruct (B Nx) as [B1 B2].
    destruct W2 as (A2 & A2' & _), W3 as (A3 & A3' & _).
    split; eauto using leb_trans.
  - erewrite when_arg_present in E2 by exact H. inversion E2. subst m2.
    destruct (@see_y_spec m1 y N1) as (_ & _ & B). destruct (B Ny) as [B1 B2].
    destruct W3 as (_ & _ & A3 & A3' & _).
    split; eauto using leb_trans.
  - erewrite when_arg_present in E3 by exact H. inversion E3. subst.
    destruct (@see_z_spec m2 z N2) as (_ & _ & B). auto.
Qed.

(** X7.  The box holds every move it was made from.  Take a run of a
    fresh scanner that has come to [RegionScan], a motion command read
    there, and whatever follows it: each of the X, Y and Z of the
    command that is a number lies, at the end of the run, between the
    minimum and the maximum of its axis (below the maximum, for Z). *)
Theorem scanned_move_is_in_the_box :
  forall (fuel : nat) (td : float) (before : list string) (line : string)
         (after : list string) (m1 m' : GCodeScanner.t) (s' : GCodeScanner.state),
    GCodeScanner.handle_lines fuel (GCodeScanner.init td) before
    = Returned (GCodeScanner.RegionScan, m1) ->
    GCodeScanner.is_motion (GCode.parse line) = true ->
    GCodeScanner.handle_lines fuel (GCodeScanner.RegionScan, m1) (line :: after)
    = Returned (s', m') ->
    (forall x, GCode.float_arg "X" (GCode.parse line) = OK x ->
               PrimFloat.is_nan x = false ->
               between (GCodeScanner.min_x m') (GCodeScanner.max_x m') x)
    /\ (forall y, GCode.float_arg "Y" (GCode.parse line) = OK y ->
                  PrimFloat.is_nan y = false ->
                  between (GCodeScanner.min_y m') (GCodeScanner.max_y m') y)
    /\ (forall z, GCode.float_arg "Z" (GCode.parse line) = OK z ->
                  PrimFloat.is_nan z = false ->
                  PrimFloat.leb z (GCodeScanner.max_z m') = true).
Proof.
  intros fuel td before line after m1 m' s' Hb Hm Ha.
  apply scanner_handle_lines_box in Hb as (N1 & _); [|apply init_box_numeric].
  cbn [snd] in N1.
  unfold GCodeScanner.handle_lines in Ha. cbn [handle_lines] in Ha.
  unfold handle_line in Ha. cbn [fst snd] in Ha.
  destruct fuel as [|fuel]; [discriminate|]. cbn [replay] in Ha.
  destruct (GCodeScanner.call GCodeScanner.RegionScan m1 (GCode.parse line))
    as [[m2 next]|] eqn:E; [|discriminate].
  apply RegionScan_takes_in in E as (-> & N2 & X & Y & Z); [|assumption..].
  apply (@scanner_handle_lines_box (S fuel) after (GCodeScanner.RegionScan, m2))
    in Ha as (_ & (A & B & C & D & F) & _); [|exact N2].
  cbn [snd] in *. unfold between in *.
  split; [intros v Hv Nv; destruct (X v Hv Nv); split; eauto using leb_trans|].
  split; [intros v Hv Nv; destruct (Y v Hv Nv); split; eauto using leb_trans|].
  intros v Hv Nv. eauto using leb_trans.
Qed.

Lemma scanned_move_is_in_the_box_witness :
  (forall x, GCode.float_arg "X" (GCode.parse "G1 X12.5 Y-3 Z0.4") = OK x ->
             PrimFloat.is_nan x = false ->
             between (-1) 40 x)
  /\ (forall y, GCode.float_arg "Y" (GCode.parse "G1 X12.5 Y-3 Z0.4") = OK y ->
                PrimFloat.is_nan y = false ->
                between (-3) 8 y)
  /\ (forall z, GCode.float_arg "Z" (GCode.parse "G1 X12.5 Y-3 Z0.4") = OK z ->
                PrimFloat.is_nan z = false ->
                PrimFloat.leb z z04 = true).
Proof.
  apply (@scanned_move_is_in_the_box 3 z01
           [";TYPE:SKIRT"; "G1 X40 Y8"] "G1 X12.5 Y-3 Z0.4" ["G0 X-1"]
           (GCodeScanner.make 40 40 8 8 0 0 z01)
           (GCodeScanner.make 40 (-1) 8 (-3) z04 0 z01)
           GCodeScanner.RegionScan);
    vm_compute; reflexivity.
Defined.

(** ** A box without width *)

Lemma SFsub_diag (x : spec_float) :
  match x with S754_zero _ | S754_finite _ _ _ => True | _ => False end ->
  SF64sub x x = S754_zero false.
Proof.
  destruct x as [s|s| |s m e]; try contradiction; intros _.
  - destruct s; reflexivity.
  - unfold SF64sub, SFsub. cbv zeta. rewrite Z.sub_diag. reflexivity.
Qed.

(** The middle of a range from [a] to [a] is [a], and [a] less the
    middle is a zero. *)
Lemma middle_of_nothing (a : float) :
  PrimFloat.is_finite a = true ->
  PrimFloat.eqb
    (PrimFloat.sub a
       (PrimFloat.add a (PrimFloat.div (PrimFloat.sub a a) PyFloat.two)))
    PyFloat.zero = true.
Proof.
  rewrite is_finite_spec, eqb_zero_spec, sub_spec, add_spec, div_spec, sub_spec.
  intros F.
  rewrite (@SFsub_diag (Prim2SF a)) by (destruct (Prim2SF a); auto; discriminate).
  replace (SF64div (S754_zero false) (Prim2SF PyFloat.two)) with (S754_zero false)
    by reflexivity.
  destruct (Prim2SF a) as [s|s| |s m e] eqn:E; try discriminate.
  - destruct s; reflexivity.
  - replace (SF64add (S754_finite s m e) (S754_zero false)) with (S754_finite s m e)
      by reflexivity.
    rewrite SFsub_diag; [reflexivity|exact I].
Qed.

(** X8.  A box without width stops the translator.  When the scanner
    has seen one X only, so that [min_x] is [max_x], [xmid] divides by
    zero at every point, and so does [ymid] when [min_y] is [max_y]:
    a print made of moves along one line cannot be translated. *)
Theorem mid_of_flat_box_raises :
  (forall (m : GCodeScanner.t) (x : float),
      GCodeScanner.min_x m = GCodeScanner.max_x m ->
      PrimFloat.is_finite (GCodeScanner.max_x m) = true ->
      GCodeScanner.xmid m x = Raise ZeroDivisionError)
  /\ (forall (m : GCodeScanner.t) (y : float),
         GCodeScanner.min_y m = GCodeScanner.max_y m ->
         PrimFloat.is_finite (GCodeScanner.max_y m) = true ->
         GCodeScanner.ymid m y = Raise ZeroDivisionError).
Proof.
  split; intros m v E F.
  - unfold GCodeScanner.xmid, PyFloat.div. rewrite E.
    now rewrite (middle_of_nothing _ F).
  - unfold GCodeScanner.ymid, PyFloat.div. rewrite E.
    now rewrite (middle_of_nothing _ F).
Qed.

Lemma mid_of_flat_box_raises_witness :
  GCodeScanner.xmid (GCodeScanner.make 40 40 8 8 0 0 z01) 12%float
  = Raise ZeroDivisionError.
Proof.
  apply (proj1 mid_of_flat_box_raises (GCodeScanner.make 40 40 8 8 0 0 z01) 12%float);
    reflexivity.
Defined.

(** ** The ends of the range *)

(** A finite float that is no zero, divided by itself, is 1. *)
Lemma SFdiv_diag (s : bool) (m : positive) (e : Z) :
  SF64div (S754_finite s m e) (S754_finite s m e) = Prim2SF PyFloat.one.
Proof.
  unfold SF64div, SFdiv, SFdiv_core_binary. cbv zeta.
  replace (Zdigits2 (Zpos m) + e - (Zdigits2 (Zpos m) + e))%Z with 0%Z by lia.
  rewrite Z.sub_diag.
  change (Z.min (fexp prec emax 0) 0) with (-53)%Z.
  change (0 - -53)%Z with 53%Z. cbv iota.
  rewrite Z.shiftl_mul_pow2 by lia.
  pose proof (Z.div_mul (2 ^ 53) (Zpos m)) as Q.
  pose proof (Z.mod_mul (2 ^ 53) (Zpos m)) as R.
  rewrite (Z.mul_comm (2 ^ 53)) in Q, R.
  unfold Z.div, Z.modulo in Q, R.
  destruct (Z.div_eucl (Zpos m * 2 ^ 53) (Zpos m)) as [q r]. cbn [fst snd] in Q, R.
  rewrite Q, R by lia.
  replace (new_location (Zpos m) 0) with loc_Exact.
  - destruct s; reflexivity.
  - unfold new_location, new_location_even, new_location_odd.
    destruct (Z.even (Zpos m)); reflexivity.
Qed.

Lemma div_diag (q r : float) :
  PyFloat.div q q = OK r -> PrimFloat.is_finite r = true -> r = PyFloat.one.
Proof.
  unfold PyFloat.div. rewrite eqb_zero_spec.
  destruct (Prim2SF q) as [s|s| |s m e] eqn:E; try discriminate;
    intros H; inversion H; subst; clear H; rewrite is_finite_spec, div_spec, E.
  - destruct s; discriminate.
  - discriminate.
  - intros _. apply Prim2SF_inj. rewrite div_spec, E. apply SFdiv_diag.
Qed.

(** X9.  [xmid] sends [max_x] to 1, and [ymid] sends [max_y] to 1,
    exactly, whenever the result is a finite number at all. *)
Theorem mid_of_max_is_one :
  (forall (m : GCodeScanner.t) (r : float),
      GCodeScanner.xmid m (GCodeScanner.max_x m) = OK r ->
      PrimFloat.is_finite r = true -> r = 1%float)
  /\ (forall (m : GCodeScanner.t) (r : float),
         GCodeScanner.ymid m (GCodeScanner.max_y m) = OK r ->
         PrimFloat.is_finite r = true -> r = 1%float).
Proof. split; intros m r; apply div_diag. Qed.

Lemma mid_of_max_is_one_witness :
  exists r : float,
    GCodeScanner.xmid deep_region (GCodeScanner.max_x deep_region) = OK r
    /\ r = 1%float.
Proof.
  eexists. split; [vm_compute; reflexivity|].
  apply (proj1 mid_of_max_is_one deep_region); vm_compute; reflexivity.
Defined.

(** * The translator *)

(** ** The states that copy *)

Lemma put_out_nil (self : GCodeTranslator.t) : put_out self [] = self.
Proof. destruct self. unfold put_out. cbn. now rewrite app_nil_r. Qed.

Lemma put_out_cons (self : GCodeTranslator.t) (g : GCode.t) (gs : list GCode.t) :
  put_out (GCodeTranslator.append self g) gs = put_out self (g :: gs).
Proof. unfold put_out, GCodeTranslator.append. cbn. now rewrite <- app_assoc. Qed.

Lemma translator_Intro_copies {L : PyFloat.Libm} (fuel : nat) (lines : list string) :
  Forall no_layer_marker lines ->
  forall self : GCodeTranslator.t,
    GCodeTranslator.handle_lines (1 + fuel) (GCodeTranslator.Intro, self) lines
    = Returned (GCodeTranslator.Intro, put_out self (map GCode.parse lines)).
Proof.
  unfold GCodeTranslator.handle_lines.
  induction 1 as [|line rest Hl _ IH]; intros self; cbn [handle_lines map].
  - now rewrite put_out_nil.
  - unfold handle_line at 1. cbn [fst snd replay Nat.add GCodeTranslator.call].
    unfold no_layer_marker in Hl. rewrite Hl. rewrite IH. now rewrite put_out_cons.
Qed.

Lemma translator_EndStage_copies {L : PyFloat.Libm} (fuel : nat) (lines : list string) :
  forall self : GCodeTranslator.t,
    GCodeTranslator.handle_lines (1 + fuel) (GCodeTranslator.EndStage, self) lines
    = Returned (GCodeTranslator.EndStage, put_out self (map GCode.parse lines)).
Proof.
  unfold GCodeTranslator.handle_lines.
  induction lines as [|line rest IH]; intros self; cbn [handle_lines map].
  - now rewrite put_out_nil.
  - unfold handle_line at 1. cbn [fst snd replay Nat.add GCodeTranslator.call].
    rewrite IH. now rewrite put_out_cons.
Qed.

Lemma translator_call_copies {L : PyFloat.Libm}
  (s : GCodeTranslator.state) (self : GCodeTranslator.t) (line : string) :
  copied_in s line ->
  GCodeTranslator.call s self (GCode.parse line)
  = OK (GCodeTranslator.append self (GCode.parse line), None).
Proof.
  destruct s; cbn [copied_in GCodeTranslator.call].
  - unfold no_layer_marker. now intros ->.
  - now intros ->.
  - unfold no_layer_marker, not_command. intros (-> & N & ->).
    destruct (String.eqb_spec (GCode.command (GCode.parse line)) "M107");
      [contradiction|reflexivity].
  - reflexivity.
Qed.

(** X10.  What the translator copies.  Lines that its state has
    nothing to do with are put out as they were parsed, in order, and
    nothing else of the translator changes: before the first layer
    marker every line; between a layer marker and the layer move every
    line; in a layer every line that is no motion command, no M107 and
    no layer marker; after M107 every line. *)
Theorem translator_copies {L : PyFloat.Libm} :
  forall (fuel : nat) (s : GCodeTranslator.state) (self : GCodeTranslator.t)
         (lines : list string),
    Forall (copied_in s) lines ->
    GCodeTranslator.handle_lines (1 + fuel) (s, self) lines
    = Returned (s, put_out self (map GCode.parse lines)).
Proof.
  intros fuel s self lines H. revert self. unfold GCodeTranslator.handle_lines.
  induction H as [|line rest Hl _ IH]; intros self; cbn [handle_lines map].
  - now rewrite put_out_nil.
  - unfold handle_line at 1. cbn [fst snd replay Nat.add].
    rewrite (@translator_call_copies L s self line Hl). rewrite IH.
    now rewrite put_out_cons.
Qed.

Lemma translator_copies_witness :
  GCodeTranslator.handle_lines (L:=PyFloat.crlibm) (1 + 0)
    (GCodeTranslator.LayerCode, in_first_layer)
    ["M106 S255 ; fan"; ";TYPE:WALL-OUTER"; "G92 E0"]
  = Returned (GCodeTranslator.LayerCode,
              put_out in_first_layer
                (map GCode.parse ["M106 S255 ; fan"; ";TYPE:WALL-OUTER"; "G92 E0"])).
Proof.
  apply translator_copies.
  repeat constructor; unfold no_layer_marker, not_command; vm_compute;
    congruence.
Defined.

(** X11.  In a layer the command M107 ends the translation: the line
    that carries it and every line after it are put out as they were
    parsed, a later layer marker or move included. *)
Theorem translator_copies_after_M107 {L : PyFloat.Libm} :
  forall (fuel : nat) (self : GCodeTranslator.t) (line : string) (rest : list string),
    GCode.command (GCode.parse line) = "M107" ->
    no_layer_marker line ->
    GCodeTranslator.handle_lines (2 + fuel) (GCodeTranslator.LayerCode, self)
      (line :: rest)
    = Returned (GCodeTranslator.EndStage,
                put_out self (map GCode.parse (line :: rest))).
Proof.
  intros fuel self line rest Hc Hm. unfold GCodeTranslator.handle_lines.
  cbn [handle_lines map]. unfold handle_line at 1.
  cbn [fst snd replay Nat.add GCodeTranslator.call].
  unfold no_layer_marker in Hm. rewrite Hm, Hc.
  replace (String.eqb "M107" "M107") with true by reflexivity.
  cbn [replay GCodeTranslator.call].
  change (S (S fuel)) with (1 + (1 + fuel))%nat.
  pose proof (@translator_EndStage_copies L (1 + fuel) rest) as E.
  unfold GCodeTranslator.handle_lines in E. rewrite E. now rewrite put_out_cons.
Qed.

Lemma translator_copies_after_M107_witness :
  GCodeTranslator.handle_lines (L:=PyFloat.crlibm) (2 + 0)
    (GCodeTranslator.LayerCode, in_first_layer)
    ("M107" :: [";LAYER:7"; "G0 Z9"; "G1 X1 Y1"])
  = Returned (GCodeTranslator.EndStage,
              put_out in_first_layer
                (map GCode.parse ("M107" :: [";LAYER:7"; "G0 Z9"; "G1 X1 Y1"]))).
Proof. apply translator_copies_after_M107; reflexivity. Defined.

(** ** No line is lost *)

(** A state that hands the line over has not touched the translator. *)
Lemma translator_call_hands_over {L : PyFloat.Libm}
  (s s' : GCodeTranslator.state) (self self' : GCodeTranslator.t) (g : GCode.t) :
  GCodeTranslator.call s self g = OK (self', Some s') -> self' = self.
Proof.
  destruct s; cbn [GCodeTranslator.call];
    repeat match goal with
      | |- (if ?b then _ else _) = _ -> _ => destruct b
      end; try congruence.
  intros H. apply LayerCode_motion_returns in H. discriminate.
Qed.

Lemma last_cons_default (A : Type) (a : A) (l : list A) (d d' : A) :
  last (a :: l) d = last (a :: l) d'.
Proof.
  revert a. induction l as [|b l IH]; intros a; [reflexivity|].
  change (last (a :: b :: l) d) with (last (b :: l) d).
  change (last (a :: b :: l) d') with (last (b :: l) d'). apply IH.
Qed.

(** The subdivision loop: one clone per point, and the last one made
    is the one it leaves in [new_g]. *)
Lemma subdivide_last {L : PyFloat.Libm} (g : GCode.t) (points : list (Dict.t float)) :
  forall (self self' : GCodeTranslator.t) (c0 c' : option GCode.t),
    GCodeTranslator.subdivide self g c0 points = OK (self', c') ->
    exists clones,
      GCodeTranslator.output self' = (GCodeTranslator.output self ++ clones)%list
      /\ Forall2 (clone_at self g) points clones
      /\ c' = last (map Some clones) c0.
Proof.
  induction points as [|p rest IH]; intros self self' c0 c';
    cbn [GCodeTranslator.subdivide].
  - intros H. inversion H. subst. exists []. cbn. rewrite app_nil_r. auto.
  - destruct (GCodeTranslator.coord "X" p) as [x|] eqn:Ex; cbn [bind]; [|discriminate].
    destruct (GCodeTranslator.coord "Y" p) as [y|] eqn:Ey; cbn [bind]; [|discriminate].
    destruct (GCodeTranslator.target_z self x y (GCodeTranslator.layer_z self))
      as [z|] eqn:Ez; cbn [bind]; [|discriminate].
    intros H. apply IH in H as (clones & Ho & Hc & Hl).
    exists (GCodeTranslator.clone_with g (Dict.set "Z" z p) :: clones).
    split; [|split].
    + rewrite Ho. cbn. now rewrite <- app_assoc.
    + constructor.
      * exists x, y, z. auto.
      * eapply Forall2_impl; [|exact Hc].
        intros q c (x' & y' & z' & ? & ? & ? & ?). exists x', y', z'. auto.
    + rewrite Hl. destruct clones as [|t clones]; [reflexivity|].
      cbn [map]. rewrite (last_cons_default _ _ _ c0).
      reflexivity.
Qed.

(** The ranges that [LayerCode] interpolates: X and Y, and E when the
    command has one; four points in either case. *)
Lemma LayerCode_points (ax bx ay by_ : float) (e : option (float * float)) :
  exists points,
    interpolate 4 (match e with
                   | Some ae => Dict.set "E" ae [("X", (ax, bx)); ("Y", (ay, by_))]
                   | None => [("X", (ax, bx)); ("Y", (ay, by_))]
                   end) = OK points
    /\ List.length points = 4%nat.
Proof.
  destruct e as [[ae be]|]; eexists; split; reflexivity.
Qed.

(** What [LayerCode] puts out for a motion command: one command, or
    four. *)
Lemma LayerCode_motion_puts_out {L : PyFloat.Libm}
  (self self' : GCodeTranslator.t) (g : GCode.t)
  (next : option GCodeTranslator.state) :
  GCodeTranslator.LayerCode_motion self g = OK (self', next) ->
  exists gs,
    GCodeTranslator.output self' = (GCodeTranslator.output self ++ gs)%list
    /\ (List.length gs = 1 \/ List.length gs = 4)%nat.
Proof.
  unfold GCodeTranslator.LayerCode_motion.
  destruct (GCodeTranslator.is_layer_move g) eqn:Hm.
  - destruct (GCode.float_arg "Z" g) as [z|]; cbn [bind]; [|discriminate].
    destruct (GCodeTranslator.target "X" g _) as [tx|]; cbn [bind]; [|discriminate].
    destruct (GCodeTranslator.target "Y" g _) as [ty|]; cbn [bind]; [|discriminate].
    destruct (GCodeTranslator.target_z _ tx ty _) as [tz|]; cbn [bind]; [|discriminate].
    intros H. inversion H. subst. cbn. eexists. split; [reflexivity|]. auto.
  - cbn [bind].
    destruct (GCodeTranslator.target "X" g _) as [tx|]; cbn [bind]; [|discriminate].
    destruct (GCodeTranslator.target "Y" g _) as [ty|]; cbn [bind]; [|discriminate].
    match goal with
    | |- bind ?r _ = _ -> _ => destruct r as [[t c]|] eqn:E; cbn [bind]; [|discriminate]
    end.
    intros H.
    assert (Ho : GCodeTranslator.output self' = GCodeTranslator.output t).
    { destruct c as [c|]; [|discriminate].
      match type of H with
      | (if ?b then _ else _) = _ =>
          destruct b; [destruct (GCode.float_arg "E" c); cbn [bind] in H|]
      end; inversion H; reflexivity. }
    rewrite Ho. clear H Ho.
    destruct (PrimFloat.eqb ty (GCodeTranslator.last_y self)).
    + destruct (GCodeTranslator.target_z self tx ty _) as [z|]; cbn [bind] in E;
        [|discriminate].
      inversion E. subst. cbn. eexists. split; [reflexivity|]. auto.
    + match type of E with
      | bind ?r _ = _ => destruct r as [ir|] eqn:Eir; cbn [bind] in E; [|discriminate]
      end.
      destruct (interpolate 4 ir) as [points|] eqn:Ep; cbn [bind] in E; [|discriminate].
      assert (Hp : List.length points = 4%nat).
      { destruct (Dict.mem "E" (GCode.args g)).
        - destruct (GCode.float_arg "E" g) as [te|]; cbn [bind] in Eir; [|discriminate].
          inversion Eir. subst ir.
          destruct (LayerCode_points (GCodeTranslator.last_x self) tx
                      (GCodeTranslator.last_y self) ty
                      (Some (GCodeTranslator.last_e self, te))) as (ps & Eps & Hl).
          congruence.
        - inversion Eir. subst ir.
          destruct (LayerCode_points (GCodeTranslator.last_x self) tx
                      (GCodeTranslator.last_y self) ty None) as (ps & Eps & Hl).
          congruence. }
      apply subdivide_last in E as (clones & Hc & F & _).
      exists clones. split; [exact Hc|]. right.
      apply Forall2_length in F. congruence.
Qed.

Lemma translator_call_puts_out {L : PyFloat.Libm}
  (s : GCodeTranslator.state) (self self' : GCodeTranslator.t) (g : GCode.t) :
  GCodeTranslator.call s self g = OK (self', None) ->
  exists gs,
    GCodeTranslator.output self' = (GCodeTranslator.output self ++ gs)%list
    /\ (List.length gs = 1 \/ List.length gs = 4)%nat.
Proof.
  assert (One : forall n : option GCodeTranslator.state,
                OK (GCodeTranslator.append self g, n) = OK (self', None) ->
                exists gs,
                  GCodeTranslator.output self' = (GCodeTranslator.output self ++ gs)%list
                  /\ (List.length gs = 1 \/ List.length gs = 4)%nat).
  { intros n H. inversion H. subst. cbn. eexists. split; [reflexivity|]. auto. }
  destruct s; cbn [GCodeTranslator.call];
    repeat match goal with
      | |- (if ?b then _ else _) = _ -> _ => destruct b
      end; try discriminate; try apply One.
  apply LayerCode_motion_puts_out.
Qed.

Lemma translator_replay_puts_out {L : PyFloat.Libm} (fuel : nat) (g : GCode.t) :
  forall (s s' : GCodeTranslator.state) (self self' : GCodeTranslator.t),
    replay GCodeTranslator.call fuel s self g = Returned (s', self') ->
    exists gs,
      GCodeTranslator.output self' = (GCodeTranslator.output self ++ gs)%list
      /\ (List.length gs = 1 \/ List.length gs = 4)%nat.
Proof.
  induction fuel as [|fuel IH]; intros s s' self self'; cbn [replay]; [discriminate|].
  destruct (GCodeTranslator.call s self g) as [[d [n|]]|e] eqn:E; [| |discriminate].
  - apply translator_call_hands_over in E. subst d. apply IH.
  - intros H. inversion H. subst. eapply translator_call_puts_out. eassumption.
Qed.

(** X12.  The translator loses no line and takes nothing back: after
    a run over [n] lines, what it had put out before is still there,
    followed by at least [n] and at most [4 n] commands, one or four
    for each line. *)
Theorem translator_loses_no_line {L : PyFloat.Libm} :
  forall (fuel : nat) (lines : list string)
         (sd sd' : GCodeTranslator.state * GCodeTranslator.t),
    GCodeTranslator.handle_lines fuel sd lines = Returned sd' ->
    exists gs,
      GCodeTranslator.output (snd sd') = (GCodeTranslator.output (snd sd) ++ gs)%list
      /\ (List.length lines <= List.length gs <= 4 * List.length lines)%nat.
Proof.
  intros fuel lines. unfold GCodeTranslator.handle_lines.
  induction lines as [|line rest IH]; intros sd sd'; cbn [handle_lines].
  - intros H. inversion H. subst. exists []. rewrite app_nil_r. cbn. auto.
  - unfold handle_line.
    destruct (replay GCodeTranslator.call fuel (fst sd) (snd sd) (GCode.parse line))
      as [[s1 t1]| |] eqn:E; try discriminate.
    apply translator_replay_puts_out in E as (gs1 & H1 & L1).
    intros H. apply IH in H as (gs2 & H2 & L2). cbn [snd] in H2.
    exists (gs1 ++ gs2)%list. rewrite H2, H1, <- app_assoc. split; [reflexivity|].
    rewrite length_app. cbn [List.length]. lia.
Qed.

Lemma translator_loses_no_line_witness :
  exists gs,
    GCodeTranslator.output
      (snd (GCodeTranslator.LayerCode,
            GCodeTranslator.make scanned_region
              [GCode.make "" [] ";LAYER:0";
               GCode.make "G0" [("Z", GCode.VFloat 0x1.9999999999998p-3%float)] ""]
              (Some z02) z02 0 0 0 0))
    = (GCodeTranslator.output (snd (GCodeTranslator.init scanned_region)) ++ gs)%list
    /\ (List.length [";LAYER:0"; "G0 Z0.2"] <= List.length gs
        <= 4 * List.length [";LAYER:0"; "G0 Z0.2"])%nat.
Proof.
  apply (@translator_loses_no_line PyFloat.crlibm 2 [";LAYER:0"; "G0 Z0.2"]
           (GCodeTranslator.init scanned_region)).
  vm_compute. reflexivity.
Defined.

(** ** What the translator raises *)

Lemma raises_only_weaken (A : Type) (P Q : exn -> Prop) (r : result A) :
  (forall e, P e -> Q e) -> raises_only P r -> raises_only Q r.
Proof. intros H R e E. apply H, R, E. Qed.

Lemma ValueError_is_translator_error (e : exn) : ValueError = e -> translator_error e.
Proof. intros <-. left. left. reflexivity. Qed.

Lemma target_raises (k : string) (g : GCode.t) (d : float) :
  raises_only translator_error (GCodeTranslator.target k g d).
Proof.
  unfold GCodeTranslator.target. destruct (Dict.mem k (GCode.args g)) eqn:M.
  - eapply raises_only_weaken; [apply ValueError_is_translator_error|].
    now apply float_arg_raises_ValueError.
  - apply raises_only_OK.
Qed.

Lemma div_raises (a b : float) : raises_only translator_error (PyFloat.div a b).
Proof.
  unfold PyFloat.div. destruct (PrimFloat.eqb b PyFloat.zero); intros e H;
    inversion H. left. right. left. reflexivity.
Qed.

Lemma sqr_raises {L : PyFloat.Libm} (a : float) :
  raises_only translator_error (PyFloat.sqr a).
Proof.
  unfold PyFloat.sqr. cbv zeta.
  repeat match goal with
    | |- raises_only _ (if ?b then _ else _) => destruct b
    | |- raises_only _ (OK _) => apply raises_only_OK
    end.
  destruct (PyFloat.pow2 _) as [ix er].
  destruct (PyFloat.adjust_erange1 ix er); intros e H; inversion H;
    left; [right; right|left]; reflexivity.
Qed.

Lemma sqrt_raises (a : float) : raises_only translator_error (PyFloat.sqrt a).
Proof.
  unfold PyFloat.sqrt. destruct (_ && _); intros e H; inversion H.
  left. left. reflexivity.
Qed.

Lemma target_z_raises {L : PyFloat.Libm} (self : GCodeTranslator.t) (x y z : float) :
  raises_only translator_error (GCodeTranslator.target_z self x y z).
Proof.
  unfold GCodeTranslator.target_z, GCodeScanner.layer_depression,
    GCodeScanner.xmid, GCodeScanner.ymid.
  destruct (GCodeTranslator.first_z self);
    [|intros e H; inversion H; right; reflexivity].
  repeat first
    [ apply raises_only_OK | apply div_raises | apply sqr_raises | apply sqrt_raises
    | apply raises_only_bind; [|intros ? _] ].
Qed.

(** The loop over points that all have an X and a Y. *)
Lemma subdivide_raises {L : PyFloat.Libm} (g : GCode.t) (points : list (Dict.t float)) :
  Forall (fun p => Dict.mem "X" p = true /\ Dict.mem "Y" p = true) points ->
  forall (self : GCodeTranslator.t) (c : option GCode.t),
    raises_only translator_error (GCodeTranslator.subdivide self g c points).
Proof.
  induction 1 as [|p rest [Hx Hy] _ IH]; intros self c; cbn [GCodeTranslator.subdivide].
  - apply raises_only_OK.
  - unfold GCodeTranslator.coord, Dict.mem in *.
    destruct (Dict.get "X" p); [|discriminate].
    destruct (Dict.get "Y" p); [|discriminate]. cbn [bind].
    apply raises_only_bind; [apply target_z_raises|intros z _]. apply IH.
Qed.

Lemma LayerCode_motion_raises {L : PyFloat.Libm}
  (self : GCodeTranslator.t) (g : GCode.t) :
  raises_only translator_error (GCodeTranslator.LayerCode_motion self g).
Proof.
  unfold GCodeTranslator.LayerCode_motion.
  destruct (GCodeTranslator.is_layer_move g) eqn:Hm.
  - apply raises_only_bind.
    + apply raises_only_bind; [|intros; apply raises_only_OK].
      eapply raises_only_weaken; [apply ValueError_is_translator_error|].
      apply float_arg_raises_ValueError.
      unfold GCodeTranslator.is_layer_move in Hm. now apply andb_prop in Hm.
    + intros t _.
      apply raises_only_bind; [apply target_raises|intros tx _].
      apply raises_only_bind; [apply target_raises|intros ty _].
      apply raises_only_bind; [apply target_z_raises|intros z _].
      apply raises_only_OK.
  - cbn [bind].
    apply raises_only_bind; [apply target_raises|intros tx _].
    apply raises_only_bind; [apply target_raises|intros ty _].
    apply raises_only_bind.
    + destruct (PrimFloat.eqb ty (GCodeTranslator.last_y self)).
      * apply raises_only_bind; [apply target_z_raises|intros z _].
        apply raises_only_OK.
      * destruct (Dict.mem "E" (GCode.args g)) eqn:He.
        -- apply raises_only_bind.
           ++ apply raises_only_bind; [|intros; apply raises_only_OK].
              eapply raises_only_weaken; [apply ValueError_is_translator_error|].
              now apply float_arg_raises_ValueError.
           ++ intros ir Eir.
              destruct (GCode.float_arg "E" g) as [te|]; cbn [bind] in Eir;
                [|discriminate].
              inversion Eir. subst ir.
              cbn [Dict.set String.eqb Ascii.eqb Bool.eqb].
              rewrite interpolate_xye. cbn [bind].
              apply subdivide_raises. repeat constructor.
        -- cbn [bind]. rewrite interpolate_xy. cbn [bind].
           apply subdivide_raises. repeat constructor.
    + intros [t c] E.
      assert (Hc : c <> None).
      { destruct (PrimFloat.eqb ty (GCodeTranslator.last_y self)).
        - destruct (GCodeTranslator.target_z self tx ty _); cbn [bind] in E;
            [|discriminate].
          inversion E. discriminate.
        - match type of E with
          | bind ?r _ = _ => destruct r as [ir|] eqn:Eir; cbn [bind] in E; [|discriminate]
          end.
          destruct (interpolate 4 ir) as [points|] eqn:Ep; cbn [bind] in E;
            [|discriminate].
          assert (Hp : List.length points = 4%nat).
          { destruct (Dict.mem "E" (GCode.args g)).
            - destruct (GCode.float_arg "E" g) as [te|]; cbn [bind] in Eir;
                [|discriminate].
              inversion Eir. subst ir.
              destruct (LayerCode_points (GCodeTranslator.last_x self) tx
                          (GCodeTranslator.last_y self) ty
                          (Some (GCodeTranslator.last_e self, te))) as (ps & Eps & Hl).
              congruence.
            - inversion Eir. subst ir.
              destruct (LayerCode_points (GCodeTranslator.last_x self) tx
                          (GCodeTranslator.last_y self) ty None) as (ps & Eps & Hl).
              congruence. }
          apply subdivide_last in E as (clones & _ & F & Hl).
          apply Forall2_length in F. rewrite Hp in F.
          destruct clones as [|c1 clones]; [discriminate|].
          rewrite Hl. cbn [map]. rewrite (last_cons_default _ _ _ (Some c1)).
          clear. revert c1. induction clones as [|c2 clones IH]; intros c1;
            [discriminate|].
          change (last (map Some (c1 :: c2 :: clones)) (Some c1))
            with (last (map Some (c2 :: clones)) (Some c1)).
          cbn [map]. rewrite (last_cons_default _ _ _ (Some c2)). apply IH. }
      destruct c as [c|]; [|congruence].
      destruct (Dict.mem "E" (GCode.args c)) eqn:Me; [|apply raises_only_OK].
      apply raises_only_bind; [|intros; apply raises_only_OK].
      eapply raises_only_weaken; [apply ValueError_is_translator_error|].
      now apply float_arg_raises_ValueError.
Qed.

Lemma translator_call_raises {L : PyFloat.Libm}
  (s : GCodeTranslator.state) (self : GCodeTranslator.t) (g : GCode.t) :
  raises_only translator_error (GCodeTranslator.call s self g).
Proof.
  destruct s; cbn [GCodeTranslator.call];
    repeat match goal with
      | |- raises_only _ (if ?b then _ else _) => destruct b
      | |- raises_only _ (OK _) => apply raises_only_OK
      end.
  apply LayerCode_motion_raises.
Qed.

Lemma translator_replay_raises {L : PyFloat.Libm} (fuel : nat) (g : GCode.t) :
  forall (s : GCodeTranslator.state) (self : GCodeTranslator.t) (e : exn),
    replay GCodeTranslator.call fuel s self g = Raised e -> translator_error e.
Proof.
  induction fuel as [|fuel IH]; intros s self e; cbn [replay]; [discriminate|].
  pose proof (@translator_call_raises L s self g) as R.
  destruct (GCodeTranslator.call s self g) as [[d [n|]]|e'].
  - apply IH.
  - discriminate.
  - intros H. inversion H. subst. now apply R.
Qed.

Lemma translator_handle_lines_raises {L : PyFloat.Libm}
  (fuel : nat) (lines : list string) :
  forall (sd : GCodeTranslator.state * GCodeTranslator.t) (e : exn),
    GCodeTranslator.handle_lines fuel sd lines = Raised e -> translator_error e.
Proof.
  unfold GCodeTranslator.handle_lines.
  induction lines as [|line rest IH]; intros sd e; cbn [handle_lines]; [discriminate|].
  unfold handle_line.
  destruct (replay GCodeTranslator.call fuel (fst sd) (snd sd) (GCode.parse line))
    as [sd1|e'|] eqn:E; [apply IH| |discriminate].
  intros H. inversion H. subst. eapply translator_replay_raises. eassumption.
Qed.

(** [str(g)] raises nothing but the [ValueError] of [float]. *)
Lemma str_raises_ValueError (g : GCode.t) : raises_only (eq ValueError) (GCode.str g).
Proof.
  unfold GCode.str.
  assert (F : forall d s, raises_only (eq ValueError) (GCode.format_args s d)).
  { induction d as [|[k v] d IH]; intros s; cbn [GCode.format_args].
    - apply raises_only_OK.
    - apply raises_only_bind; [|intros; apply IH].
      assert (T : raises_only (eq ValueError) (GCode.to_float v)).
      { destruct v; [apply of_string_raises_ValueError|apply raises_only_OK]. }
      unfold GCode.format_arg.
      repeat match goal with
        | |- raises_only _ (if ?b then _ else _) => destruct b
        | |- raises_only _ (bind _ _) => apply raises_only_bind; [exact T|intros ? _]
        | |- raises_only _ (OK _) => apply raises_only_OK
        end. }
  apply raises_only_bind; [apply F|intros s _].
  destruct (PyStr.is_empty (GCode.comment g)); apply raises_only_OK.
Qed.

Lemma mapM_raises (A B : Type) (P : exn -> Prop) (f : A -> result B) (l : list A) :
  (forall a, raises_only P (f a)) -> raises_only P (mapM f l).
Proof.
  intros H. induction l as [|a l IH]; cbn [mapM]; [apply raises_only_OK|].
  apply raises_only_bind; [apply H|intros b _].
  apply raises_only_bind; [apply IH|intros; apply raises_only_OK].
Qed.

(** X13.  [main] fails on arithmetic only.  Whatever the file and the
    depression, an exception that stops [main] is a [ValueError] (a
    text that [float] cannot read, a square root out of its domain), a
    [ZeroDivisionError] or an [OverflowError]: no key is ever looked
    up that is not there, [new_g] is always bound after the loop over
    the points, and no height is asked for without a baseline. *)
Theorem main_raises_arithmetic_errors_only {L : PyFloat.Libm} :
  forall (fuel : nat) (lines : list string) (depress : float) (e : exn),
    main fuel lines depress = Raised e -> arithmetic_error e.
Proof.
  intros fuel lines depress e. unfold main.
  destruct (GCodeScanner.handle_lines fuel (GCodeScanner.init depress) lines)
    as [[s model]|e1|] eqn:E1; [| |discriminate].
  - destruct (GCodeTranslator.handle_lines fuel (GCodeTranslator.init model) lines)
      as [[s' proc]|e2|] eqn:E2; [| |discriminate].
    + pose proof (@mapM_raises _ _ (eq ValueError) GCode.str
                    (GCodeTranslator.output proc) str_raises_ValueError) as R.
      destruct (mapM GCode.str (GCodeTranslator.output proc)); [discriminate|].
      intros H. inversion H. subst. left. symmetry. now apply R.
    + intros H. inversion H. subst.
      destruct (translator_handle_lines_raises _ _ _ E2) as [A|T]; [exact A|].
      exfalso. subst.
      assert (R : may_rest (GCodeTranslator.init model)) by (intros C; discriminate).
      exact (proj1 (handle_lines_no_TypeError fuel lines R) E2).
  - intros H. inversion H. subst. left.
    unfold GCodeScanner.handle_lines in E1. clear H.
    revert E1. generalize (GCodeScanner.init depress).
    induction lines as [|line rest IH]; intros sd; cbn [handle_lines]; [discriminate|].
    unfold handle_line.
    destruct (replay GCodeScanner.call fuel (fst sd) (snd sd) (GCode.parse line))
      as [sd1|e'|] eqn:E; [apply IH| |discriminate].
    intros H. inversion H. subst. eapply scanner_replay_raises_ValueError. eassumption.
Qed.

Lemma main_raises_arithmetic_errors_only_witness :
  main (L:=PyFloat.crlibm) 2 [";LAYER:0"; "G0 Z0.2"; "G1 X10 Y0 E1"] 0
  = Raised ZeroDivisionError
  /\ arithmetic_error ZeroDivisionError.
Proof.
  split; [vm_compute; reflexivity|].
  apply (@main_raises_arithmetic_errors_only PyFloat.crlibm 2
           [";LAYER:0"; "G0 Z0.2"; "G1 X10 Y0 E1"] 0).
  vm_compute. reflexivity.
Defined.

(** ** The two passes together *)

Lemma translator_handle_lines_ends {L : PyFloat.Libm} (fuel : nat) (lines : list string) :
  Forall no_marked_layer_move lines ->
  forall sd : GCodeTranslator.state * GCodeTranslator.t,
    GCodeTranslator.handle_lines (2 + fuel) sd lines <> OutOfFuel.
Proof.
  unfold GCodeTranslator.handle_lines.
  induction 1 as [|line rest Hl _ IH]; intros sd; cbn [handle_lines]; [discriminate|].
  unfold handle_line.
  pose proof (@translator_replay_terminates L fuel (fst sd) (snd sd)
                (GCode.parse line) Hl) as T.
  destruct (replay GCodeTranslator.call (2 + fuel) (fst sd) (snd sd) (GCode.parse line));
    [apply IH|discriminate|congruence].
Qed.

(** X14.  [main] comes to an end on every file in which no line is
    both a G0 command with a Z argument and a comment that starts
    with ";LAYER:": with four calls allowed per line neither pass
    keeps replaying a line. *)
Theorem main_comes_to_an_end {L : PyFloat.Libm} :
  forall (fuel : nat) (lines : list string) (depress : float),
    Forall no_marked_layer_move lines ->
    main (4 + fuel) lines depress <> OutOfFuel.
Proof.
  intros fuel lines depress H. unfold main.
  destruct (scanner_handle_lines_ends fuel lines (GCodeScanner.init depress))
    as [[[s model] E]|E]; rewrite E; [|discriminate].
  pose proof (@translator_handle_lines_ends L (2 + fuel) lines H
                (GCodeTranslator.init model)) as T.
  change (2 + (2 + fuel))%nat with (4 + fuel)%nat in T.
  destruct (GCodeTranslator.handle_lines (4 + fuel) (GCodeTranslator.init model) lines)
    as [[s' proc]| |]; [|discriminate|congruence].
  destruct (mapM GCode.str (GCodeTranslator.output proc)); discriminate.
Qed.

Lemma main_comes_to_an_end_witness :
  main (L:=PyFloat.crlibm) (4 + 0)
    [";TYPE:SKIRT"; "G1 X0 Y0 Z10"; "G1 X20 Y20"; ";LAYER:0"; "G0 Z0.2"; "G1 X10 Y5 E1"]
    0 <> OutOfFuel.
Proof.
  apply main_comes_to_an_end.
  repeat constructor; unfold no_marked_layer_move; vm_compute; reflexivity.
Defined.

(** X15.  A file without layer markers goes through [main] line by
    line: if no comment starts with ";LAYER:", [main] prints
    [str(parse(line))] for every line, in order, unless it stops on
    the [ValueError] of a number that [float] cannot read. *)
Theorem main_without_layers {L : PyFloat.Libm} :
  forall (fuel : nat) (lines : list string) (depress : float),
    Forall no_layer_marker lines ->
    main (4 + fuel) lines depress = Raised ValueError
    \/ exists out,
        mapM GCode.str (map GCode.parse lines) = OK out
        /\ main (4 + fuel) lines depress = Returned out.
Proof.
  intros fuel lines depress H. unfold main.
  destruct (scanner_handle_lines_ends fuel lines (GCodeScanner.init depress))
    as [[[s model] E]|E]; rewrite E; [|left; reflexivity].
  pose proof (@translator_Intro_copies L (3 + fuel) lines H
                (snd (GCodeTranslator.init model))) as T.
  change (1 + (3 + fuel))%nat with (4 + fuel)%nat in T.
  change (GCodeTranslator.Intro, snd (GCodeTranslator.init model))
    with (GCodeTranslator.init model) in T.
  rewrite T. cbn [put_out GCodeTranslator.output GCodeTranslator.init snd app].
  pose proof (@mapM_raises _ _ (eq ValueError) GCode.str
                (map GCode.parse lines) str_raises_ValueError) as R.
  destruct (mapM GCode.str (map GCode.parse lines)) as [out|e].
  - right. exists out. auto.
  - left. now rewrite <- (R e eq_refl).
Qed.

Lemma main_without_layers_witness :
  main (L:=PyFloat.crlibm) (4 + 0) ["G28 ; home"; " G1  X5 F1800"; "M107"] 0
  = Raised ValueError
  \/ exists out,
      mapM GCode.str (map GCode.parse ["G28 ; home"; " G1  X5 F1800"; "M107"]) = OK out
      /\ main (L:=PyFloat.crlibm) (4 + 0) ["G28 ; home"; " G1  X5 F1800"; "M107"] 0
         = Returned out.
Proof.
  apply main_without_layers.
  repeat constructor; unfold no_layer_marker; vm_compute; reflexivity.
Defined.

(** ** The cursor after a move *)

Lemma last_of_four (A : Type) (a b c d : A) (x : option A) :
  last (map Some [a; b; c; d]) x = Some d.
Proof. reflexivity. Qed.

(** X16.  Where an ordinary move leaves the cursor.  [last_x] and
    [last_y] become the target of the command.  [last_e] is left alone
    by a command without E; a command with E that is not subdivided
    sets it to that E; a subdivided one sets it to the E of its fourth
    sub-move, [last_e + 4 * ((E - last_e) / 4)] in floats, which need
    not be E. *)
Theorem LayerCode_moves_the_cursor {L : PyFloat.Libm} :
  forall (self self' : GCodeTranslator.t) (g : GCode.t)
         (next : option GCodeTranslator.state),
    ordinary_move g ->
    GCodeTranslator.call GCodeTranslator.LayerCode self g = OK (self', next) ->
    exists tx ty,
      GCodeTranslator.target "X" g (GCodeTranslator.last_x self) = OK tx
      /\ GCodeTranslator.target "Y" g (GCodeTranslator.last_y self) = OK ty
      /\ GCodeTranslator.last_x self' = tx
      /\ GCodeTranslator.last_y self' = ty
      /\ match Dict.get "E" (GCode.args g) with
         | None => GCodeTranslator.last_e self' = GCodeTranslator.last_e self
         | Some v =>
             exists te,
               GCode.to_float v = OK te
               /\ GCodeTranslator.last_e self'
                  = if PrimFloat.eqb ty (GCodeTranslator.last_y self) then te
                    else interpolated (GCodeTranslator.last_e self) te 4
         end.
Proof.
  intros self self' g next (Hc & Hmot & Hm). cbn [GCodeTranslator.call].
  rewrite Hc.
  assert (H107 : String.eqb (GCode.command g) "M107" = false).
  { unfold GCodeScanner.is_motion in Hmot. apply orb_prop in Hmot as [E|E];
      apply String.eqb_eq in E; rewrite E; reflexivity. }
  rewrite H107, Hmot. cbn [negb]. unfold GCodeTranslator.LayerCode_motion.
  rewrite Hm. cbn [bind].
  destruct (GCodeTranslator.target "X" g _) as [tx|]; cbn [bind]; [|discriminate].
  destruct (GCodeTranslator.target "Y" g _) as [ty|]; cbn [bind]; [|discriminate].
  intros H. exists tx, ty. split; [reflexivity|]. split; [reflexivity|].
  assert (Cursor : forall (t : GCodeTranslator.t) (c : GCode.t),
             GCodeTranslator.last_e t = GCodeTranslator.last_e self ->
             (if Dict.mem "E" (GCode.args c)
              then e <- GCode.float_arg "E" c ;;
                   OK (GCodeTranslator.set_last_e
                         (GCodeTranslator.set_last_xy t tx ty) e,
                       @None GCodeTranslator.state)
              else OK (GCodeTranslator.set_last_xy t tx ty, None))
             = OK (self', next) ->
             GCodeTranslator.last_x self' = tx
             /\ GCodeTranslator.last_y self' = ty
             /\ match Dict.get "E" (GCode.args c) with
                | None => GCodeTranslator.last_e self' = GCodeTranslator.last_e self
                | Some v => exists te, GCode.to_float v = OK te
                                       /\ GCodeTranslator.last_e self' = te
                end).
  { intros t c Ht. unfold Dict.mem, GCode.float_arg.
    destruct (Dict.get "E" (GCode.args c)) as [v|].
    - destruct (GCode.to_float v) as [te|]; cbn [bind]; [|discriminate].
      intros E. inversion E. subst. cbn. eauto.
    - intros E. inversion E. subst. cbn. auto. }
  destruct (PrimFloat.eqb ty (GCodeTranslator.last_y self)).
  - destruct (GCodeTranslator.target_z self tx ty _) as [z|]; cbn [bind] in H;
      [|discriminate].
    apply Cursor in H as (X & Y & E); [|reflexivity].
    split; [exact X|]. split; [exact Y|].
    cbn [GCode.set_arg GCode.args] in E. rewrite get_set in E.
    cbn [String.eqb Ascii.eqb Bool.eqb] in E. exact E.
  - match type of H with
    | bind ?r _ = _ => destruct r as [[t c]|] eqn:E; cbn [bind] in H; [|discriminate]
    end.
    destruct (Dict.mem "E" (GCode.args g)) eqn:Emem.
    + destruct (GCode.float_arg "E" g) as [te|] eqn:Ee; cbn [bind] in E; [|discriminate].
      cbn [Dict.set String.eqb Ascii.eqb Bool.eqb] in E.
      rewrite interpolate_xye in E. cbn [bind map] in E.
      pose proof E as Fe. apply subdivide_fields in Fe as (_ & _ & _ & _ & _ & Fe).
      apply subdivide_last in E as (clones & _ & F & Hl).
      repeat match goal with
        | F : Forall2 _ (_ :: _) _ |- _ => inversion F; subst; clear F
        | F : Forall2 _ [] _ |- _ => inversion F; subst; clear F
        end.
      rewrite last_of_four in H.
      match goal with
      | C : clone_at self g [("X", interpolated _ _ 4); _; _] ?c4 |- _ =>
          destruct (clone_at_xye Ee C) as [_ _ _ _ S4 _ _]
      end.
      apply Cursor in H as (X & Y & E); [|exact Fe].
      split; [exact X|]. split; [exact Y|].
      unfold Dict.mem in Emem.
      destruct (Dict.get "E" (GCode.args g)) as [v|]; [|discriminate Emem].
      destruct S4 as (te' & Tv & G4). rewrite G4 in E.
      destruct E as (te'' & Tv' & E). cbn in Tv'. inversion Tv'. subst te''.
      exists te'. auto.
    + cbn [bind] in E.
      rewrite interpolate_xy in E. cbn [bind map] in E.
      pose proof E as Fe. apply subdivide_fields in Fe as (_ & _ & _ & _ & _ & Fe).
      apply subdivide_last in E as (clones & _ & F & Hl).
      repeat match goal with
        | F : Forall2 _ (_ :: _) _ |- _ => inversion F; subst; clear F
        | F : Forall2 _ [] _ |- _ => inversion F; subst; clear F
        end.
      rewrite last_of_four in H.
      assert (Ee : Dict.get "E" (GCode.args g) = None).
      { unfold Dict.mem in Emem. destruct (Dict.get "E" (GCode.args g)); congruence. }
      match goal with
      | C : clone_at self g [("X", interpolated _ _ 4); _] ?c4 |- _ =>
          destruct (clone_at_xy Ee C) as [_ _ _ _ S4 _ _]
      end.
      apply Cursor in H as (X & Y & E); [|exact Fe].
      split; [exact X|]. split; [exact Y|].
      rewrite Ee in S4 |- *. rewrite S4 in E. exact E.
Qed.

Lemma LayerCode_moves_the_cursor_witness :
  exists self',
    GCodeTranslator.call (L:=PyFloat.crlibm) GCodeTranslator.LayerCode extruding
      (GCode.parse "G1 X20 Y8 E0.1") = OK (self', None)
    /\ exists tx ty,
        GCodeTranslator.target "X" (GCode.parse "G1 X20 Y8 E0.1")
          (GCodeTranslator.last_x extruding) = OK tx
        /\ GCodeTranslator.target "Y" (GCode.parse "G1 X20 Y8 E0.1")
             (GCodeTranslator.last_y extruding) = OK ty
        /\ GCodeTranslator.last_x self' = tx
        /\ GCodeTranslator.last_y self' = ty
        /\ match Dict.get "E" (GCode.args (GCode.parse "G1 X20 Y8 E0.1")) with
           | None => GCodeTranslator.last_e self' = GCodeTranslator.last_e extruding
           | Some v =>
               exists te,
                 GCode.to_float v = OK te
                 /\ GCodeTranslator.last_e self'
                    = if PrimFloat.eqb ty (GCodeTranslator.last_y extruding) then te
                      else interpolated (GCodeTranslator.last_e extruding) te 4
           end.
Proof.
  eexists. split.
  - vm_compute. reflexivity.
  - apply (@LayerCode_moves_the_cursor PyFloat.crlibm extruding _
             (GCode.parse "G1 X20 Y8 E0.1") None);
      [repeat split|]; vm_compute; reflexivity.
Defined.

(** ** The height *)

(** X17.  The height does not depend on X.  [target_z] computes
    [xmid(x)] and does not use it, and whether [xmid] divides by zero
    is a matter of the box alone: at two points with the same Y and Z
    the result is the same, value or error. *)
Theorem target_z_ignores_x {L : PyFloat.Libm} :
  forall (self : GCodeTranslator.t) (x x' y z : float),
    GCodeTranslator.target_z self x y z = GCodeTranslator.target_z self x' y z.
Proof.
  intros self x x' y z. unfold GCodeTranslator.target_z.
  destruct (GCodeTranslator.first_z self) as [fz|]; [|reflexivity].
  destruct (GCodeScanner.layer_depression _ _) as [d|]; [|reflexivity]. cbn [bind].
  unfold GCodeScanner.xmid, PyFloat.div.
  destruct (PrimFloat.eqb _ PyFloat.zero); reflexivity.
Qed.

Lemma sub_diag_zero (a : float) :
  PrimFloat.is_finite a = true -> is_a_zero (PrimFloat.sub a a).
Proof.
  rewrite is_finite_spec. intros F. exists false. rewrite sub_spec.
  apply SFsub_diag. destruct (Prim2SF a); auto; discriminate.
Qed.

Lemma div_zero_l (a b q : float) :
  is_a_zero a -> PrimFloat.is_nan b = false ->
  PyFloat.div a b = OK q -> is_a_zero q.
Proof.
  intros [s Ha]. rewrite is_nan_spec. unfold PyFloat.div. rewrite eqb_zero_spec.
  unfold is_a_zero.
  destruct (Prim2SF b) as [t|t| |t m e] eqn:Eb; try discriminate; intros _ H;
    inversion H; subst; rewrite div_spec, Ha, Eb; eexists; reflexivity.
Qed.

(** X18.  The first layer keeps its height.  At the height of the
    baseline the depression is a zero whatever the depression amount,
    and the height that comes back is [z + 1 - 1]: the layer that set
    [first_z] is not bent. *)
Theorem target_z_at_first_z {L : PyFloat.Libm} :
  forall (self : GCodeTranslator.t) (x y fz xm ym : float),
    GCodeTranslator.first_z self = Some fz ->
    PrimFloat.is_finite fz = true ->
    PrimFloat.is_finite (GCodeScanner.target_depression (GCodeTranslator.model self))
    = true ->
    PrimFloat.is_nan (GCodeScanner.max_z (GCodeTranslator.model self)) = false ->
    PrimFloat.eqb (GCodeScanner.max_z (GCodeTranslator.model self)) PyFloat.zero
    = false ->
    GCodeScanner.xmid (GCodeTranslator.model self) x = OK xm ->
    GCodeScanner.ymid (GCodeTranslator.model self) y = OK ym ->
    PrimFloat.is_finite ym = true ->
    GCodeTranslator.target_z self x y fz
    = OK (PrimFloat.sub (PrimFloat.add fz PyFloat.one) PyFloat.one).
Proof.
  intros self x y fz xm ym Hf Ff Ft Nm Zm Hx Hy Fy.
  set (q := PrimFloat.div (PrimFloat.sub fz fz)
              (GCodeScanner.max_z (GCodeTranslator.model self))).
  assert (Hq : PyFloat.div (PrimFloat.sub fz fz)
                 (GCodeScanner.max_z (GCodeTranslator.model self)) = OK q).
  { unfold PyFloat.div. now rewrite Zm. }
  pose proof (@div_zero_l _ _ _ (@sub_diag_zero fz Ff) Nm Hq) as Zq.
  apply (@target_z_flat L self x y fz fz
           (PrimFloat.mul
              (PrimFloat.mul
                 (GCodeScanner.target_depression (GCodeTranslator.model self)) q)
              PyFloat.four) xm ym); try assumption.
  - unfold GCodeScanner.layer_depression. rewrite Hq. reflexivity.
  - apply mul_zero_l; [apply mul_zero_r; assumption|reflexivity].
Qed.

Lemma target_z_at_first_z_witness :
  GCodeTranslator.target_z (L:=PyFloat.crlibm) in_deep_layer 3 17 z02
  = OK (PrimFloat.sub (PrimFloat.add z02 PyFloat.one) PyFloat.one).
Proof.
  eapply (@target_z_at_first_z PyFloat.crlibm in_deep_layer 3 17 z02);
    vm_compute; reflexivity.
Defined.

(** * interpolate at its edges *)

(** X19.  [interpolate(0, ...)] with at least one axis divides by
    zero: the step is computed before any point is asked for. *)
Theorem interpolate_zero_raises :
  forall p : Dict.t (float * float),
    p <> [] -> interpolate 0 p = Raise ZeroDivisionError.
Proof.
  intros [|[k j] p] H; [congruence|]. reflexivity.
Qed.

Lemma interpolate_zero_raises_witness :
  interpolate 0 [("x", (1%float, 3%float))] = Raise ZeroDivisionError.
Proof. apply interpolate_zero_raises. discriminate. Defined.

Lemma of_Z_negative (n : Z) :
  (- 2 ^ 1023 < n <= -1)%Z ->
  exists m e, Prim2SF (PyFloat.of_Z n) = S754_finite true m e.
Proof.
  intros H. unfold PyFloat.of_Z. destruct n as [|p|p]; try lia.
  cbn [binary_normalize].
  destruct (@binary_round_exact true p 0) as [[_ I]|(m & e & F & B)]; [lia| |].
  - exfalso. rewrite fexp_spec in I.
    assert (Zdigits2 (Zpos p) <= 1023)%Z by (apply Zdigits2_small; lia).
    cbn [Zdigits2] in *. lia.
  - exists m, e. rewrite F. apply Prim2SF_SF2Prim. exact B.
Qed.

(** X20.  A negative number of points is no error: [range(1, n + 1)]
    is empty, the steps are computed and thrown away, and
    [interpolate] yields nothing. *)
Theorem interpolate_negative_is_empty :
  forall (n : Z) (p : Dict.t (float * float)),
    (- 2 ^ 1023 < n <= -1)%Z -> interpolate n p = OK [].
Proof.
  intros n p H. destruct (of_Z_negative H) as (m & e & F).
  assert (On : PyFloat.of_int n = OK (PyFloat.of_Z n)
               /\ PrimFloat.eqb (PyFloat.of_Z n) PyFloat.zero = false).
  { unfold PyFloat.of_int. now rewrite is_infinity_spec, eqb_zero_spec, F. }
  destruct On as [On Zn]. unfold interpolate.
  rewrite mapM_map with (g := fun kj => (fst kj, step n (snd kj))).
  - cbn [bind]. unfold range1. destruct n; try lia. reflexivity.
  - intros kj _. unfold step_of, PyFloat.div. rewrite On. cbn [bind].
    now rewrite Zn.
Qed.

Lemma interpolate_negative_is_empty_witness :
  interpolate (-3) [("x", (1%float, 3%float))] = OK [].
Proof. apply interpolate_negative_is_empty. lia. Defined.

(** * Commands and their text *)

(** ** Dicts without repeated keys *)

Section Dicts.

Variable V : Type.

Lemma set_new (k : string) (v : V) (d : Dict.t V) :
  ~ In k (map fst d) -> Dict.set k v d = (d ++ [(k, v)])%list.
Proof.
  induction d as [|[k0 v0] d IH]; cbn [Dict.set map fst In app]; [reflexivity|].
  intros H. destruct (String.eqb_spec k0 k) as [->|N]; [tauto|].
  rewrite IH by tauto. reflexivity.
Qed.

Lemma set_keys (k : string) (v : V) (d : Dict.t V) :
  map fst (Dict.set k v d)
  = if in_dec string_dec k (map fst d) then map fst d else (map fst d ++ [k])%list.
Proof.
  induction d as [|[k0 v0] d IH]; cbn [Dict.set map fst app]; [reflexivity|].
  destruct (String.eqb_spec k0 k) as [->|N]; cbn [map fst].
  - destruct (in_dec string_dec k (k :: map fst d)) as [_|C]; [reflexivity|].
    exfalso. apply C. left. reflexivity.
  - rewrite IH.
    destruct (in_dec string_dec k (map fst d)) as [I|I],
             (in_dec string_dec k (k0 :: map fst d)) as [J|J];
      try reflexivity; exfalso.
    + apply J. right. exact I.
    + destruct J as [J|J]; [congruence|contradiction].
Qed.

Lemma set_NoDup (k : string) (v : V) (d : Dict.t V) :
  NoDup (map fst d) -> NoDup (map fst (Dict.set k v d)).
Proof.
  intros N. rewrite set_keys. destruct (in_dec string_dec k (map fst d)) as [I|I];
    [exact N|].
  apply NoDup_app; [exact N|repeat constructor; intros []|].
  intros x Hx [<-|[]]. contradiction.
Qed.

Lemma set_Forall (P : string * V -> Prop) (k : string) (v : V) (d : Dict.t V) :
  P (k, v) -> Forall P d -> Forall P (Dict.set k v d).
Proof.
  intros Pk. induction 1 as [|[k0 v0] d H0 Hd IH]; cbn [Dict.set].
  - repeat constructor. exact Pk.
  - destruct (String.eqb_spec k0 k) as [->|N]; constructor; auto.
Qed.

Lemma update_NoDup_Forall (P : string * V -> Prop) (l : list (string * V)) :
  Forall P l ->
  forall d : Dict.t V,
    NoDup (map fst d) -> Forall P d ->
    NoDup (map fst (Dict.update d l)) /\ Forall P (Dict.update d l).
Proof.
  unfold Dict.update.
  induction 1 as [|[k v] l Hk Hl IH]; intros d N F; cbn [fold_left fst snd]; [auto|].
  apply IH; [now apply set_NoDup|apply set_Forall; auto].
Qed.

Lemma update_new (l d : Dict.t V) :
  NoDup (map fst (d ++ l)) -> Dict.update d l = (d ++ l)%list.
Proof.
  unfold Dict.update. revert d.
  induction l as [|[k v] l IH]; intros d N; cbn [fold_left fst snd].
  - now rewrite app_nil_r.
  - rewrite set_new.
    + rewrite IH; rewrite <- app_assoc; [reflexivity|exact N].
    + rewrite map_app in N. cbn [map fst] in N.
      apply NoDup_remove_2 in N. intros I. apply N. apply in_or_app. left. exact I.
Qed.

End Dicts.

(** ** Strings *)

Lemma every_app (P : ascii -> bool) (a b : string) :
  every P (a ++ b) = every P a && every P b.
Proof.
  induction a as [|c a IH]; cbn [every append]; [reflexivity|].
  now rewrite IH, andb_assoc.
Qed.

Lemma word_char_no_space (s : string) : every word_char s = true -> no_space s = true.
Proof.
  induction s as [|c s IH]; cbn; [reflexivity|]. unfold word_char at 1.
  intros H. apply andb_prop in H as [H1 H2]. apply andb_prop in H1 as [H1 _].
  now rewrite H1, IH.
Qed.

Lemma word_char_not_semicolon (s : string) :
  every word_char s = true -> every not_semicolon s = true.
Proof.
  induction s as [|c s IH]; cbn; [reflexivity|]. unfold word_char at 1.
  intros H. apply andb_prop in H as [H1 H2]. apply andb_prop in H1 as [_ H1].
  now rewrite H1, IH.
Qed.

(** [';' in s] and [s.split(';', 1)] *)
Lemma partition_none (s : string) :
  every not_semicolon s = true <-> PyStr.partition ";" s = None.
Proof.
  induction s as [|c s IH]; cbn [every PyStr.partition]; [tauto|].
  unfold not_semicolon at 1. destruct (Ascii.eqb c ";"); cbn [negb andb].
  - split; discriminate.
  - rewrite IH. destruct (PyStr.partition ";" s) as [[a b]|]; split; congruence.
Qed.

Lemma partition_some (s before after : string) :
  PyStr.partition ";" s = Some (before, after) ->
  s = (before ++ String ";" after)%string /\ every not_semicolon before = true.
Proof.
  revert before. induction s as [|c s IH]; intros before; cbn [PyStr.partition];
    [discriminate|].
  destruct (Ascii.eqb_spec c ";") as [->|N].
  - intros H. inversion H. auto.
  - destruct (PyStr.partition ";" s) as [[a b]|]; [|discriminate].
    intros H. inversion H. subst. destruct (IH a eq_refl) as [-> E].
    cbn. unfold not_semicolon at 1.
    destruct (Ascii.eqb_spec c ";"); [contradiction|]. auto.
Qed.

Lemma partition_at (u after : string) :
  every not_semicolon u = true ->
  PyStr.partition ";" (u ++ String ";" after) = Some (u, after).
Proof.
  induction u as [|c u IH]; cbn [every append PyStr.partition]; [reflexivity|].
  unfold not_semicolon at 1. destruct (Ascii.eqb c ";"); cbn [negb andb];
    [discriminate|].
  intros H. now rewrite IH.
Qed.

(** [s.rstrip()] *)
Lemma rstrip_rstripped (s : string) : rstripped (PyStr.rstrip s) = true.
Proof.
  induction s as [|c s IH]; cbn [PyStr.rstrip]; [reflexivity|].
  destruct (PyStr.rstrip s) as [|d r] eqn:E; cbn [PyStr.is_empty andb].
  - rewrite andb_true_r. destruct (PyStr.isspace c) eqn:Ec; cbn; [reflexivity|].
    now rewrite Ec.
  - rewrite andb_false_r. exact IH.
Qed.

Lemma rstripped_rstrip (s : string) : rstripped s = true -> PyStr.rstrip s = s.
Proof.
  induction s as [|c s IH]; cbn [PyStr.rstrip rstripped]; [reflexivity|].
  destruct s as [|d s].
  - cbn. intros H. apply negb_true_iff in H. now rewrite H.
  - intros H. rewrite (IH H). cbn. now rewrite andb_false_r.
Qed.

Lemma rstripped_app (u x : string) : x <> "" -> rstripped (u ++ x) = rstripped x.
Proof.
  intros N. induction u as [|c u IH]; cbn [append]; [reflexivity|].
  cbn [rstripped]. destruct (u ++ x)%string eqn:E; [|exact IH].
  destruct u; cbn in E; [congruence|discriminate].
Qed.

Lemma no_space_rstripped (t : string) : no_space t = true -> rstripped t = true.
Proof.
  induction t as [|c t IH]; cbn [no_space rstripped]; [reflexivity|].
  intros H. apply andb_prop in H as [Hc Ht]. destruct t; auto.
Qed.

(** [s.split()] *)
Lemma split_from_no_space (t tok s : string) :
  no_space t = true ->
  PyStr.split_from tok (t ++ s) = PyStr.split_from (tok ++ t) s.
Proof.
  revert tok. induction t as [|c t IH]; intros tok; cbn [append no_space].
  - now rewrite append_empty_r.
  - intros H. apply andb_prop in H as [Hc Ht]. cbn [PyStr.split_from].
    destruct (PyStr.isspace c); [discriminate|].
    rewrite IH by exact Ht. now rewrite append_assoc.
Qed.

Lemma split_from_spaces (tok w : string) :
  tok <> "" -> all_space w = true -> PyStr.split_from tok w = [tok].
Proof.
  intros N. induction w as [|c w IH]; cbn [all_space PyStr.split_from].
  - destruct tok; [congruence|reflexivity].
  - intros H. apply andb_prop in H as [Hc Hw]. rewrite Hc.
    destruct tok; [congruence|]. cbn [PyStr.is_empty]. f_equal.
    clear IH N. induction w as [|d w IH]; cbn in *; [reflexivity|].
    apply andb_prop in Hw as [Hd Hw]. rewrite Hd. cbn. auto.
Qed.

Lemma split_from_spaced (ts : list string) :
  Forall word ts ->
  forall tok w : string,
    tok <> "" -> all_space w = true ->
    PyStr.split_from tok (spaced ts ++ w) = tok :: ts.
Proof.
  induction 1 as [|t ts [Ht Hn] _ IH]; intros tok w N Hw; cbn [spaced append].
  - now apply split_from_spaces.
  - cbn [PyStr.split_from]. change (PyStr.isspace " ") with true. cbv iota.
    destruct tok; [congruence|]. cbn [PyStr.is_empty]. f_equal.
    rewrite append_assoc.
    rewrite split_from_no_space by now apply word_char_no_space.
    cbn [append]. apply IH; assumption.
Qed.

(** Leading and trailing whitespace makes no token. *)
Lemma split_from_lstrip (s : string) :
  PyStr.split_from "" (PyStr.lstrip s) = PyStr.split_from "" s.
Proof.
  induction s as [|c s IH]; cbn [PyStr.lstrip PyStr.split_from]; [reflexivity|].
  destruct (PyStr.isspace c) eqn:Ec; cbn [PyStr.is_empty]; [exact IH|].
  cbn [PyStr.split_from]. now rewrite Ec.
Qed.

Lemma split_from_rstrip (s tok : string) :
  PyStr.split_from tok (PyStr.rstrip s) = PyStr.split_from tok s.
Proof.
  revert tok. induction s as [|c s IH]; intros tok; cbn [PyStr.rstrip]; [reflexivity|].
  destruct (PyStr.isspace c && PyStr.is_empty (PyStr.rstrip s)) eqn:E.
  - apply andb_prop in E as [Ec Er]. cbn [PyStr.split_from]. rewrite Ec.
    specialize (IH ""). destruct (PyStr.rstrip s); [|discriminate].
    cbn [PyStr.split_from PyStr.is_empty] in IH. rewrite <- IH.
    destruct tok; reflexivity.
  - cbn [PyStr.split_from]. rewrite !IH. reflexivity.
Qed.

Lemma split_strip (s : string) : PyStr.split (PyStr.strip s) = PyStr.split s.
Proof.
  unfold PyStr.split, PyStr.strip. now rewrite split_from_rstrip, split_from_lstrip.
Qed.

(** The tokens of a text without ';' are words. *)
Lemma split_from_words (s : string) :
  every not_semicolon s = true ->
  forall tok : string,
    every word_char tok = true -> Forall word (PyStr.split_from tok s).
Proof.
  induction s as [|c s IH]; cbn [every PyStr.split_from]; intros H tok Ht.
  - destruct tok eqn:E; cbn [PyStr.is_empty]; [constructor|].
    repeat constructor; [exact Ht|discriminate].
  - apply andb_prop in H as [Hc Hs]. destruct (PyStr.isspace c) eqn:Ec.
    + destruct tok eqn:E; cbn [PyStr.is_empty]; [now apply IH|].
      constructor; [split; [exact Ht|discriminate]|now apply IH].
    + apply IH; [exact Hs|]. rewrite every_app, Ht. cbn. unfold word_char.
      now rewrite Ec, Hc.
Qed.

(** ** What [parse] makes *)

Lemma arg_of_word (t : string) :
  word t -> parsed_arg (GCode.arg_of t) /\ token_of (GCode.arg_of t) = t.
Proof.
  intros [Ht Hn]. destruct t as [|ch sv]; [congruence|].
  split; [exists ch, sv; auto|reflexivity].
Qed.

Lemma parsed_arg_token (kv : string * GCode.value) :
  parsed_arg kv -> word (token_of kv) /\ GCode.arg_of (token_of kv) = kv.
Proof.
  intros (ch & sv & -> & H). cbn. split; [split; [exact H|discriminate]|reflexivity].
Qed.

(** [parse] in two steps: the command and the comment are cut at the
    first ';' of the line without its trailing whitespace, then the
    command is cut into tokens. *)
Lemma parse_cases (line : string) :
  exists cmd comment,
    GCode.parse line
    = match PyStr.split cmd with
      | [] => GCode.make "" [] comment
      | c :: rest => GCode.make c (Dict.of_list (map GCode.arg_of rest)) comment
      end
    /\ every not_semicolon cmd = true
    /\ (comment = ""
        \/ exists after, comment = String ";" after /\ rstripped comment = true).
Proof.
  unfold GCode.parse. pose proof (rstrip_rstripped line) as R.
  destruct (PyStr.partition ";" (PyStr.rstrip line)) as [[before after]|] eqn:E.
  - apply partition_some in E as [E N]. exists before, (String ";" after).
    rewrite split_strip. repeat split; auto. right. exists after.
    split; [reflexivity|]. rewrite E, rstripped_app in R by discriminate. exact R.
  - exists (PyStr.rstrip line), "". rewrite split_strip. repeat split; auto.
    now apply partition_none.
Qed.

Lemma parse_well_formed (line : string) : well_formed (GCode.parse line).
Proof.
  destruct (parse_cases line) as (cmd & comment & -> & N & C).
  pose proof (split_from_words _ N "" eq_refl) as W. fold (PyStr.split cmd) in W.
  destruct (PyStr.split cmd) as [|c rest].
  - constructor; cbn; auto; constructor.
  - inversion W as [|? ? Wc Wr]. subst.
    assert (A : Forall parsed_arg (map GCode.arg_of rest)).
    { clear - Wr. induction Wr; cbn [map]; constructor; auto.
      now apply arg_of_word. }
    destruct (@update_NoDup_Forall _ parsed_arg _ A []) as [ND F];
      [constructor|constructor|].
    constructor; cbn; auto.
Qed.

(** ** A command written and read again *)

Lemma format_args_plain (d : Dict.t GCode.value) :
  Forall (fun kv : string * GCode.value => other_key (fst kv)) d ->
  forall s : string,
    GCode.format_args s d = OK (s ++ spaced (map token_of d))%string.
Proof.
  induction 1 as [|[k v] d Hk _ IH]; intros s; cbn [GCode.format_args map spaced].
  - now rewrite append_empty_r.
  - cbn [fst] in Hk. destruct (other_key_eqb Hk) as (Hx & Hy & Hz & He).
    unfold GCode.format_arg. rewrite (String.eqb_sym k "E"), He.
    rewrite (String.eqb_sym k "X"), Hx, (String.eqb_sym k "Y"), Hy,
      (String.eqb_sym k "Z"), Hz.
    cbn [orb bind]. rewrite IH. unfold token_of. cbn [fst snd].
    now rewrite !append_assoc.
Qed.

Lemma tokens_of_args (d : Dict.t GCode.value) :
  Forall parsed_arg d ->
  Forall word (map token_of d) /\ map GCode.arg_of (map token_of d) = d.
Proof.
  induction 1 as [|kv d H _ [IH1 IH2]]; cbn [map]; [auto|].
  destruct (parsed_arg_token H) as [W E]. rewrite E, IH2. auto.
Qed.

Lemma every_spaced (ts : list string) :
  Forall word ts -> every not_semicolon (spaced ts) = true.
Proof.
  induction 1 as [|t ts [Ht _] _ IH]; cbn [spaced]; [reflexivity|].
  cbn [append every]. rewrite every_app, IH, (word_char_not_semicolon _ Ht).
  reflexivity.
Qed.

Lemma rstripped_spaced (ts : list string) :
  Forall word ts ->
  forall c : string, word c -> rstripped (c ++ spaced ts) = true.
Proof.
  induction 1 as [|t ts Ht _ IH]; intros c [Hc Hn]; cbn [spaced].
  - rewrite append_empty_r. now apply no_space_rstripped, word_char_no_space.
  - replace (c ++ " " ++ t ++ spaced ts)%string
      with ((c ++ " ") ++ (t ++ spaced ts))%string by now rewrite !append_assoc.
    rewrite rstripped_app; [now apply IH|].
    destruct Ht as [_ Hn']. destruct t; [congruence|discriminate].
Qed.

(** The text of a command with its arguments, read again. *)
Lemma split_command (c : string) (ts : list string) (w : string) :
  word c -> Forall word ts -> all_space w = true ->
  PyStr.split (c ++ spaced ts ++ w) = c :: ts.
Proof.
  intros [Hc Hn] Hts Hw. unfold PyStr.split.
  rewrite split_from_no_space by now apply word_char_no_space.
  cbn [append]. now apply split_from_spaced.
Qed.

Lemma startswith_semicolon (after : string) :
  PyStr.startswith ";" (String ";" after) = true.
Proof. unfold PyStr.startswith. cbn. destruct after; reflexivity. Qed.

Lemma str_then_parse (g : GCode.t) :
  well_formed g -> plain_args g ->
  exists s, GCode.str g = OK s /\ GCode.parse s = g.
Proof.
  intros [Hcmd Hargs Hkeys Hcom] Hplain. unfold GCode.str.
  rewrite (format_args_plain Hplain). cbn [bind].
  destruct (tokens_of_args Hargs) as [Wts Eargs].
  assert (Eof : Dict.of_list (map GCode.arg_of (map token_of (GCode.args g)))
                = GCode.args g).
  { rewrite Eargs. unfold Dict.of_list. now rewrite update_new. }
  destruct g as [c d com]. cbn [GCode.command GCode.args GCode.comment] in *.
  destruct Hcmd as [[-> ->]|Wc].
  - (* no command, no arguments *)
    cbn [map spaced append].
    destruct Hcom as [->|(after & -> & R)].
    + exists "". split; reflexivity.
    + exists (String ";" after). rewrite startswith_semicolon.
      split; [reflexivity|].
      unfold GCode.parse. rewrite (rstripped_rstrip _ R). reflexivity.
  - pose proof (rstripped_spaced Wts Wc) as R0.
    assert (N0 : every not_semicolon (c ++ spaced (map token_of d)) = true).
    { rewrite every_app, (every_spaced Wts).
      now rewrite (word_char_not_semicolon _ (proj1 Wc)). }
    destruct Hcom as [->|(after & -> & R)].
    + cbn [PyStr.is_empty]. exists (c ++ spaced (map token_of d))%string.
      split; [reflexivity|].
      unfold GCode.parse. rewrite (rstripped_rstrip _ R0).
      apply partition_none in N0. rewrite N0, split_strip.
      rewrite <- (append_empty_r (spaced (map token_of d))).
      rewrite (split_command "" Wc Wts eq_refl). now rewrite Eof.
    + cbn [PyStr.is_empty]. rewrite startswith_semicolon.
      assert (Es : PyStr.strip (c ++ spaced (map token_of d))
                   = (c ++ spaced (map token_of d))%string).
      { unfold PyStr.strip. destruct Wc as [Hc Hn].
        rewrite lstrip_word by (auto using word_char_no_space).
        now apply rstripped_rstrip. }
      rewrite Es.
      assert (Ne : PyStr.is_empty (c ++ spaced (map token_of d)) = false).
      { destruct Wc as [_ Hn]. destruct c; [congruence|reflexivity]. }
      rewrite Ne.
      exists (((c ++ spaced (map token_of d)) ++ " ") ++ String ";" after)%string.
      split; [reflexivity|].
      unfold GCode.parse.
      assert (Rs : rstripped (((c ++ spaced (map token_of d)) ++ " ")
                              ++ String ";" after) = true).
      { now rewrite rstripped_app by discriminate. }
      rewrite (rstripped_rstrip _ Rs).
      rewrite partition_at by (rewrite every_app, N0; reflexivity).
      rewrite split_strip, append_assoc.
      rewrite (split_command " " Wc Wts eq_refl). now rewrite Eof.
Qed.

(** X21.  Written and read again, a command is what it was.  For
    every line whose arguments are none of X, Y, Z and E, [str] of the
    parsed line is a text that [parse] reads as the same command, with
    the same arguments in the same order and the same comment: the
    arguments that [__str__] does not format as numbers survive the
    trip, and writing the command a second time gives the same
    text. *)
Theorem parse_str_parse :
  forall line : string,
    plain_args (GCode.parse line) ->
    exists s,
      GCode.str (GCode.parse line) = OK s
      /\ GCode.parse s = GCode.parse line
      /\ GCode.str (GCode.parse s) = OK s.
Proof.
  intros line H.
  destruct (str_then_parse (parse_well_formed line) H) as (s & E & P).
  exists s. rewrite P. auto.
Qed.

Lemma parse_str_parse_witness :
  exists s,
    GCode.str (GCode.parse "  M104   S200 T0  ;  heat up  ") = OK s
    /\ GCode.parse s = GCode.parse "  M104   S200 T0  ;  heat up  "
    /\ GCode.str (GCode.parse s) = OK s.
Proof.
  apply parse_str_parse.
  repeat constructor; cbn; discriminate.
Defined.

(** * The rest of a layer *)

(** X22.  What a layer move puts out.  In [LayerCode] a G0 command
    with a Z argument, on a line that is no layer marker, is put out
    once, with its Z replaced by the height at its target, computed at
    the new layer height and with the baseline that the move has just
    set if there was none; [last_x] and [last_y] become its target,
    and [last_e] stays, whether the command has an E or not. *)
Theorem LayerCode_layer_move_puts_out {L : PyFloat.Libm} :
  forall (self self' : GCodeTranslator.t) (g : GCode.t)
         (next : option GCodeTranslator.state),
    PyStr.startswith ";LAYER:" (GCode.comment g) = false ->
    GCodeTranslator.is_layer_move g = true ->
    GCodeTranslator.call GCodeTranslator.LayerCode self g = OK (self', next) ->
    exists z tx ty h,
      GCode.float_arg "Z" g = OK z
      /\ GCodeTranslator.target "X" g (GCodeTranslator.last_x self) = OK tx
      /\ GCodeTranslator.target "Y" g (GCodeTranslator.last_y self) = OK ty
      /\ GCodeTranslator.target_z (GCodeTranslator.set_layer_z self z) tx ty z = OK h
      /\ GCodeTranslator.output self'
         = (GCodeTranslator.output self ++ [GCode.set_arg "Z" (GCode.VFloat h) g])%list
      /\ GCodeTranslator.last_x self' = tx
      /\ GCodeTranslator.last_y self' = ty
      /\ GCodeTranslator.last_e self' = GCodeTranslator.last_e self
      /\ next = None.
Proof.
  intros self self' g next Hc Hm. cbn [GCodeTranslator.call]. rewrite Hc.
  assert (Hmot : String.eqb (GCode.command g) "M107" = false
                 /\ GCodeScanner.is_motion g = true).
  { unfold GCodeTranslator.is_layer_move, GCodeScanner.is_motion in *.
    apply andb_prop in Hm as [Hm _]. rewrite Hm.
    apply String.eqb_eq in Hm. rewrite Hm. auto. }
  destruct Hmot as [H107 Hmot]. rewrite H107, Hmot. cbn [negb].
  unfold GCodeTranslator.LayerCode_motion. rewrite Hm.
  destruct (GCode.float_arg "Z" g) as [z|]; cbn [bind]; [|discriminate].
  change (GCodeTranslator.last_x (GCodeTranslator.set_layer_z self z))
    with (GCodeTranslator.last_x self).
  change (GCodeTranslator.last_y (GCodeTranslator.set_layer_z self z))
    with (GCodeTranslator.last_y self).
  change (GCodeTranslator.layer_z (GCodeTranslator.set_layer_z self z)) with z.
  destruct (GCodeTranslator.target "X" g _) as [tx|]; cbn [bind]; [|discriminate].
  destruct (GCodeTranslator.target "Y" g _) as [ty|]; cbn [bind]; [|discriminate].
  destruct (GCodeTranslator.target_z _ tx ty z) as [h|] eqn:Eh; cbn [bind];
    [|discriminate].
  intros H. inversion H. subst. exists z, tx, ty, h.
  repeat split; try reflexivity. exact Eh.
Qed.

Lemma LayerCode_layer_move_puts_out_witness :
  exists self',
    GCodeTranslator.call (L:=PyFloat.crlibm) GCodeTranslator.LayerCode at_first_layer
      (GCode.parse "G0 X3 Z0.2 E7 F600") = OK (self', None)
    /\ exists z tx ty h,
        GCode.float_arg "Z" (GCode.parse "G0 X3 Z0.2 E7 F600") = OK z
        /\ GCodeTranslator.target "X" (GCode.parse "G0 X3 Z0.2 E7 F600")
             (GCodeTranslator.last_x at_first_layer) = OK tx
        /\ GCodeTranslator.target "Y" (GCode.parse "G0 X3 Z0.2 E7 F600")
             (GCodeTranslator.last_y at_first_layer) = OK ty
        /\ GCodeTranslator.target_z (L:=PyFloat.crlibm)
             (GCodeTranslator.set_layer_z at_first_layer z) tx ty z = OK h
        /\ GCodeTranslator.output self'
           = (GCodeTranslator.output at_first_layer
                ++ [GCode.set_arg "Z" (GCode.VFloat h)
                      (GCode.parse "G0 X3 Z0.2 E7 F600")])%list
        /\ GCodeTranslator.last_x self' = tx
        /\ GCodeTranslator.last_y self' = ty
        /\ GCodeTranslator.last_e self' = GCodeTranslator.last_e at_first_layer
        /\ @None GCodeTranslator.state = None.
Proof.
  eexists. split.
  - vm_compute. reflexivity.
  - apply (@LayerCode_layer_move_puts_out PyFloat.crlibm at_first_layer _
             (GCode.parse "G0 X3 Z0.2 E7 F600") None);
      vm_compute; reflexivity.
Defined.

(** ** The depression at full height *)

Lemma mul_comm (a b : float) : PrimFloat.mul a b = PrimFloat.mul b a.
Proof.
  apply Prim2SF_inj. rewrite !mul_spec. unfold SF64mul, SFmul.
  destruct (Prim2SF a) as [s|s| |s m e], (Prim2SF b) as [t|t| |t n f];
    try reflexivity; rewrite (xorb_comm s t); try reflexivity.
  now rewrite (Pos.mul_comm m n), (Z.add_comm e f).
Qed.

(** X23.  At full height the depression is four times the target
    depression: [layer_depression(max_z)] is [target_depression * 4.0]
    exactly, for every finite [max_z] that is not zero. *)
Theorem layer_depression_at_max_z :
  forall m : GCodeScanner.t,
    PrimFloat.is_finite (GCodeScanner.max_z m) = true ->
    PrimFloat.eqb (GCodeScanner.max_z m) PyFloat.zero = false ->
    GCodeScanner.layer_depression m (GCodeScanner.max_z m)
    = OK (PrimFloat.mul (GCodeScanner.target_depression m) PyFloat.four).
Proof.
  intros m F Z. unfold GCodeScanner.layer_depression, PyFloat.div. rewrite Z.
  cbn [bind]. do 2 f_equal.
  rewrite is_finite_spec in F. rewrite eqb_zero_spec in Z.
  assert (Q : PrimFloat.div (GCodeScanner.max_z m) (GCodeScanner.max_z m)
              = PyFloat.one).
  { apply Prim2SF_inj. rewrite div_spec.
    destruct (Prim2SF (GCodeScanner.max_z m)) as [s|s| |s n e]; try discriminate.
    apply SFdiv_diag. }
  rewrite Q, mul_comm. apply mul_one_l.
Qed.

Lemma layer_depression_at_max_z_witness :
  GCodeScanner.layer_depression deep_region (GCodeScanner.max_z deep_region)
  = OK (PrimFloat.mul (GCodeScanner.target_depression deep_region) PyFloat.four).
Proof. apply layer_depression_at_max_z; reflexivity. Defined.
